(** * A restaurant ordering service: shallow embedding of [main.py]

    The service keeps five tables (users, menu items, orders, order items,
    menu settings) behind an ORM session and answers HTTP requests with a
    redirect, a template with its context or an unhandled exception.

    Conventions of the embedding.
    - A Python [str] is a [string]: the UTF-8 bytes of the text.
    - A Python [int] is a [Z]; a Python [float] is a binary64 [float].
    - A table is the list of its rows in insertion order, which is the order
      a query without [ORDER BY] yields them in.  Module [Sqlite] has what
      the backend does to the values it is given: an integer parameter must
      fit 64 bits, a float column keeps neither NaN nor the sign of zero.
    - An exception that no handler catches ends the request: the ORM session
      is closed without a commit and the session cookie is not rewritten, so
      the store and the cookie are the ones from before the request.
    - A response is what the handler returns; for a template response, the
      name of the template and the context it is given.  What the template
      makes of the context is not part of the embedding.
    - A session is what a login has left in the cookie: the id of a user
      row. *)

From Stdlib Require Import ZArith NArith List String Ascii Bool Lia.
From Stdlib Require Import DecimalString.
From Stdlib Require Import Floats.
From Stdlib Require Import Sorted Permutation.
Import ListNotations.

Local Open Scope string_scope.
Local Open Scope Z_scope.

(** ** Python values and built-ins *)

Module Py.

(** The exceptions the handlers can let escape. *)
Inductive exn : Set :=
| ValueError        (* int() of a text that is no integer literal *)
| OverflowError     (* int too large for a float, or for the backend *)
| AttributeError    (* attribute access on None *)
| TypeError         (* None * int, int() of an uploaded file *)
| IndexError        (* list index out of range *)
| IntegrityError.   (* a UNIQUE constraint failed at flush *)

(** A computation that returns or raises. *)
Inductive result (A : Type) : Type :=
| Ok (a : A)
| Raise (e : exn).
Arguments Ok {A} a.
Arguments Raise {A} e.

Definition bind {A B} (c : result A) (k : A -> result B) : result B :=
  match c with
  | Ok a => k a
  | Raise e => Raise e
  end.

(** *** str *)

(** [key.startswith(p)] *)
Definition startswith (s p : string) : bool := String.prefix p s.

(** [s.split(sep)] for a separator of one character: every occurrence
    cuts, so the result is never empty. *)
Fixpoint split (sep : ascii) (s : string) : list string :=
  match s with
  | EmptyString => [EmptyString]
  | String c r =>
      if Ascii.eqb c sep then EmptyString :: split sep r
      else match split sep r with
           | h :: t => String c h :: t
           | [] => [String c EmptyString]
           end
  end.

(** [l[i]] for [i >= 0] *)
Definition index {A} (l : list A) (i : nat) : result A :=
  match nth_error l i with
  | Some a => Ok a
  | None => Raise IndexError
  end.

(** [s.lower()] on ASCII letters *)
Definition lower_char (c : ascii) : ascii :=
  let n := N_of_ascii c in
  if ((65 <=? n) && (n <=? 90))%N then ascii_of_N (n + 32) else c.

Fixpoint lower (s : string) : string :=
  match s with
  | EmptyString => EmptyString
  | String c r => String (lower_char c) (lower r)
  end.

(** *** int(str)

    [int(s)] in base 10.  A text that is not ASCII is first brought to
    ASCII: a Unicode blank becomes a space, a Unicode decimal digit the
    ASCII digit of its value, any other character above ASCII a question
    mark.  Then the blanks around the literal are dropped (the six of C's
    [isspace]), one sign may lead, and the digits may be grouped by single
    underscores.  A literal of more than 4300 digits is refused like a
    text that is no literal, with ValueError. *)

Definition continuation (b : N) : bool := ((128 <=? b) && (b <? 192))%N.

(** A code point that UTF-8 writes in a sequence of its length: at least
    [least], at most U+10FFFF, and no surrogate. *)
Definition scalar (least c : N) : bool :=
  ((least <=? c) && (c <=? 1114111)
   && negb ((55296 <=? c) && (c <=? 57343)))%N.

(** The code points of a UTF-8 text; [None] when the bytes are no UTF-8. *)
Fixpoint decode (l : list N) : option (list N) :=
  match l with
  | [] => Some []
  | b :: r =>
      if (b <? 128)%N then option_map (cons b) (decode r)
      else if (b <? 192)%N then None
      else if (b <? 224)%N then
        match r with
        | c1 :: r1 =>
            let c := ((b - 192) * 64 + (c1 - 128))%N in
            if continuation c1 && scalar 128 c
            then option_map (cons c) (decode r1)
            else None
        | _ => None
        end
      else if (b <? 240)%N then
        match r with
        | c1 :: c2 :: r2 =>
            let c := ((b - 224) * 4096 + (c1 - 128) * 64 + (c2 - 128))%N in
            if continuation c1 && continuation c2 && scalar 2048 c
            then option_map (cons c) (decode r2)
            else None
        | _ => None
        end
      else if (b <? 248)%N then
        match r with
        | c1 :: c2 :: c3 :: r3 =>
            let c := ((b - 240) * 262144 + (c1 - 128) * 4096
                      + (c2 - 128) * 64 + (c3 - 128))%N in
            if continuation c1 && continuation c2 && continuation c3
               && scalar 65536 c
            then option_map (cons c) (decode r3)
            else None
        | _ => None
        end
      else None
  end.

(** The blanks above ASCII ([str.isspace]). *)
Definition unicode_space (c : N) : bool :=
  ((c =? 133) || (c =? 160) || (c =? 5760)
   || ((8192 <=? c) && (c <=? 8202))
   || (c =? 8232) || (c =? 8233) || (c =? 8239) || (c =? 8287)
   || (c =? 12288))%N.

(** The digit zero of every script above ASCII that has decimal digits
    (Unicode 14, the table of CPython 3.11); the other nine follow it. *)
Definition unicode_zeros : list N :=
  [1632; 1776; 1984; 2406; 2534; 2662; 2790; 2918; 3046; 3174; 3302; 3430;
   3558; 3664; 3792; 3872; 4160; 4240; 6112; 6160; 6470; 6608; 6784; 6800;
   6992; 7088; 7232; 7248; 42528; 43216; 43264; 43472; 43504; 43600; 44016;
   65296; 66720; 68912; 69734; 69872; 69942; 70096; 70384; 70736; 70864;
   71248; 71360; 71472; 71904; 72016; 72784; 73040; 73120; 92768; 92864;
   93008; 120782; 120792; 120802; 120812; 120822; 123200; 123632; 125264;
   130032]%N.

Definition unicode_decimal (c : N) : option N :=
  match find (fun z => (z <=? c) && (c <? z + 10))%N unicode_zeros with
  | Some z => Some (c - z)%N
  | None => None
  end.

(** The ASCII character a code point is read as. *)
Definition to_ascii (c : N) : ascii :=
  if (c <? 127)%N then ascii_of_N c
  else if unicode_space c then " "%char
  else match unicode_decimal c with
       | Some d => ascii_of_N (48 + d)
       | None => "?"%char
       end.

Definition is_space (c : ascii) : bool :=
  let n := N_of_ascii c in
  (((9 <=? n) && (n <=? 13)) || (n =? 32))%N.

Definition digit_val (c : ascii) : option Z :=
  let n := N_of_ascii c in
  if ((48 <=? n) && (n <=? 57))%N then Some (Z.of_N n - 48) else None.

Fixpoint lstrip (l : list ascii) : list ascii :=
  match l with
  | c :: r => if is_space c then lstrip r else l
  | [] => []
  end.

Definition strip (l : list ascii) : list ascii :=
  rev (lstrip (rev (lstrip l))).

(** The digits after the sign; [prev] tells that the character before was
    a digit, which an underscore and the end of the literal both need. *)
Fixpoint digits (acc : Z) (prev : bool) (l : list ascii) : option Z :=
  match l with
  | [] => if prev then Some acc else None
  | c :: r =>
      if Ascii.eqb c "_"%char then
        if prev then digits acc false r else None
      else
        match digit_val c with
        | Some d => digits (10 * acc + d) true r
        | None => None
        end
  end.

(** [sys.int_info.default_max_str_digits] *)
Definition max_str_digits : N := 4300.

(** The number of digits of a literal; the underscores do not count. *)
Definition count_digits (l : list ascii) : N :=
  N.of_nat
    (List.length
       (filter (fun c => match digit_val c with Some _ => true | None => false end)
               l)).

Definition unsigned_literal (l : list ascii) : option Z :=
  if (max_str_digits <? count_digits l)%N then None else digits 0 false l.

Definition int_literal (l : list ascii) : option Z :=
  match l with
  | c :: r =>
      if Ascii.eqb c "-"%char then option_map Z.opp (unsigned_literal r)
      else if Ascii.eqb c "+"%char then unsigned_literal r
      else unsigned_literal l
  | [] => None
  end.

Definition int (s : string) : result Z :=
  match decode (map N_of_ascii (list_ascii_of_string s)) with
  | Some points =>
      match int_literal (strip (map to_ascii points)) with
      | Some z => Ok z
      | None => Raise ValueError
      end
  | None => Raise ValueError
  end.

(** *** float *)

(** [float(z)]: the nearest binary64, ties to even; an integer that
    rounds beyond the largest finite float raises [OverflowError]. *)
Definition nearest (z : Z) : float :=
  SF2Prim (binary_normalize prec emax z 0 false).

Definition float_of_int (z : Z) : result float :=
  let f := nearest z in
  if PrimFloat.is_infinity f then Raise OverflowError else Ok f.

(** [x * z] for a float [x] and an int [z]: the int is converted first. *)
Definition float_mul_int (x : float) (z : Z) : result float :=
  bind (float_of_int z) (fun y => Ok (PrimFloat.mul x y)).

(** [x * z] where [x] was read from a nullable float column: [None * z]
    is a TypeError, whatever the int. *)
Definition mul (x : option float) (z : Z) : result float :=
  match x with
  | Some f => float_mul_int f z
  | None => Raise TypeError
  end.

(** [a + x] where [a] is the running total, which starts as the int 0. *)
Definition float_add (a x : float) : float := PrimFloat.add a x.

(** *** datetime *)

Record datetime : Set := {
  year : N; month : N; day : N;
  hour : N; minute : N; second : N; microsecond : N
}.

Fixpoint zeros (n : nat) : string :=
  match n with
  | O => EmptyString
  | S k => String "0"%char (zeros k)
  end.

(** A number in decimal, padded with zeros on the left to [w] digits. *)
Definition pad (w : nat) (n : N) : string :=
  let d := NilZero.string_of_uint (N.to_uint n) in
  zeros (w - String.length d) ++ d.

(** [strftime("%Y-%m-%d %H:%M:%S")] *)
Definition strftime_order (t : datetime) : string :=
  pad 4 (year t) ++ "-" ++ pad 2 (month t) ++ "-" ++ pad 2 (day t) ++ " "
  ++ pad 2 (hour t) ++ ":" ++ pad 2 (minute t) ++ ":" ++ pad 2 (second t).

(** [strftime("%Y%m%d-%H%M%S%f")] *)
Definition strftime_image (t : datetime) : string :=
  pad 4 (year t) ++ pad 2 (month t) ++ pad 2 (day t) ++ "-"
  ++ pad 2 (hour t) ++ pad 2 (minute t) ++ pad 2 (second t)
  ++ pad 6 (microsecond t).

End Py.

Notation "x <- c ;; k" := (Py.bind c (fun x => k))
  (at level 61, c at next level, right associativity).

(** ** The backend

    What SQLite, through the [sqlite3] driver, does to the Python values of
    a statement. *)

Module Sqlite.

(** An [int] parameter is bound as a signed 64-bit integer. *)
Definition fits (i : Z) : bool := (- 2 ^ 63 <=? i) && (i <=? 2 ^ 63 - 1).

(** Binding an [int]: one that does not fit raises OverflowError. *)
Definition bind (i : Z) : Py.result Z :=
  if fits i then Py.Ok i else Py.Raise Py.OverflowError.

(** A [float] written to a FLOAT column and read back: NaN is stored as
    NULL and read as [None], a negative zero is read as zero, any other
    float is read as it was written. *)
Definition real (x : float) : option float :=
  match PrimFloat.classify x with
  | NaN => None
  | NZero => Some 0%float
  | _ => Some x
  end.

End Sqlite.

(** ** The schema

    One module per mapped class, so that a column reads as in the source:
    [User.username u], [MenuItem.price m].  A column holds what a query
    reads from it.  A foreign-key column is nullable and so is an
    [option]; so is a FLOAT column, which reads [None] where a NaN was
    written. *)

Module User.
Record t : Set := {
  id : Z;
  username : string;          (* unique *)
  password : string;
  is_restaurant : bool
}.
Definition set_password (u : t) (p : string) : t :=
  {| id := id u; username := username u; password := p;
     is_restaurant := is_restaurant u |}.
End User.

Module MenuItem.
Record t : Set := {
  id : Z;
  name : string;
  price : option float;
  description : option string;
  image_path : option string
}.
Definition set_details (m : t) (n : string) (p : float) (d : string) : t :=
  {| id := id m; name := n; price := Sqlite.real p; description := Some d;
     image_path := image_path m |}.
Definition set_image_path (m : t) (path : string) : t :=
  {| id := id m; name := name m; price := price m;
     description := description m; image_path := Some path |}.
End MenuItem.

Module Order.
Record t : Set := {
  id : Z;
  user_id : option Z;         (* users.id *)
  order_date : string;
  total_price : option float
}.
Definition set_user_id (o : t) (u : option Z) : t :=
  {| id := id o; user_id := u; order_date := order_date o;
     total_price := total_price o |}.
End Order.

Module OrderItem.
Record t : Set := {
  id : Z;
  order_id : option Z;        (* orders.id *)
  menu_item_id : option Z;    (* menu_items.id *)
  quantity : Z
}.
Definition set_menu_item_id (i : t) (m : option Z) : t :=
  {| id := id i; order_id := order_id i; menu_item_id := m;
     quantity := quantity i |}.
End OrderItem.

Module MenuSetting.
Record t : Set := {
  id : Z;
  full_menu_image : option string
}.
Definition set_full_menu_image (s : t) (path : string) : t :=
  {| id := id s; full_menu_image := Some path |}.
End MenuSetting.

(** The committed content of [restaurant.db]. *)
Record DB : Set := {
  users : list User.t;
  menu_items : list MenuItem.t;
  orders : list Order.t;
  order_items : list OrderItem.t;
  menu_settings : list MenuSetting.t
}.

(** [Base.metadata.create_all] on a new file: five empty tables. *)
Definition empty_db : DB :=
  {| users := []; menu_items := []; orders := []; order_items := [];
     menu_settings := [] |}.

Definition set_users (d : DB) (l : list User.t) : DB :=
  {| users := l; menu_items := menu_items d; orders := orders d;
     order_items := order_items d; menu_settings := menu_settings d |}.
Definition set_menu_items (d : DB) (l : list MenuItem.t) : DB :=
  {| users := users d; menu_items := l; orders := orders d;
     order_items := order_items d; menu_settings := menu_settings d |}.
Definition set_orders (d : DB) (l : list Order.t) : DB :=
  {| users := users d; menu_items := menu_items d; orders := l;
     order_items := order_items d; menu_settings := menu_settings d |}.
Definition set_order_items (d : DB) (l : list OrderItem.t) : DB :=
  {| users := users d; menu_items := menu_items d; orders := orders d;
     order_items := l; menu_settings := menu_settings d |}.
Definition set_menu_settings (d : DB) (l : list MenuSetting.t) : DB :=
  {| users := users d; menu_items := menu_items d; orders := orders d;
     order_items := order_items d; menu_settings := l |}.

(** ** The ORM session

    What the handlers ask of [db]: queries by a column, [add], [delete],
    attribute assignment, each followed by [commit].  *)

Module Orm.

(** The key SQLite gives a new row of an [INTEGER PRIMARY KEY] table: one
    more than the largest key in use, 1 in an empty table. *)
Definition next_id (ids : list Z) : Z := 1 + fold_right Z.max 0 ids.

Definition opt_eqb (a : option Z) (b : Z) : bool :=
  match a with
  | Some x => x =? b
  | None => false
  end.

(** The row of [users] with key [i]:
    [db.query(User).filter(User.id == i).first()] for a key the backend
    takes. *)
Definition user_by_id (d : DB) (i : Z) : option User.t :=
  find (fun u => User.id u =? i) (users d).

(** The same query for an [int] that comes with the request: it is bound
    first, and one that does not fit raises. *)
Definition query_user (d : DB) (i : Z) : Py.result (option User.t) :=
  k <- Sqlite.bind i ;;
  Py.Ok (user_by_id d k).

(** [db.query(User).filter(User.username == n).first()] *)
Definition user_by_username (d : DB) (n : string) : option User.t :=
  find (fun u => String.eqb (User.username u) n) (users d).

(** [db.query(User).filter(User.is_restaurant == True).first()] *)
Definition first_restaurant (d : DB) : option User.t :=
  find User.is_restaurant (users d).

(** The row of [menu_items] with key [i]:
    [db.query(MenuItem).filter(MenuItem.id == i).first()] for a key the
    backend takes. *)
Definition menu_item_by_id (d : DB) (i : Z) : option MenuItem.t :=
  find (fun m => MenuItem.id m =? i) (menu_items d).

(** The same query for an [int] that comes with the request. *)
Definition query_menu_item (d : DB) (i : Z) : Py.result (option MenuItem.t) :=
  k <- Sqlite.bind i ;;
  Py.Ok (menu_item_by_id d k).

(** The same query on a reference read from a column: [MenuItem.id ==
    None] is rendered [IS NULL], which no row of a primary key satisfies. *)
Definition menu_item_by_ref (d : DB) (r : option Z) : option MenuItem.t :=
  match r with
  | Some i => menu_item_by_id d i
  | None => None
  end.

(** [order.items]: the rows of the relationship, by [order_items.order_id]. *)
Definition items_of (d : DB) (o : Order.t) : list OrderItem.t :=
  filter (fun i => opt_eqb (OrderItem.order_id i) (Order.id o)) (order_items d).

(** [.order_by(Order.order_date.desc())]: text comparison, latest first;
    rows of one date stay in table order. *)
Fixpoint insert_desc (o : Order.t) (l : list Order.t) : list Order.t :=
  match l with
  | [] => [o]
  | x :: r =>
      if String.leb (Order.order_date x) (Order.order_date o)
      then o :: l
      else x :: insert_desc o r
  end.

Definition order_by_date_desc (l : list Order.t) : list Order.t :=
  fold_right insert_desc [] l.

(** [db.add(User(...)); db.commit()].  [users.username] is declared
    [unique=True]: the INSERT of a name in use fails the flush with
    IntegrityError. *)
Definition add_user (d : DB) (n p : string) (r : bool) : Py.result (DB * User.t) :=
  match user_by_username d n with
  | Some _ => Py.Raise Py.IntegrityError
  | None =>
      let u := {| User.id := next_id (map User.id (users d));
                  User.username := n; User.password := p;
                  User.is_restaurant := r |} in
      Py.Ok (set_users d (users d ++ [u])%list, u)
  end.

(** [db.add(MenuItem(...)); db.commit()] *)
Definition add_menu_item (d : DB) (n : string) (p : float)
    (ds img : option string) : DB :=
  let m := {| MenuItem.id := next_id (map MenuItem.id (menu_items d));
              MenuItem.name := n; MenuItem.price := Sqlite.real p;
              MenuItem.description := ds; MenuItem.image_path := img |} in
  set_menu_items d (menu_items d ++ [m])%list.

(** [db.add(MenuSetting()); db.commit(); db.refresh(...)] *)
Definition add_menu_setting (d : DB) : DB * MenuSetting.t :=
  let s := {| MenuSetting.id := next_id (map MenuSetting.id (menu_settings d));
              MenuSetting.full_menu_image := None |} in
  (set_menu_settings d (menu_settings d ++ [s])%list, s).

(** [db.add(Order(...)); db.flush()]: the row gets its key. *)
Definition add_order (d : DB) (u : Z) (date : string) (total : float)
    : DB * Order.t :=
  let o := {| Order.id := next_id (map Order.id (orders d));
              Order.user_id := Some u; Order.order_date := date;
              Order.total_price := Sqlite.real total |} in
  (set_orders d (orders d ++ [o])%list, o).

(** [db.add(OrderItem(...))], as the commit inserts it: the quantity is
    the one [int] of the row that comes from the request. *)
Definition add_order_item (d : DB) (o m q : Z) : Py.result DB :=
  k <- Sqlite.bind q ;;
  let i := {| OrderItem.id := next_id (map OrderItem.id (order_items d));
              OrderItem.order_id := Some o; OrderItem.menu_item_id := Some m;
              OrderItem.quantity := k |} in
  Py.Ok (set_order_items d (order_items d ++ [i])%list).

(** Assignment to attributes of a loaded row, then [commit]: an UPDATE
    that sets the assigned columns of the row with that key. *)
Definition update_user (d : DB) (i : Z) (f : User.t -> User.t) : DB :=
  set_users d (map (fun x => if User.id x =? i then f x else x) (users d)).

Definition update_menu_item (d : DB) (i : Z) (f : MenuItem.t -> MenuItem.t)
    : DB :=
  set_menu_items d
    (map (fun x => if MenuItem.id x =? i then f x else x) (menu_items d)).

Definition update_menu_setting (d : DB) (i : Z)
    (f : MenuSetting.t -> MenuSetting.t) : DB :=
  set_menu_settings d
    (map (fun x => if MenuSetting.id x =? i then f x else x)
         (menu_settings d)).

(** [db.delete(item); db.commit()].  [MenuItem.order_items] is a
    relationship without a delete cascade: at flush the ORM loads the
    rows of the collection and sets their [menu_item_id] to NULL, then
    deletes the parent row. *)
Definition unlink_menu_item (m : Z) (i : OrderItem.t) : OrderItem.t :=
  if opt_eqb (OrderItem.menu_item_id i) m
  then OrderItem.set_menu_item_id i None
  else i.

Definition delete_menu_item (d : DB) (m : MenuItem.t) : DB :=
  let d1 := set_order_items d
              (map (unlink_menu_item (MenuItem.id m)) (order_items d)) in
  set_menu_items d1
    (filter (fun x => negb (MenuItem.id x =? MenuItem.id m)) (menu_items d1)).

(** [db.delete(db_user); db.commit()]: [User.orders] has no delete
    cascade either, the user's orders are kept with [user_id] NULL. *)
Definition unlink_user (u : Z) (o : Order.t) : Order.t :=
  if opt_eqb (Order.user_id o) u then Order.set_user_id o None else o.

Definition delete_user (d : DB) (u : User.t) : DB :=
  let d1 := set_orders d (map (unlink_user (User.id u)) (orders d)) in
  set_users d1
    (filter (fun x => negb (User.id x =? User.id u)) (users d1)).

End Orm.

(** ** Requests and responses *)

(** [request.session]: the user id under ["auth"], when the key is set.
    The session travels in a signed cookie, one per client, and only a
    login sets the key, to the id of a user row. *)
Definition Session : Set := option Z.

(** An uploaded file: its declared name and its bytes. *)
Record UploadFile : Set := {
  filename : string;
  content : string
}.

(** The value of a form field: a text, or a file when the part has a file
    name. *)
Inductive FormValue : Set :=
| Text (s : string)
| File (f : UploadFile).

(** What lives on the server between two requests: the database and the
    files under [static/images], by path. *)
Record World : Set := {
  db : DB;
  images : list (string * string)
}.

Definition set_db (w : World) (d : DB) : World :=
  {| db := d; images := images w |}.

(** One line of [order.items_with_details]. *)
Record Detail : Set := {
  d_name : string;
  d_price : option float;
  d_quantity : Z;
  d_subtotal : float
}.

(** The view model handed to a template. *)
Inductive Context : Set :=
| LoginPage (error : option string)
| DashboardPage (user : User.t) (all_orders : list Order.t)
| UsersPage (user : User.t) (all_users : list User.t)
| MenuPage (user : User.t) (items : list MenuItem.t) (full_menu_image : option string)
| OrdersPage (user : User.t) (history : list (Order.t * list Detail)).

Inductive Response : Set :=
| Redirect (url : string)                         (* status 303 *)
| TemplateResponse (name : string) (ctx : Context)
| ServerError (e : Py.exn).                       (* unhandled exception *)

(** The state after a handler has returned, and its response. *)
Record Reply : Set := {
  world : World;
  session : Session;
  response : Response
}.

Definition reply (w : World) (s : Session) (r : Response) : Py.result Reply :=
  Py.Ok {| world := w; session := s; response := r |}.

(** ** Helpers of [main.py] *)

(** [init_db]: on a database without a restaurant account, the two seed
    accounts, four menu items and the settings row, in one commit. *)
Definition init_db (d : DB) : Py.result DB :=
  match Orm.first_restaurant d with
  | Some _ => Py.Ok d
  | None =>
      r1 <- Orm.add_user d "restaurant" "restaurant" true ;;
      r2 <- Orm.add_user (fst r1) "customer" "customer" false ;;
      let d := fst r2 in
      let d := Orm.add_menu_item d "漢堡" 80 (Some "牛肉漢堡") None in
      let d := Orm.add_menu_item d "薯條" 40 (Some "酥脆薯條") None in
      let d := Orm.add_menu_item d "可樂" 30 (Some "冰涼可樂") None in
      let d := Orm.add_menu_item d "沙拉" 60 (Some "新鮮蔬菜沙拉") None in
      Py.Ok (fst (Orm.add_menu_setting d))
  end.

(** [get_current_user] *)
Definition get_current_user (d : DB) (s : Session) : option User.t :=
  match s with
  | None => None
  | Some user_id => Orm.user_by_id d user_id
  end.

(** [get_menu_settings]: the first settings row, created when missing. *)
Definition get_menu_settings (d : DB) : DB * MenuSetting.t :=
  match menu_settings d with
  | s :: _ => (d, s)
  | [] => Orm.add_menu_setting d
  end.

(** [open(file_path, "wb")] and the copy: the file is created or replaced. *)
Definition write_file (fs : list (string * string)) (path data : string)
    : list (string * string) :=
  (path, data) :: filter (fun f => negb (String.eqb (fst f) path)) fs.

(** [save_image] *)
Definition save_image (now : Py.datetime) (fs : list (string * string))
    (upload_file : UploadFile) : list (string * string) * string :=
  let timestamp := Py.strftime_image now in
  let file_name := timestamp ++ ".jpg" in
  let file_path := "static/images/" ++ file_name in
  (write_file fs file_path (content upload_file), "/" ++ file_path).

(** The guard every restaurant route opens with:
    [if not user or not user.is_restaurant: return RedirectResponse("/")]. *)
Definition restaurant_only (w : World) (s : Session)
    (body : User.t -> Py.result Reply) : Py.result Reply :=
  match get_current_user (db w) s with
  | None => reply w s (Redirect "/")
  | Some user =>
      if User.is_restaurant user then body user
      else reply w s (Redirect "/")
  end.

(** The guard of the customer routes: [if not user: ...]. *)
Definition logged_in (w : World) (s : Session)
    (body : User.t -> Py.result Reply) : Py.result Reply :=
  match get_current_user (db w) s with
  | None => reply w s (Redirect "/")
  | Some user => body user
  end.

(** ** The routes *)

(** [GET /] *)
Definition root (w : World) (s : Session) : Py.result Reply :=
  reply w s (TemplateResponse "login.html" (LoginPage None)).

(** [POST /login] *)
Definition login (w : World) (s : Session) (username password : string)
    (is_student : option string) : Py.result Reply :=
  let is_restaurant :=
    negb (match is_student with
          | Some v => String.eqb v "true"
          | None => false
          end) in
  let enter (w : World) (user : User.t) :=
    let s := Some (User.id user) in
    if User.is_restaurant user
    then reply w s (Redirect "/restaurant/dashboard")
    else reply w s (Redirect "/customer/menu") in
  match Orm.user_by_username (db w) username with
  | None =>
      if negb is_restaurant then
        r <- Orm.add_user (db w) username password false ;;
        enter (set_db w (fst r)) (snd r)
      else
        reply w s (TemplateResponse "login.html"
                     (LoginPage (Some "帳號或密碼不正確")))
  | Some user =>
      if negb (String.eqb (User.password user) password) then
        reply w s (TemplateResponse "login.html"
                     (LoginPage (Some "帳號或密碼不正確")))
      else enter w user
  end.

(** [GET /logout] *)
Definition logout (w : World) (s : Session) : Py.result Reply :=
  reply w None (Redirect "/").

(** [GET /restaurant/dashboard] *)
Definition restaurant_dashboard (w : World) (s : Session) : Py.result Reply :=
  restaurant_only w s (fun user =>
    let all_orders := Orm.order_by_date_desc (orders (db w)) in
    reply w s (TemplateResponse "restaurant_dashboard.html"
                 (DashboardPage user all_orders))).

(** [GET /restaurant/users] *)
Definition restaurant_users (w : World) (s : Session) : Py.result Reply :=
  restaurant_only w s (fun user =>
    reply w s (TemplateResponse "restaurant_users.html"
                 (UsersPage user (users (db w))))).

(** [POST /restaurant/users/add] *)
Definition add_user (w : World) (s : Session)
    (username password is_restaurant : string) : Py.result Reply :=
  restaurant_only w s (fun _ =>
    let is_restaurant_bool := String.eqb (Py.lower is_restaurant) "true" in
    r <- Orm.add_user (db w) username password is_restaurant_bool ;;
    reply (set_db w (fst r)) s (Redirect "/restaurant/users")).

(** [POST /restaurant/users/update/{user_id}] *)
Definition update_user (w : World) (s : Session) (user_id : Z)
    (password confirm_password : string) : Py.result Reply :=
  restaurant_only w s (fun _ =>
    if negb (String.eqb password confirm_password) then
      reply w s (Redirect "/restaurant/users")
    else
      db_user <- Orm.query_user (db w) user_id ;;
      match db_user with
      | Some target_user =>
          let d := Orm.update_user (db w) (User.id target_user)
                     (fun u => User.set_password u password) in
          reply (set_db w d) s (Redirect "/restaurant/users")
      | None => reply w s (Redirect "/restaurant/users")
      end).

(** [GET /restaurant/users/delete/{user_id}] *)
Definition delete_user (w : World) (s : Session) (user_id : Z) : Py.result Reply :=
  restaurant_only w s (fun _ =>
    db_user <- Orm.query_user (db w) user_id ;;
    match db_user with
    | Some db_user =>
        reply (set_db w (Orm.delete_user (db w) db_user)) s
              (Redirect "/restaurant/users")
    | None => reply w s (Redirect "/restaurant/users")
    end).

(** [GET /restaurant/menu] *)
Definition restaurant_menu (w : World) (s : Session) : Py.result Reply :=
  restaurant_only w s (fun user =>
    let items := menu_items (db w) in
    let '(d, menu_setting) := get_menu_settings (db w) in
    reply (set_db w d) s
          (TemplateResponse "restaurant_menu.html"
             (MenuPage user items (MenuSetting.full_menu_image menu_setting)))).

(** [POST /restaurant/menu/add] *)
Definition add_menu_item (now : Py.datetime) (w : World) (s : Session)
    (name : string) (price : float) (description : string)
    (item_image : option UploadFile) : Py.result Reply :=
  restaurant_only w s (fun _ =>
    let '(fs, image_path) :=
      match item_image with
      | Some f =>
          if negb (String.eqb (filename f) "") then
            let '(fs, p) := save_image now (images w) f in (fs, Some p)
          else (images w, None)
      | None => (images w, None)
      end in
    let d := Orm.add_menu_item (db w) name price (Some description) image_path in
    reply {| db := d; images := fs |} s (Redirect "/restaurant/menu")).

(** [POST /restaurant/menu/update/{item_id}] *)
Definition update_menu_item (w : World) (s : Session) (item_id : Z)
    (name : string) (price : float) (description : string) : Py.result Reply :=
  restaurant_only w s (fun _ =>
    item <- Orm.query_menu_item (db w) item_id ;;
    match item with
    | Some item =>
        let d := Orm.update_menu_item (db w) (MenuItem.id item)
                   (fun m => MenuItem.set_details m name price description) in
        reply (set_db w d) s (Redirect "/restaurant/menu")
    | None => reply w s (Redirect "/restaurant/menu")
    end).

(** [POST /restaurant/menu/upload-image/{item_id}] *)
Definition upload_menu_item_image (now : Py.datetime) (w : World) (s : Session)
    (item_id : Z) (item_image : UploadFile) : Py.result Reply :=
  restaurant_only w s (fun _ =>
    item <- Orm.query_menu_item (db w) item_id ;;
    match item with
    | Some item =>
        if negb (String.eqb (filename item_image) "") then
          let '(fs, image_path) := save_image now (images w) item_image in
          let d := Orm.update_menu_item (db w) (MenuItem.id item)
                     (fun m => MenuItem.set_image_path m image_path) in
          reply {| db := d; images := fs |} s (Redirect "/restaurant/menu")
        else reply w s (Redirect "/restaurant/menu")
    | None => reply w s (Redirect "/restaurant/menu")
    end).

(** [POST /restaurant/menu/upload-full-menu] *)
Definition upload_full_menu_image (now : Py.datetime) (w : World) (s : Session)
    (full_menu_image : UploadFile) : Py.result Reply :=
  restaurant_only w s (fun _ =>
    let '(d, menu_setting) := get_menu_settings (db w) in
    if negb (String.eqb (filename full_menu_image) "") then
      let '(fs, image_path) := save_image now (images w) full_menu_image in
      let d := Orm.update_menu_setting d (MenuSetting.id menu_setting)
                 (fun m => MenuSetting.set_full_menu_image m image_path) in
      reply {| db := d; images := fs |} s (Redirect "/restaurant/menu")
    else reply (set_db w d) s (Redirect "/restaurant/menu")).

(** [GET /restaurant/menu/delete/{item_id}] *)
Definition delete_menu_item (w : World) (s : Session) (item_id : Z)
    : Py.result Reply :=
  restaurant_only w s (fun _ =>
    item <- Orm.query_menu_item (db w) item_id ;;
    match item with
    | Some item =>
        reply (set_db w (Orm.delete_menu_item (db w) item)) s
              (Redirect "/restaurant/menu")
    | None => reply w s (Redirect "/restaurant/menu")
    end).

(** [GET /customer/menu] *)
Definition customer_menu (w : World) (s : Session) : Py.result Reply :=
  logged_in w s (fun user =>
    let items := menu_items (db w) in
    let '(d, menu_setting) := get_menu_settings (db w) in
    reply (set_db w d) s
          (TemplateResponse "customer_menu.html"
             (MenuPage user items (MenuSetting.full_menu_image menu_setting)))).

(** *** Placing an order *)

(** An entry of the local list [order_items]:
    [{"item": menu_item, "quantity": quantity}]. *)
Definition Line : Set := (MenuItem.t * Z)%type.

(** [int(value)] on the value of a form field: a file is no text and no
    number. *)
Definition int_of (value : FormValue) : Py.result Z :=
  match value with
  | Text s => Py.int s
  | File _ => Py.Raise Py.TypeError
  end.

(** [int(key.split("_")[1])] *)
Definition item_id_of (key : string) : Py.result Z :=
  part <- Py.index (Py.split "_" key) 1 ;;
  Py.int part.

(** The body of the loop over [form_data.items()], on the pair of locals
    [(order_items, total_price)]. *)
Definition scan_field (d : DB) (acc : list Line * float)
    (field : string * FormValue) : Py.result (list Line * float) :=
  let '(key, value) := field in
  let '(order_lines, total_price) := acc in
  if Py.startswith key "quantity_" then
    v <- int_of value ;;
    if v >? 0 then
      item_id <- item_id_of key ;;
      quantity <- int_of value ;;
      menu_item <- Orm.query_menu_item d item_id ;;
      match menu_item with
      | Some menu_item =>
          amount <- Py.mul (MenuItem.price menu_item) quantity ;;
          Py.Ok ((order_lines ++ [(menu_item, quantity)])%list,
                 Py.float_add total_price amount)
      | None => Py.Ok acc
      end
    else Py.Ok acc
  else Py.Ok acc.

Fixpoint scan_form (d : DB) (acc : list Line * float)
    (form : list (string * FormValue)) : Py.result (list Line * float) :=
  match form with
  | [] => Py.Ok acc
  | field :: rest =>
      acc' <- scan_field d acc field ;;
      scan_form d acc' rest
  end.

(** The second loop and the commit: one [OrderItem] per entry, all for
    the new order. *)
Fixpoint add_lines (d : DB) (order : Order.t) (ls : list Line)
    : Py.result DB :=
  match ls with
  | [] => Py.Ok d
  | l :: rest =>
      d' <- Orm.add_order_item d (Order.id order) (MenuItem.id (fst l)) (snd l) ;;
      add_lines d' order rest
  end.

(** [POST /customer/order]; [form] is [form_data.items()], in form order. *)
Definition place_order (now : Py.datetime) (w : World) (s : Session)
    (form : list (string * FormValue)) : Py.result Reply :=
  logged_in w s (fun user =>
    r <- scan_form (db w) ([], 0%float) form ;;
    let '(order_lines, total_price) := r in
    match order_lines with
    | [] => reply w s (Redirect "/customer/menu")
    | _ :: _ =>
        let '(d, order) :=
          Orm.add_order (db w) (User.id user) (Py.strftime_order now) total_price in
        d <- add_lines d order order_lines ;;
        reply (set_db w d) s (Redirect "/customer/orders")
    end).

(** *** Order history *)

(** One entry of [order.items_with_details]; [menu_item] is [None] when
    the query finds no row, and [menu_item.name] raises then; its price is
    [None] when the column is NULL, and the product raises then. *)
Definition detail_of (d : DB) (item : OrderItem.t) : Py.result Detail :=
  match Orm.menu_item_by_ref d (OrderItem.menu_item_id item) with
  | None => Py.Raise Py.AttributeError
  | Some menu_item =>
      subtotal <- Py.mul (MenuItem.price menu_item)
                         (OrderItem.quantity item) ;;
      Py.Ok {| d_name := MenuItem.name menu_item;
               d_price := MenuItem.price menu_item;
               d_quantity := OrderItem.quantity item;
               d_subtotal := subtotal |}
  end.

Fixpoint items_with_details (d : DB) (items : list OrderItem.t)
    : Py.result (list Detail) :=
  match items with
  | [] => Py.Ok []
  | item :: rest =>
      x <- detail_of d item ;;
      xs <- items_with_details d rest ;;
      Py.Ok (x :: xs)
  end.

Fixpoint with_details (d : DB) (os : list Order.t)
    : Py.result (list (Order.t * list Detail)) :=
  match os with
  | [] => Py.Ok []
  | order :: rest =>
      ds <- items_with_details d (Orm.items_of d order) ;;
      r <- with_details d rest ;;
      Py.Ok ((order, ds) :: r)
  end.

(** [db.query(Order).filter(Order.user_id == user.id)
       .order_by(Order.order_date.desc()).all()] *)
Definition orders_of (d : DB) (user : User.t) : list Order.t :=
  Orm.order_by_date_desc
    (filter (fun o => Orm.opt_eqb (Order.user_id o) (User.id user)) (orders d)).

(** [GET /customer/orders] *)
Definition customer_orders (w : World) (s : Session) : Py.result Reply :=
  logged_in w s (fun user =>
    history <- with_details (db w) (orders_of (db w) user) ;;
    reply w s (TemplateResponse "customer_orders.html"
                 (OrdersPage user history))).

(** ** The application *)

Inductive Request : Set :=
| GetRoot
| PostLogin (username password : string) (is_student : option string)
| GetLogout
| GetRestaurantDashboard
| GetRestaurantUsers
| PostUsersAdd (username password is_restaurant : string)
| PostUsersUpdate (user_id : Z) (password confirm_password : string)
| GetUsersDelete (user_id : Z)
| GetRestaurantMenu
| PostMenuAdd (name : string) (price : float) (description : string)
              (item_image : option UploadFile)
| PostMenuUpdate (item_id : Z) (name : string) (price : float)
                 (description : string)
| PostMenuUploadImage (item_id : Z) (item_image : UploadFile)
| PostMenuUploadFullMenu (full_menu_image : UploadFile)
| GetMenuDelete (item_id : Z)
| GetCustomerMenu
| PostCustomerOrder (form : list (string * FormValue))
| GetCustomerOrders.

(** Routing. *)
Definition route (now : Py.datetime) (req : Request) (w : World) (s : Session)
    : Py.result Reply :=
  match req with
  | GetRoot => root w s
  | PostLogin u p h => login w s u p h
  | GetLogout => logout w s
  | GetRestaurantDashboard => restaurant_dashboard w s
  | GetRestaurantUsers => restaurant_users w s
  | PostUsersAdd u p r => add_user w s u p r
  | PostUsersUpdate i p c => update_user w s i p c
  | GetUsersDelete i => delete_user w s i
  | GetRestaurantMenu => restaurant_menu w s
  | PostMenuAdd n p d f => add_menu_item now w s n p d f
  | PostMenuUpdate i n p d => update_menu_item w s i n p d
  | PostMenuUploadImage i f => upload_menu_item_image now w s i f
  | PostMenuUploadFullMenu f => upload_full_menu_image now w s f
  | GetMenuDelete i => delete_menu_item w s i
  | GetCustomerMenu => customer_menu w s
  | PostCustomerOrder form => place_order now w s form
  | GetCustomerOrders => customer_orders w s
  end.

(** One request served at time [now]: an exception that escapes the
    handler becomes a server error, and nothing of the request is kept. *)
Definition serve (now : Py.datetime) (req : Request) (w : World) (s : Session)
    : Reply :=
  match route now req w s with
  | Py.Ok r => r
  | Py.Raise e => {| world := w; session := s; response := ServerError e |}
  end.

(** The startup event: [init_db]; when it raises, the database is as it
    was. *)
Definition startup (w : World) : World :=
  match init_db (db w) with
  | Py.Ok d => set_db w d
  | Py.Raise _ => w
  end.

(** A new deployment: empty tables, no image. *)
Definition new_world : World := {| db := empty_db; images := [] |}.

(** The worlds the service can be in: from a new deployment, any number
    of startups and of requests, each request with the cookie of some
    client. *)
Inductive reachable : World -> Prop :=
| reach_new : reachable new_world
| reach_startup w : reachable w -> reachable (startup w)
| reach_serve now req s w :
    reachable w -> reachable (world (serve now req w s)).

(** The restaurant routes. *)
Definition restaurant_route (req : Request) : bool :=
  match req with
  | GetRestaurantDashboard | GetRestaurantUsers | PostUsersAdd _ _ _
  | PostUsersUpdate _ _ _ | GetUsersDelete _ | GetRestaurantMenu
  | PostMenuAdd _ _ _ _ | PostMenuUpdate _ _ _ _ | PostMenuUploadImage _ _
  | PostMenuUploadFullMenu _ | GetMenuDelete _ => true
  | _ => false
  end.

(** ** Sample runs *)

(** A client: its cookie is the one the last response left. *)
Fixpoint browse (reqs : list (Py.datetime * Request)) (w : World) (s : Session)
    : World * Session :=
  match reqs with
  | [] => (w, s)
  | (now, req) :: rest =>
      let r := serve now req w s in
      browse rest (world r) (session r)
  end.

Definition noon : Py.datetime :=
  {| Py.year := 2024; Py.month := 5; Py.day := 17; Py.hour := 12;
     Py.minute := 0; Py.second := 0; Py.microsecond := 0 |}.

Definition later : Py.datetime :=
  {| Py.year := 2024; Py.month := 5; Py.day := 17; Py.hour := 12;
     Py.minute := 30; Py.second := 0; Py.microsecond := 0 |}.

(** The database after the first startup. *)
Definition seeded : World := startup new_world.

Definition login_customer : Request :=
  PostLogin "customer" "customer" (Some "true").

Definition login_restaurant : Request :=
  PostLogin "restaurant" "restaurant" None.

(** The seed customer orders two of item 1 and one of item 2. *)
Definition first_order : list (Py.datetime * Request) :=
  [(noon, login_customer);
   (noon, PostCustomerOrder [("quantity_1", Text "2");
                             ("quantity_2", Text "1")])].

Definition ordered : World * Session := browse first_order seeded None.

(** Then the restaurant deletes item 1, and the customer comes back. *)
Definition orphaned : World * Session :=
  browse [(later, login_restaurant); (later, GetMenuDelete 1);
          (later, login_customer)]
         (fst ordered) (snd ordered).

(** Or the restaurant sets the price of item 1 to NaN. *)
Definition unpriced : World * Session :=
  browse [(later, login_restaurant);
          (later, PostMenuUpdate 1 "漢堡" nan "牛肉漢堡");
          (later, login_customer)]
         (fst ordered) (snd ordered).


(** ** Vocabulary of the properties *)

(** The session resolves to no user, or to a user that is no restaurant
    account. *)
Definition denied (w : World) (s : Session) : Prop :=
  match get_current_user (db w) s with
  | None => True
  | Some user => User.is_restaurant user = false
  end.

(** A field the order loop passes over: any field that is no quantity,
    and a quantity that reads as zero or less. *)
Definition ignored (field : string * FormValue) : bool :=
  if Py.startswith (fst field) "quantity_" then
    match int_of (snd field) with
    | Py.Ok q => q <=? 0
    | Py.Raise _ => false
    end
  else true.

(** The exceptions the order loop and its commit let escape. *)
Definition order_fault (e : Py.exn) : Prop :=
  e = Py.ValueError \/ e = Py.OverflowError \/ e = Py.TypeError.

(** A field the order loop can read: the value of a quantity is an
    integer literal and, when it is positive, the id in the key is one
    too, of 64 bits. *)
Definition readable (field : string * FormValue) : Prop :=
  Py.startswith (fst field) "quantity_" = true ->
  exists q, int_of (snd field) = Py.Ok q
            /\ (0 < q -> exists i, item_id_of (fst field) = Py.Ok i
                                   /\ Sqlite.fits i = true).

(** The valid line of a field, if it is one: a [quantity_<id>] field with
    a positive integer value whose id resolves to a menu item. *)
Definition valid_line (d : DB) (field : string * FormValue) : option Line :=
  if Py.startswith (fst field) "quantity_" then
    match int_of (snd field), item_id_of (fst field) with
    | Py.Ok q, Py.Ok i =>
        if q >? 0 then
          match Orm.query_menu_item d i with
          | Py.Ok (Some m) => Some (m, q)
          | _ => None
          end
        else None
    | _, _ => None
    end
  else None.

Fixpoint valid_lines (d : DB) (form : list (string * FormValue)) : list Line :=
  match form with
  | [] => []
  | field :: rest =>
      match valid_line d field with
      | Some l => l :: valid_lines d rest
      | None => valid_lines d rest
      end
  end.

(** A quantity that has a finite float. *)
Definition convertible (q : Z) : Prop :=
  Py.float_of_int q = Py.Ok (Py.nearest q).

(** A line the order can keep: its menu item has a price, its quantity a
    finite float and 64 bits. *)
Definition storable (l : Line) : Prop :=
  (exists p, MenuItem.price (fst l) = Some p)
  /\ convertible (snd l)
  /\ Sqlite.fits (snd l) = true.

(** The sum, from [t] and in order, of price times quantity; there is
    none when a price is NULL. *)
Fixpoint sum_from (t : float) (ls : list Line) : option float :=
  match ls with
  | [] => Some t
  | l :: rest =>
      match MenuItem.price (fst l) with
      | Some p =>
          sum_from (Py.float_add t (PrimFloat.mul p (Py.nearest (snd l)))) rest
      | None => None
      end
  end.

Definition lines_total (ls : list Line) : option float := sum_from 0 ls.

(** A field whose quantity is zero or negative, or whose id is that of no
    menu item. *)
Definition unmatched (d : DB) (field : string * FormValue) : Prop :=
  Py.startswith (fst field) "quantity_" = true ->
  exists q, int_of (snd field) = Py.Ok q
            /\ (q <= 0
                \/ exists i, item_id_of (fst field) = Py.Ok i
                             /\ Orm.menu_item_by_id d i = None).

(** A field that is no valid line because its quantity is zero or
    negative, or because the query for its id finds no menu item. *)
Definition no_line (d : DB) (field : string * FormValue) : Prop :=
  Py.startswith (fst field) "quantity_" = true ->
  exists q, int_of (snd field) = Py.Ok q
            /\ (q <= 0
                \/ exists i, item_id_of (fst field) = Py.Ok i
                             /\ Orm.query_menu_item d i = Py.Ok None).

(** The columns of an order item that the order fixes. *)
Definition columns (i : OrderItem.t) : option Z * option Z * Z :=
  (OrderItem.order_id i, OrderItem.menu_item_id i, OrderItem.quantity i).

(** A history line that shows the menu item as it is now. *)
Definition recomputed (d : DB) (i : OrderItem.t) (x : Detail) : Prop :=
  exists m p,
    Orm.menu_item_by_ref d (OrderItem.menu_item_id i) = Some m
    /\ MenuItem.price m = Some p
    /\ d_name x = MenuItem.name m
    /\ d_price x = Some p
    /\ d_quantity x = OrderItem.quantity i
    /\ d_subtotal x = PrimFloat.mul p (Py.nearest (OrderItem.quantity i)).


(** An item that references a menu item that exists and has a price. *)
Definition priced_item (d : DB) (i : OrderItem.t) : Prop :=
  exists m p, Orm.menu_item_by_ref d (OrderItem.menu_item_id i) = Some m
              /\ MenuItem.price m = Some p.

(** Every item of the order is one. *)
Definition priced (d : DB) (o : Order.t) : Prop :=
  forall i, In i (Orm.items_of d o) -> priced_item d i.

(** What an item that is none makes of the history: an AttributeError
    when its menu item is missing, a TypeError when the price of its menu
    item is. *)
Definition history_fault (d : DB) (i : OrderItem.t) (e : Py.exn) : Prop :=
  (Orm.menu_item_by_ref d (OrderItem.menu_item_id i) = None
   /\ e = Py.AttributeError)
  \/ (exists m, Orm.menu_item_by_ref d (OrderItem.menu_item_id i) = Some m
                /\ MenuItem.price m = None
                /\ e = Py.TypeError).


(** What every reachable database satisfies. *)
Definition usernames (d : DB) : list string := map User.username (users d).

Definition quantities (d : DB) : list Z :=
  map OrderItem.quantity (order_items d).

Definition consistent (d : DB) : Prop :=
  NoDup (usernames d) /\ Forall convertible (quantities d).

(** ** The writes of a request

    What a commit sends to the database, one row operation at a time,
    each with what its handler has established before. *)

(** An entry of the local list of [place_order]: its menu item was read
    from the database and its quantity is a positive int with a float. *)
Definition checked_line (d : DB) (l : Line) : Prop :=
  Orm.menu_item_by_id d (MenuItem.id (fst l)) = Some (fst l)
  /\ 0 < snd l
  /\ convertible (snd l).

Inductive write : DB -> DB -> Prop :=
| write_add_user d n p r d' u :
    Orm.add_user d n p r = Py.Ok (d', u) -> write d d'
| write_password d i p :
    write d (Orm.update_user d i (fun u => User.set_password u p))
| write_delete_user d u :
    write d (Orm.delete_user d u)
| write_add_menu_item d n p ds img :
    write d (Orm.add_menu_item d n p ds img)
| write_menu_details d i n p ds :
    write d (Orm.update_menu_item d i (fun m => MenuItem.set_details m n p ds))
| write_menu_image d i path :
    write d (Orm.update_menu_item d i (fun m => MenuItem.set_image_path m path))
| write_delete_menu_item d m :
    write d (Orm.delete_menu_item d m)
| write_add_menu_setting d :
    write d (fst (Orm.add_menu_setting d))
| write_full_menu_image d i path :
    write d (Orm.update_menu_setting d i
               (fun s => MenuSetting.set_full_menu_image s path))
| write_add_order d user date total :
    In user (users d) ->
    write d (fst (Orm.add_order d (User.id user) date total))
| write_add_order_item d order m q d' :
    In order (orders d) ->
    In m (menu_items d) ->
    0 < q ->
    convertible q ->
    Orm.add_order_item d (Order.id order) (MenuItem.id m) q = Py.Ok d' ->
    write d d'.

Inductive writes : DB -> DB -> Prop :=
| writes_done d : writes d d
| writes_step d1 d2 d3 : write d1 d2 -> writes d2 d3 -> writes d1 d3.

(** Primary keys: no two rows of a table share an id. *)
Definition keys_unique (d : DB) : Prop :=
  NoDup (map User.id (users d))
  /\ NoDup (map MenuItem.id (menu_items d))
  /\ NoDup (map Order.id (orders d))
  /\ NoDup (map OrderItem.id (order_items d))
  /\ NoDup (map MenuSetting.id (menu_settings d)).

(** A reference that is NULL or the id of a row of [ids]. *)
Definition null_or_in (r : option Z) (ids : list Z) : Prop :=
  match r with
  | None => True
  | Some i => In i ids
  end.

(** Foreign keys: an order item belongs to an order that exists, is for a
    menu item that exists or for none, and has a positive quantity; an
    order belongs to a user that exists or to none. *)
Definition references_hold (d : DB) : Prop :=
  Forall (fun i =>
            (exists o, OrderItem.order_id i = Some o
                       /\ In o (map Order.id (orders d)))
            /\ null_or_in (OrderItem.menu_item_id i)
                          (map MenuItem.id (menu_items d))
            /\ 0 < OrderItem.quantity i)
         (order_items d)
  /\ Forall (fun o => null_or_in (Order.user_id o) (map User.id (users d)))
            (orders d).

(** The id in the path of a request, on the routes that have one. *)
Definition path_id (req : Request) : option Z :=
  match req with
  | PostUsersUpdate i _ _ | GetUsersDelete i | PostMenuUpdate i _ _ _
  | PostMenuUploadImage i _ | GetMenuDelete i => Some i
  | _ => None
  end.

(** The customer routes. *)
Definition customer_route (req : Request) : bool :=
  match req with
  | GetCustomerMenu | PostCustomerOrder _ | GetCustomerOrders => true
  | _ => false
  end.

(** The session resolves to no user. *)
Definition anonymous (w : World) (s : Session) : Prop :=
  get_current_user (db w) s = None.

(** A list that has grown at its end only. *)
Definition extends {A} (l l' : list A) : Prop := exists n, l' = (l ++ n)%list.

(** The columns of an order, and of an order item, that no route assigns
    after the insert. *)
Definition order_fixed (o : Order.t) : Z * string * option float :=
  (Order.id o, Order.order_date o, Order.total_price o).

Definition item_fixed (i : OrderItem.t) : Z * option Z * Z :=
  (OrderItem.id i, OrderItem.order_id i, OrderItem.quantity i).


(** The bytes of the file at [path], if there is one. *)
Definition read_file (fs : list (string * string)) (path : string)
    : option string :=
  option_map snd (find (fun f => String.eqb (fst f) path) fs).

(** The path [save_image] writes at time [now]. *)
Definition image_file (now : Py.datetime) : string :=
  "static/images/" ++ Py.strftime_image now ++ ".jpg".

(** ** Sample evaluations *)

Example int_examples :
  Py.int "2" = Py.Ok 2 /\ Py.int " -1 " = Py.Ok (-1) /\ Py.int "0" = Py.Ok 0
  /\ Py.int "1_000" = Py.Ok 1000 /\ Py.int "+07" = Py.Ok 7
  /\ Py.int "x" = Py.Raise Py.ValueError /\ Py.int "" = Py.Raise Py.ValueError
  /\ Py.int "1__0" = Py.Raise Py.ValueError /\ Py.int "- 1" = Py.Raise Py.ValueError
  /\ Py.int "1.5" = Py.Raise Py.ValueError /\ Py.int "7_" = Py.Raise Py.ValueError
  /\ Py.int "２" = Py.Ok 2 /\ Py.int "-٣٤" = Py.Ok (-34)
  /\ Py.int "1　" = Py.Ok 1 /\ Py.int "１x" = Py.Raise Py.ValueError.
Proof. repeat split; reflexivity. Qed.

Example int_digit_limit :
  Py.int (Py.zeros 4300) = Py.Ok 0
  /\ Py.int (Py.zeros 4301) = Py.Raise Py.ValueError
  /\ Py.int (String "-"%char (Py.zeros 4300)) = Py.Ok 0.
Proof. repeat split; vm_compute; reflexivity. Qed.

Example backend_examples :
  Sqlite.real 80 = Some 80%float
  /\ Sqlite.real nan = None
  /\ Sqlite.real (-0) = Some 0%float
  /\ Sqlite.real infinity = Some infinity
  /\ Sqlite.bind (2 ^ 63 - 1) = Py.Ok 9223372036854775807
  /\ Sqlite.bind (2 ^ 63) = Py.Raise Py.OverflowError
  /\ Sqlite.bind (- 2 ^ 63) = Py.Ok (-9223372036854775808)
  /\ Sqlite.bind (- 2 ^ 63 - 1) = Py.Raise Py.OverflowError.
Proof. repeat split; vm_compute; reflexivity. Qed.

Example split_examples :
  Py.split "_" "quantity_12" = ["quantity"; "12"]
  /\ Py.split "_" "quantity_" = ["quantity"; ""]
  /\ Py.split "_" "quantity_1_2" = ["quantity"; "1"; "2"]
  /\ Py.split "_" "" = [""].
Proof. repeat split; reflexivity. Qed.

Example float_examples :
  Py.float_mul_int 80 2 = Py.Ok 160%float
  /\ Py.float_of_int (2 ^ 53 + 1) = Py.Ok 9007199254740992%float
  /\ Py.float_of_int (2 ^ 1024) = Py.Raise Py.OverflowError.
Proof. repeat split; vm_compute; reflexivity. Qed.

Example strftime_examples :
  let t := {| Py.year := 2024; Py.month := 3; Py.day := 9; Py.hour := 18;
              Py.minute := 5; Py.second := 0; Py.microsecond := 1234 |} in
  Py.strftime_order t = "2024-03-09 18:05:00"
  /\ Py.strftime_image t = "20240309-180500001234".
Proof. split; reflexivity. Qed.

Example seeded_tables :
  map User.username (users (db seeded)) = ["restaurant"; "customer"]
  /\ map MenuItem.id (menu_items (db seeded)) = [1; 2; 3; 4]
  /\ map MenuItem.price (menu_items (db seeded))
     = [Some 80%float; Some 40%float; Some 30%float; Some 60%float]
  /\ snd ordered = Some 2
  /\ snd orphaned = Some 2.
Proof. repeat split; reflexivity. Qed.

(** ** Guards *)

(** Open a request up to the body of its handler [h]. *)
Tactic Notation "enter_route" reference(h) :=
  unfold serve; cbn [route]; unfold h.

Lemma restaurant_only_denied w s body :
  denied w s -> restaurant_only w s body = reply w s (Redirect "/").
Proof.
  unfold denied, restaurant_only.
  destruct (get_current_user (db w) s) as [user|]; [|reflexivity].
  now intros ->.
Qed.

Lemma restaurant_only_granted w s user body :
  get_current_user (db w) s = Some user ->
  User.is_restaurant user = true ->
  restaurant_only w s body = body user.
Proof.
  unfold restaurant_only. now intros -> ->.
Qed.

Lemma logged_in_user w s user body :
  get_current_user (db w) s = Some user ->
  logged_in w s body = body user.
Proof.
  unfold logged_in. now intros ->.
Qed.

(** C5. On every restaurant route (dashboard; user list, add, update,
    delete; menu list, add, update, both uploads, delete), a request whose
    session resolves to no user or to a user that is no restaurant account
    is answered by a redirect to the login page, and neither the database,
    the image files nor the session change. *)
Theorem restaurant_routes_guarded now req w s :
  restaurant_route req = true ->
  denied w s ->
  serve now req w s
  = {| world := w; session := s; response := Redirect "/" |}.
Proof.
  intros Hroute Hdenied.
  destruct req; try discriminate Hroute; unfold serve; cbn [route];
    match goal with
    | |- context [match ?h with _ => _ end] =>
        let f := fresh in
        assert (f : h = reply w s (Redirect "/"))
          by (apply restaurant_only_denied; exact Hdenied);
        rewrite f; reflexivity
    end.
Qed.

Lemma restaurant_routes_guarded_witness :
  serve noon (GetMenuDelete 1) seeded (Some 2)
  = {| world := seeded; session := Some 2; response := Redirect "/" |}.
Proof.
  apply (restaurant_routes_guarded noon (GetMenuDelete 1) seeded (Some 2)).
  - reflexivity.
  - reflexivity.
Defined.

(** ** Accounts *)

(** C6. A password update sent by a restaurant account with a password
    that differs from its confirmation changes nothing: the database (so
    every column of every user, the target included), the image files and
    the session stay as they were, and the answer is the redirect to the
    user list, with no error in it. *)
Theorem update_user_mismatch_is_noop now w s admin user_id password confirm_password :
  get_current_user (db w) s = Some admin ->
  User.is_restaurant admin = true ->
  password <> confirm_password ->
  serve now (PostUsersUpdate user_id password confirm_password) w s
  = {| world := w; session := s; response := Redirect "/restaurant/users" |}.
Proof.
  intros Hadmin Hrole Hdiff.
  enter_route update_user.
  rewrite (restaurant_only_granted _ _ _ _ Hadmin Hrole).
  apply String.eqb_neq in Hdiff. rewrite Hdiff. reflexivity.
Qed.

Lemma update_user_mismatch_is_noop_witness :
  serve noon (PostUsersUpdate 2 "secret" "secrte") seeded (Some 1)
  = {| world := seeded; session := Some 1;
       response := Redirect "/restaurant/users" |}.
Proof.
  apply (update_user_mismatch_is_noop noon seeded (Some 1)
           {| User.id := 1; User.username := "restaurant";
              User.password := "restaurant"; User.is_restaurant := true |}).
  - reflexivity.
  - reflexivity.
  - discriminate.
Defined.

(** C7. A login with the customer hint ([is_student] is ["true"]) and a
    username that no stored user has appends exactly one user row, with
    that username, that password and [is_restaurant] false, sets the
    session to the new user's id and redirects to the customer menu. *)
Theorem customer_login_signs_up now w s username password :
  Orm.user_by_username (db w) username = None ->
  let user := {| User.id := Orm.next_id (map User.id (users (db w)));
                 User.username := username;
                 User.password := password;
                 User.is_restaurant := false |} in
  serve now (PostLogin username password (Some "true")) w s
  = {| world := set_db w (set_users (db w) (users (db w) ++ [user])%list);
       session := Some (User.id user);
       response := Redirect "/customer/menu" |}.
Proof.
  intros Hnew user.
  enter_route login.
  rewrite Hnew. cbn [String.eqb Ascii.eqb Bool.eqb negb].
  unfold Orm.add_user. rewrite Hnew. reflexivity.
Qed.

Lemma customer_login_signs_up_witness :
  serve noon (PostLogin "alice" "pw" (Some "true")) seeded None
  = {| world :=
         set_db seeded
           (set_users (db seeded)
              (users (db seeded)
               ++ [{| User.id := 3; User.username := "alice";
                      User.password := "pw"; User.is_restaurant := false |}])%list);
       session := Some 3;
       response := Redirect "/customer/menu" |}.
Proof.
  apply (customer_login_signs_up noon seeded None "alice" "pw").
  reflexivity.
Defined.

(** ** The order loop *)

Lemma prefix_append p : forall s,
  String.prefix p s = true -> exists r, s = p ++ r.
Proof.
  induction p as [|a p IH]; intros s H.
  - now exists s.
  - destruct s as [|b s]; [discriminate|].
    cbn in H. destruct (ascii_dec a b) as [->|]; [|discriminate].
    destruct (IH s H) as [r ->]. now exists r.
Qed.

Lemma split_not_nil sep s : Py.split sep s <> [].
Proof.
  destruct s as [|c s]; cbn; [discriminate|].
  destruct (Ascii.eqb c sep); [discriminate|].
  destruct (Py.split sep s); discriminate.
Qed.

(** The key of a quantity field has a second part: the index never fails. *)
Lemma quantity_key_part key :
  Py.startswith key "quantity_" = true ->
  exists part, Py.index (Py.split "_" key) 1 = Py.Ok part.
Proof.
  intros H. apply prefix_append in H as [r ->].
  cbn. destruct (Py.split "_" r) as [|h t] eqn:E.
  - now apply split_not_nil in E.
  - cbn. now exists h.
Qed.

Lemma gtb_nonpos q : q <= 0 -> (q >? 0) = false.
Proof.
  intros H. destruct (Z.gtb_spec q 0); [lia|reflexivity].
Qed.

Lemma int_raises s e : Py.int s = Py.Raise e -> e = Py.ValueError.
Proof.
  unfold Py.int. destruct (Py.decode _); [|congruence].
  destruct (Py.int_literal _); congruence.
Qed.

Lemma int_of_raises value e :
  int_of value = Py.Raise e -> e = Py.ValueError \/ e = Py.TypeError.
Proof.
  destruct value as [text|file]; cbn.
  - intros H. left. eapply int_raises; eassumption.
  - intros [= <-]. now right.
Qed.

Lemma float_of_int_raises z e :
  Py.float_of_int z = Py.Raise e -> e = Py.OverflowError.
Proof.
  unfold Py.float_of_int. cbv zeta.
  destruct (PrimFloat.is_infinity _); congruence.
Qed.

Lemma mul_raises x z e :
  Py.mul x z = Py.Raise e -> e = Py.TypeError \/ e = Py.OverflowError.
Proof.
  destruct x as [f|]; cbn.
  - unfold Py.float_mul_int.
    destruct (Py.float_of_int z) as [y|e1] eqn:E; cbn; [discriminate|].
    intros [= <-]. right. eapply float_of_int_raises; eassumption.
  - intros [= <-]. now left.
Qed.

(** A product that has a value: the price is not NULL and the int has a
    finite float. *)
Lemma mul_ok x z y :
  Py.mul x z = Py.Ok y ->
  exists p, x = Some p /\ convertible z
            /\ y = PrimFloat.mul p (Py.nearest z).
Proof.
  destruct x as [p|]; cbn; [|discriminate].
  unfold Py.float_mul_int, convertible, Py.float_of_int. cbv zeta.
  destruct (PrimFloat.is_infinity _); cbn; [discriminate|].
  intros [= <-]. now exists p.
Qed.

Lemma mul_priced p z :
  convertible z ->
  Py.mul (Some p) z = Py.Ok (PrimFloat.mul p (Py.nearest z)).
Proof.
  unfold convertible. cbn. unfold Py.float_mul_int. now intros ->.
Qed.

(** The queries by a key of the request: an overflow, or the row lookup. *)
Lemma bind_raises i e : Sqlite.bind i = Py.Raise e -> e = Py.OverflowError.
Proof.
  unfold Sqlite.bind. destruct (Sqlite.fits i); congruence.
Qed.

Lemma bind_fits i : Sqlite.fits i = true -> Sqlite.bind i = Py.Ok i.
Proof.
  unfold Sqlite.bind. now intros ->.
Qed.

Lemma query_menu_item_fits d i :
  Sqlite.fits i = true ->
  Orm.query_menu_item d i = Py.Ok (Orm.menu_item_by_id d i).
Proof.
  intros H. unfold Orm.query_menu_item. now rewrite (bind_fits _ H).
Qed.

Lemma query_menu_item_ok d i r :
  Orm.query_menu_item d i = Py.Ok r ->
  Sqlite.fits i = true /\ r = Orm.menu_item_by_id d i.
Proof.
  unfold Orm.query_menu_item, Sqlite.bind.
  destruct (Sqlite.fits i); cbn; [|discriminate].
  now intros [= <-].
Qed.

Lemma query_menu_item_raises d i e :
  Orm.query_menu_item d i = Py.Raise e ->
  e = Py.OverflowError /\ Sqlite.fits i = false.
Proof.
  unfold Orm.query_menu_item, Sqlite.bind.
  destruct (Sqlite.fits i); cbn; [discriminate|].
  now intros [= <-].
Qed.

Lemma query_user_ok d i r :
  Orm.query_user d i = Py.Ok r ->
  Sqlite.fits i = true /\ r = Orm.user_by_id d i.
Proof.
  unfold Orm.query_user, Sqlite.bind.
  destruct (Sqlite.fits i); cbn; [|discriminate].
  now intros [= <-].
Qed.

Lemma query_user_raises d i e :
  Orm.query_user d i = Py.Raise e ->
  e = Py.OverflowError /\ Sqlite.fits i = false.
Proof.
  unfold Orm.query_user, Sqlite.bind.
  destruct (Sqlite.fits i); cbn; [discriminate|].
  now intros [= <-].
Qed.

Lemma item_id_of_raises key e :
  Py.startswith key "quantity_" = true ->
  item_id_of key = Py.Raise e -> e = Py.ValueError.
Proof.
  intros H. unfold item_id_of.
  destruct (quantity_key_part key H) as [part ->]. cbn.
  apply int_raises.
Qed.

Lemma scan_field_raises d acc field e :
  scan_field d acc field = Py.Raise e -> order_fault e.
Proof.
  unfold scan_field, order_fault.
  destruct field as [key value], acc as [ls t].
  destruct (Py.startswith key "quantity_") eqn:Hkey; [|discriminate].
  destruct (int_of value) as [v|e1] eqn:Hv; cbn.
  - destruct (v >? 0); [|discriminate].
    destruct (item_id_of key) as [i|e2] eqn:Hi; cbn.
    + destruct (Orm.query_menu_item d i) as [[m|]|e3] eqn:Hm; cbn;
        [|discriminate|].
      * destruct (Py.mul (MenuItem.price m) v) as [f|e4] eqn:Hf; cbn;
          [discriminate|].
        intros [= <-]. destruct (mul_raises _ _ _ Hf); auto.
      * intros [= <-]. right. left.
        now destruct (query_menu_item_raises _ _ _ Hm).
    + intros [= <-]. left. eapply item_id_of_raises; eassumption.
  - intros [= <-]. destruct (int_of_raises _ _ Hv); auto.
Qed.

Lemma scan_form_raises d form : forall acc e,
  scan_form d acc form = Py.Raise e -> order_fault e.
Proof.
  induction form as [|field rest IH]; intros acc e; cbn; [discriminate|].
  destruct (scan_field d acc field) as [acc'|e1] eqn:E; cbn.
  - apply IH.
  - intros [= <-]. eapply scan_field_raises; eassumption.
Qed.

(** A field that is not read as a positive quantity leaves the locals. *)
Lemma scan_field_ignored d acc field :
  ignored field = true -> scan_field d acc field = Py.Ok acc.
Proof.
  unfold ignored, scan_field.
  destruct field as [key value], acc as [ls t]; cbn [fst snd].
  destruct (Py.startswith key "quantity_"); [|reflexivity].
  destruct (int_of value) as [q|]; [|discriminate].
  intros H. cbn. now rewrite gtb_nonpos by now apply Z.leb_le.
Qed.

Lemma scan_form_ignored d form : forall acc,
  scan_form d acc form
  = scan_form d acc (filter (fun f => negb (ignored f)) form).
Proof.
  induction form as [|field rest IH]; intros acc; [reflexivity|].
  cbn [filter]. destruct (ignored field) eqn:E; cbn [negb scan_form].
  - rewrite (scan_field_ignored _ _ _ E). cbn. apply IH.
  - destruct (scan_field d acc field); cbn; [apply IH|reflexivity].
Qed.

(** A quantity that is no integer literal stops the loop. *)
Lemma scan_field_unreadable d acc key value e :
  Py.startswith key "quantity_" = true ->
  int_of value = Py.Raise e ->
  scan_field d acc (key, value) = Py.Raise e.
Proof.
  intros Hkey Hv. unfold scan_field. destruct acc as [ls t].
  now rewrite Hkey, Hv.
Qed.

Lemma scan_form_unreadable d form key value e0 :
  In (key, value) form ->
  Py.startswith key "quantity_" = true ->
  int_of value = Py.Raise e0 ->
  forall acc, exists e, scan_form d acc form = Py.Raise e.
Proof.
  intros Hin Hkey Hv.
  induction form as [|field rest IH]; [contradiction|]; intros acc.
  cbn [scan_form].
  destruct (scan_field d acc field) as [acc'|e1] eqn:E; cbn.
  - destruct Hin as [->|Hin].
    + rewrite (scan_field_unreadable _ _ _ _ _ Hkey Hv) in E. discriminate.
    + apply (IH Hin).
  - now exists e1.
Qed.

(** On readable fields the loop collects the valid lines, in order, and
    their sum. *)
Lemma scan_field_readable d ls t field :
  readable field ->
  (forall l, valid_line d field = Some l -> storable l) ->
  exists t',
    scan_field d (ls, t) field
    = Py.Ok (match valid_line d field with
             | Some l => (ls ++ [l])%list
             | None => ls
             end, t')
    /\ sum_from t match valid_line d field with
                  | Some l => [l]
                  | None => []
                  end = Some t'.
Proof.
  unfold readable, valid_line, scan_field.
  destruct field as [key value]; cbn [fst snd].
  destruct (Py.startswith key "quantity_"); [|now exists t].
  intros Hread Hkeep. destruct (Hread eq_refl) as [q [Hq Hid]].
  rewrite Hq in *. cbn [Py.bind].
  destruct (q >? 0) eqn:Hpos.
  - destruct Hid as [i [Hi Hfits]]; [lia|]. rewrite Hi in *. cbn [Py.bind].
    rewrite (query_menu_item_fits _ _ Hfits) in *. cbn [Py.bind].
    destruct (Orm.menu_item_by_id d i) as [m|]; [|now exists t].
    destruct (Hkeep _ eq_refl) as [[p Hp] [Hconv _]]. cbn [fst snd] in *.
    rewrite Hp, (mul_priced _ _ Hconv). cbn [Py.bind sum_from fst snd].
    rewrite Hp. eexists. split; reflexivity.
  - destruct (item_id_of key); now exists t.
Qed.

Lemma scan_form_readable d form : forall ls t,
  Forall readable form ->
  Forall storable (valid_lines d form) ->
  exists t',
    scan_form d (ls, t) form = Py.Ok ((ls ++ valid_lines d form)%list, t')
    /\ sum_from t (valid_lines d form) = Some t'.
Proof.
  induction form as [|field rest IH]; intros ls t Hread Hkeep.
  - exists t. cbn. now rewrite app_nil_r.
  - inversion Hread as [|? ? Hfield Hrest]; subst.
    cbn [scan_form valid_lines] in *.
    destruct (scan_field_readable d ls t field Hfield) as [t1 [-> Hsum]].
    + intros l Hl. rewrite Hl in Hkeep. now inversion Hkeep.
    + destruct (valid_line d field) as [l|]; cbn [Py.bind].
      * inversion Hkeep; subst.
        destruct (IH (ls ++ [l])%list t1 Hrest) as [t' [-> Hrest']];
          [assumption|].
        exists t'. rewrite <- app_assoc. split; [reflexivity|].
        cbn [sum_from] in *.
        destruct (MenuItem.price (fst l)); [|discriminate].
        now injection Hsum as ->.
      * injection Hsum as <-. now apply IH.
Qed.

Lemma no_line_readable d field : no_line d field -> readable field.
Proof.
  unfold no_line, readable. intros H Hkey.
  destruct (H Hkey) as [q [Hq [Hle|[i [Hi Hnone]]]]]; exists q; split; trivial.
  - lia.
  - intros _. exists i. split; [assumption|].
    now destruct (query_menu_item_ok _ _ _ Hnone).
Qed.

Lemma no_line_valid_line d field : no_line d field -> valid_line d field = None.
Proof.
  unfold no_line, valid_line. intros H.
  destruct (Py.startswith (fst field) "quantity_"); [|reflexivity].
  destruct (H eq_refl) as [q [Hq [Hle|[i [Hi Hnone]]]]]; rewrite Hq.
  - destruct (item_id_of (fst field)); [|reflexivity].
    now rewrite gtb_nonpos.
  - rewrite Hi, Hnone. now destruct (q >? 0).
Qed.

Lemma no_line_valid_lines d form :
  Forall (no_line d) form -> valid_lines d form = [].
Proof.
  induction 1 as [|field rest Hfield _ IH]; [reflexivity|].
  cbn. now rewrite (no_line_valid_line _ _ Hfield).
Qed.

(** ** Placing an order *)

Lemma add_order_item_ok d o m q d' :
  Orm.add_order_item d o m q = Py.Ok d' ->
  Sqlite.fits q = true
  /\ d' = set_order_items d
            (order_items d
             ++ [{| OrderItem.id := Orm.next_id (map OrderItem.id (order_items d));
                    OrderItem.order_id := Some o;
                    OrderItem.menu_item_id := Some m;
                    OrderItem.quantity := q |}])%list.
Proof.
  unfold Orm.add_order_item, Sqlite.bind.
  destruct (Sqlite.fits q); cbn; [|discriminate].
  now intros [= <-].
Qed.

Lemma add_order_item_fits d o m q :
  Sqlite.fits q = true ->
  Orm.add_order_item d o m q
  = Py.Ok (set_order_items d
             (order_items d
              ++ [{| OrderItem.id := Orm.next_id (map OrderItem.id (order_items d));
                     OrderItem.order_id := Some o;
                     OrderItem.menu_item_id := Some m;
                     OrderItem.quantity := q |}])%list).
Proof.
  intros H. unfold Orm.add_order_item. now rewrite (bind_fits _ H).
Qed.

Lemma add_order_item_raises d o m q e :
  Orm.add_order_item d o m q = Py.Raise e -> e = Py.OverflowError.
Proof.
  unfold Orm.add_order_item.
  destruct (Sqlite.bind q) eqn:E; cbn; [discriminate|].
  intros [= <-]. eapply bind_raises; eassumption.
Qed.

Lemma add_lines_raises order ls : forall d e,
  add_lines d order ls = Py.Raise e -> e = Py.OverflowError.
Proof.
  induction ls as [|l ls IH]; intros d e; cbn; [discriminate|].
  destruct (Orm.add_order_item _ _ _ _) as [d1|e1] eqn:E; cbn.
  - apply IH.
  - intros [= <-]. eapply add_order_item_raises; eassumption.
Qed.

(** The second loop appends one row per line, each with the order's id,
    the line's menu item and the line's quantity. *)
Lemma add_lines_rows order ls : forall d d',
  add_lines d order ls = Py.Ok d' ->
  exists rows,
    d' = set_order_items d (order_items d ++ rows)%list
    /\ map columns rows
       = map (fun l : Line =>
                (Some (Order.id order), Some (MenuItem.id (fst l)), snd l)) ls.
Proof.
  induction ls as [|l ls IH]; intros d d'; cbn [add_lines].
  - intros [= <-]. exists []. split; [|reflexivity].
    cbn. rewrite app_nil_r. now destruct d.
  - destruct (Orm.add_order_item _ _ _ _) as [d1|] eqn:E; cbn [Py.bind];
      [|discriminate].
    intros H. destruct (IH _ _ H) as [rows [-> Hrows]].
    apply add_order_item_ok in E as [_ ->].
    eexists (_ :: rows). split.
    + unfold set_order_items. cbn. now rewrite <- app_assoc.
    + cbn. now rewrite Hrows.
Qed.

Lemma add_lines_fits order ls : forall d,
  Forall (fun l : Line => Sqlite.fits (snd l) = true) ls ->
  exists d', add_lines d order ls = Py.Ok d'.
Proof.
  induction ls as [|l ls IH]; intros d Hfits; cbn [add_lines].
  - now exists d.
  - inversion Hfits; subst.
    rewrite add_order_item_fits by assumption. cbn [Py.bind].
    now apply IH.
Qed.

Lemma add_lines_appends order ls d :
  Forall (fun l : Line => Sqlite.fits (snd l) = true) ls ->
  exists rows,
    add_lines d order ls
    = Py.Ok (set_order_items d (order_items d ++ rows)%list)
    /\ map columns rows
       = map (fun l : Line =>
                (Some (Order.id order), Some (MenuItem.id (fst l)), snd l)) ls.
Proof.
  intros Hfits. destruct (add_lines_fits order ls d Hfits) as [d' H].
  destruct (add_lines_rows _ _ _ _ H) as [rows [-> Hrows]].
  now exists rows.
Qed.

(** Any fault of the handler leaves the world and the session. *)
Lemma place_order_fault now w s form e :
  route now (PostCustomerOrder form) w s = Py.Raise e ->
  order_fault e
  /\ serve now (PostCustomerOrder form) w s
     = {| world := w; session := s; response := ServerError e |}.
Proof.
  intros H. split.
  - cbn in H. unfold place_order, logged_in in H.
    destruct (get_current_user (db w) s) as [user|]; [|discriminate].
    destruct (scan_form (db w) ([], 0%float) form) as [[ls t]|e1] eqn:E;
      cbn in H.
    + destruct ls as [|l ls]; [discriminate|].
      destruct (add_lines _ _ (l :: ls)) as [d|e2] eqn:Hadd;
        cbn in H; [discriminate|].
      injection H as <-. right. left. eapply add_lines_raises; eassumption.
    + injection H as <-. eapply scan_form_raises; eassumption.
  - unfold serve. now rewrite H.
Qed.

(** C3 fails as stated: the one quantity of this submission is for an id
    that no menu item has, and the caller is not returned to the menu: the
    id does not fit the backend's integers, the query raises
    OverflowError and the request ends in a server error. *)
Lemma place_order_unbound_id_fails :
  get_current_user (db seeded) (Some 2)
  = Some {| User.id := 2; User.username := "customer";
            User.password := "customer"; User.is_restaurant := false |}
  /\ Forall (unmatched (db seeded))
            [("quantity_99999999999999999999", Text "1")]
  /\ serve noon
       (PostCustomerOrder [("quantity_99999999999999999999", Text "1")])
       seeded (Some 2)
     = {| world := seeded; session := Some 2;
          response := ServerError Py.OverflowError |}.
Proof.
  split; [reflexivity|]. split; [|reflexivity].
  repeat constructor. intros _. exists 1. split; [reflexivity|].
  right. exists 99999999999999999999. split; reflexivity.
Qed.

(** C3 (as the code has it). When no field of the submission is a valid
    line and every quantity can be looked up (each quantity is an integer
    that is zero or negative, or a positive one for an integer id of 64
    bits that no menu item has), the order handler writes nothing (no
    order, no order item, nothing else) and redirects the caller to the
    menu page. *)
Theorem place_order_without_lines now w s user form :
  get_current_user (db w) s = Some user ->
  Forall (no_line (db w)) form ->
  serve now (PostCustomerOrder form) w s
  = {| world := w; session := s; response := Redirect "/customer/menu" |}.
Proof.
  intros Huser Hnone.
  enter_route place_order.
  rewrite (logged_in_user _ _ _ _ Huser).
  destruct (scan_form_readable (db w) form [] 0%float) as [t [-> _]].
  - eapply Forall_impl; [|exact Hnone]. apply no_line_readable.
  - rewrite (no_line_valid_lines _ _ Hnone). constructor.
  - now rewrite (no_line_valid_lines _ _ Hnone).
Qed.

Lemma place_order_without_lines_witness :
  serve noon
    (PostCustomerOrder
       [("quantity_1", Text "0"); ("quantity_2", Text "-3");
        ("quantity_9", Text "4"); ("note", Text "no onions")])
    seeded (Some 2)
  = {| world := seeded; session := Some 2;
       response := Redirect "/customer/menu" |}.
Proof.
  apply (place_order_without_lines noon seeded (Some 2)
           {| User.id := 2; User.username := "customer";
              User.password := "customer"; User.is_restaurant := false |}).
  - reflexivity.
  - repeat constructor; intros Hkey; try discriminate Hkey.
    + exists 0. split; [reflexivity|]. left. lia.
    + exists (-3). split; [reflexivity|]. left. lia.
    + exists 4. split; [reflexivity|]. right. exists 9. split; reflexivity.
Defined.

(** C2 (as the code has it). When every quantity field of the submission
    is readable (its value is an integer literal and, for a positive one,
    the id in its key is an integer literal of 64 bits), every valid line
    can be kept (its menu item has a price, its quantity has a finite
    float and 64 bits), and there is at least one valid line, the handler
    appends exactly one order, whose total is the sum from 0, in form
    order, of price times quantity over the valid lines at the menu's
    current prices, as the column keeps it, and one order item per valid
    line, each with the new order's id, the line's menu item and the
    line's quantity; nothing else changes and the caller is redirected to
    the order history. *)
Theorem place_order_creates_order now w s user form l ls :
  get_current_user (db w) s = Some user ->
  Forall readable form ->
  valid_lines (db w) form = l :: ls ->
  Forall storable (l :: ls) ->
  exists total rows,
    let order := {| Order.id := Orm.next_id (map Order.id (orders (db w)));
                    Order.user_id := Some (User.id user);
                    Order.order_date := Py.strftime_order now;
                    Order.total_price := Sqlite.real total |} in
    lines_total (l :: ls) = Some total
    /\ serve now (PostCustomerOrder form) w s
       = {| world :=
              set_db w
                (set_order_items
                   (set_orders (db w) (orders (db w) ++ [order])%list)
                   (order_items (db w) ++ rows)%list);
            session := s;
            response := Redirect "/customer/orders" |}
    /\ map columns rows
       = map (fun x : Line =>
                (Some (Order.id order), Some (MenuItem.id (fst x)), snd x))
             (l :: ls).
Proof.
  intros Huser Hread Hlines Hkeep.
  destruct (scan_form_readable (db w) form [] 0%float Hread)
    as [total [Hscan Hsum]]; [now rewrite Hlines|].
  rewrite Hlines in Hscan, Hsum. cbn [app] in Hscan.
  set (order := {| Order.id := Orm.next_id (map Order.id (orders (db w)));
                   Order.user_id := Some (User.id user);
                   Order.order_date := Py.strftime_order now;
                   Order.total_price := Sqlite.real total |}).
  destruct (add_lines_appends order (l :: ls)
              (set_orders (db w) (orders (db w) ++ [order])%list))
    as [rows [Hadd Hrows]].
  { eapply Forall_impl; [|exact Hkeep]. now intros x [_ [_ Hx]]. }
  exists total, rows. cbv zeta. fold order.
  split; [exact Hsum|]. split; [|exact Hrows].
  enter_route place_order.
  rewrite (logged_in_user _ _ _ _ Huser).
  rewrite Hscan. cbn [Py.bind].
  unfold Orm.add_order. fold order.
  rewrite Hadd. reflexivity.
Qed.

Lemma place_order_creates_order_witness :
  exists total rows,
    lines_total
      [({| MenuItem.id := 1; MenuItem.name := "漢堡";
           MenuItem.price := Some 80%float;
           MenuItem.description := Some "牛肉漢堡";
           MenuItem.image_path := None |}, 2);
       ({| MenuItem.id := 2; MenuItem.name := "薯條";
           MenuItem.price := Some 40%float;
           MenuItem.description := Some "酥脆薯條";
           MenuItem.image_path := None |}, 1)]
    = Some total
    /\ serve noon
         (PostCustomerOrder
            [("quantity_1", Text "2"); ("quantity_2", Text "1");
             ("quantity_3", Text "0")])
         seeded (Some 2)
       = {| world :=
              set_db seeded
                (set_order_items
                   (set_orders (db seeded)
                      [{| Order.id := 1; Order.user_id := Some 2;
                          Order.order_date := "2024-05-17 12:00:00";
                          Order.total_price := Sqlite.real total |}])
                   rows);
            session := Some 2;
            response := Redirect "/customer/orders" |}
    /\ map columns rows = [(Some 1, Some 1, 2); (Some 1, Some 2, 1)].
Proof.
  apply (place_order_creates_order noon seeded (Some 2)
           {| User.id := 2; User.username := "customer";
              User.password := "customer"; User.is_restaurant := false |}
           [("quantity_1", Text "2"); ("quantity_2", Text "1");
            ("quantity_3", Text "0")]
           ({| MenuItem.id := 1; MenuItem.name := "漢堡";
               MenuItem.price := Some 80%float;
               MenuItem.description := Some "牛肉漢堡";
               MenuItem.image_path := None |}, 2)
           [({| MenuItem.id := 2; MenuItem.name := "薯條";
                MenuItem.price := Some 40%float;
                MenuItem.description := Some "酥脆薯條";
                MenuItem.image_path := None |}, 1)]).
  - reflexivity.
  - repeat constructor; intros _.
    + exists 2. split; [reflexivity|]. intros _. now exists 1.
    + exists 1. split; [reflexivity|]. intros _. now exists 2.
    + exists 0. split; [reflexivity|]. lia.
  - reflexivity.
  - repeat constructor; cbn [fst snd MenuItem.price]; try reflexivity;
      eexists; reflexivity.
Defined.

(** C2 fails as stated: next to a valid line (two of item 1), a quantity
    field left empty makes the same submission fail, and no order is
    created. *)
Lemma place_order_valid_line_not_enough :
  valid_lines (db seeded) [("quantity_1", Text "2"); ("quantity_2", Text "")]
  = [({| MenuItem.id := 1; MenuItem.name := "漢堡";
         MenuItem.price := Some 80%float;
         MenuItem.description := Some "牛肉漢堡";
         MenuItem.image_path := None |}, 2)]
  /\ get_current_user (db seeded) (Some 2)
     = Some {| User.id := 2; User.username := "customer";
               User.password := "customer"; User.is_restaurant := false |}
  /\ serve noon
       (PostCustomerOrder [("quantity_1", Text "2"); ("quantity_2", Text "")])
       seeded (Some 2)
     = {| world := seeded; session := Some 2;
          response := ServerError Py.ValueError |}
  /\ orders (db seeded) = [].
Proof. repeat split; reflexivity. Qed.

(** C1 fails as stated: with A = item 1 (price 80) and no menu item 7, 8
    or 9, the submission {1: 2, 7: 0, 8: -1, 9: "x"} is not served from
    its valid line: the conversion of ["x"] raises, the request ends in a
    server error, and the order and order-item tables stay empty. *)
Lemma place_order_non_numeric_fails :
  serve noon
    (PostCustomerOrder
       [("quantity_1", Text "2"); ("quantity_7", Text "0");
        ("quantity_8", Text "-1"); ("quantity_9", Text "x")])
    seeded (Some 2)
  = {| world := seeded; session := Some 2;
       response := ServerError Py.ValueError |}
  /\ orders (db seeded) = []
  /\ order_items (db seeded) = [].
Proof. repeat split; reflexivity. Qed.

(** C1 (as the code has it). For a submission by an authenticated user:
    - a field that is no quantity, or a quantity that reads as zero or
      less, is passed over: the request is served as if the form did not
      have it (and a quantity that is missing from the form is no field at
      all);
    - a quantity whose value [int] does not take (a text that is no
      integer literal or has more than 4300 digits, an uploaded file) is
      not passed over: the request ends in a server error (the exception
      of that field or the one of an earlier field: a ValueError, an
      OverflowError or a TypeError), and the world and the session stay as
      they were, so no order and no order item is created;
    - for {A: 2, B: 0, C: -1}, where the query for A's id finds a menu
      item of price p, exactly one order is appended, of total 0 + p * 2
      as the column keeps it, and exactly one order item, for A with
      quantity 2. *)
Theorem place_order_quantity_fields now w s user form :
  get_current_user (db w) s = Some user ->
  serve now (PostCustomerOrder form) w s
  = serve now (PostCustomerOrder (filter (fun f => negb (ignored f)) form)) w s
  /\ (forall key value e0,
        In (key, value) form ->
        Py.startswith key "quantity_" = true ->
        int_of value = Py.Raise e0 ->
        exists e,
          order_fault e
          /\ serve now (PostCustomerOrder form) w s
             = {| world := w; session := s; response := ServerError e |})
  /\ (forall a b c i m p,
        form = [(a, Text "2"); (b, Text "0"); (c, Text "-1")] ->
        Py.startswith a "quantity_" = true ->
        item_id_of a = Py.Ok i ->
        Orm.query_menu_item (db w) i = Py.Ok (Some m) ->
        MenuItem.price m = Some p ->
        let order :=
          {| Order.id := Orm.next_id (map Order.id (orders (db w)));
             Order.user_id := Some (User.id user);
             Order.order_date := Py.strftime_order now;
             Order.total_price :=
               Sqlite.real (Py.float_add 0 (PrimFloat.mul p 2)) |} in
        let item :=
          {| OrderItem.id := Orm.next_id (map OrderItem.id (order_items (db w)));
             OrderItem.order_id := Some (Order.id order);
             OrderItem.menu_item_id := Some (MenuItem.id m);
             OrderItem.quantity := 2 |} in
        serve now (PostCustomerOrder form) w s
        = {| world :=
               set_db w
                 (set_order_items
                    (set_orders (db w) (orders (db w) ++ [order])%list)
                    (order_items (db w) ++ [item])%list);
             session := s;
             response := Redirect "/customer/orders" |}).
Proof.
  intros Huser. repeat split.
  - enter_route place_order.
    rewrite !(logged_in_user _ _ _ _ Huser).
    now rewrite <- scan_form_ignored.
  - intros key value e0 Hin Hkey Hvalue.
    destruct (scan_form_unreadable (db w) form key value _ Hin Hkey Hvalue
                ([], 0%float)) as [e He].
    assert (Hroute : route now (PostCustomerOrder form) w s = Py.Raise e).
    { cbn [route]; unfold place_order.
      rewrite (logged_in_user _ _ _ _ Huser). now rewrite He. }
    exists e. now apply place_order_fault.
  - intros a b c i m p -> Ha Hi Hm Hp order item.
    enter_route place_order.
    rewrite (logged_in_user _ _ _ _ Huser).
    assert (Ia : ignored (a, Text "2") = false)
      by (unfold ignored; cbn [fst snd]; now rewrite Ha).
    assert (Ib : ignored (b, Text "0") = true)
      by (unfold ignored; cbn [fst snd];
          now destruct (Py.startswith b "quantity_")).
    assert (Ic : ignored (c, Text "-1") = true)
      by (unfold ignored; cbn [fst snd];
          now destruct (Py.startswith c "quantity_")).
    rewrite scan_form_ignored. cbn [filter]. rewrite Ia, Ib, Ic.
    cbn [negb scan_form scan_field].
    rewrite Ha.
    replace (int_of (Text "2")) with (Py.Ok 2) by reflexivity.
    cbn [Py.bind Z.gtb Z.compare]. rewrite Hi. cbn [Py.bind].
    rewrite Hm. cbn [Py.bind]. rewrite Hp.
    replace (Py.mul (Some p) 2) with (Py.Ok (PrimFloat.mul p 2))
      by (cbn [Py.mul]; unfold Py.float_mul_int;
          replace (Py.float_of_int 2) with (Py.Ok 2%float)
            by (vm_compute; reflexivity);
          reflexivity).
    cbn [Py.bind app]. unfold Orm.add_order. fold order.
    cbn [add_lines fst snd].
    rewrite add_order_item_fits by reflexivity.
    reflexivity.
Qed.

Lemma place_order_quantity_fields_witness :
  serve noon
    (PostCustomerOrder
       [("quantity_1", Text "2"); ("quantity_7", Text "0");
        ("quantity_8", Text "-1")])
    seeded (Some 2)
  = {| world :=
         set_db seeded
           (set_order_items
              (set_orders (db seeded)
                 [{| Order.id := 1; Order.user_id := Some 2;
                     Order.order_date := "2024-05-17 12:00:00";
                     Order.total_price := Some 160%float |}])
              [{| OrderItem.id := 1; OrderItem.order_id := Some 1;
                  OrderItem.menu_item_id := Some 1;
                  OrderItem.quantity := 2 |}]);
       session := Some 2;
       response := Redirect "/customer/orders" |}.
Proof.
  refine (proj2 (proj2
    (place_order_quantity_fields noon seeded (Some 2)
       {| User.id := 2; User.username := "customer";
          User.password := "customer"; User.is_restaurant := false |}
       [("quantity_1", Text "2"); ("quantity_7", Text "0");
        ("quantity_8", Text "-1")] _))
    "quantity_1" "quantity_7" "quantity_8" 1
    {| MenuItem.id := 1; MenuItem.name := "漢堡";
       MenuItem.price := Some 80%float;
       MenuItem.description := Some "牛肉漢堡"; MenuItem.image_path := None |}
    80%float _ _ _ _ _); reflexivity.
Defined.

(** ** What every reachable database satisfies *)

Lemma consistent_same d d' :
  usernames d' = usernames d ->
  quantities d' = quantities d ->
  consistent d -> consistent d'.
Proof.
  unfold consistent. now intros -> ->.
Qed.

Lemma user_by_username_none d n :
  Orm.user_by_username d n = None -> ~ In n (usernames d).
Proof.
  unfold Orm.user_by_username, usernames. intros Hfind Hin.
  apply in_map_iff in Hin as [u [<- Hu]].
  apply (find_none _ _ Hfind) in Hu.
  now rewrite String.eqb_refl in Hu.
Qed.

Lemma nodup_snoc (l : list string) n :
  NoDup l -> ~ In n l -> NoDup (l ++ [n]).
Proof.
  induction 1 as [|x l Hx Hl IH]; intros Hn; cbn.
  - constructor; [easy|constructor].
  - constructor.
    + rewrite in_app_iff. intros [H|[->|[]]]; [easy|].
      apply Hn. now left.
    + apply IH. intros H. apply Hn. now right.
Qed.

Lemma nodup_map_filter {A} (f : A -> string) (p : A -> bool) l :
  NoDup (map f l) -> NoDup (map f (filter p l)).
Proof.
  induction l as [|x l IH]; cbn; [trivial|].
  intros H. inversion H as [|? ? Hx Hl]; subst.
  destruct (p x); cbn; [|now apply IH].
  constructor; [|now apply IH].
  intros Hin. apply Hx.
  apply in_map_iff in Hin as [y [Hy Hin]].
  apply filter_In in Hin as [Hin _].
  rewrite <- Hy. now apply in_map.
Qed.

(** The unique constraint at work: a row is added only under a name no
    row has. *)
Lemma add_user_consistent d n p r d' u :
  Orm.add_user d n p r = Py.Ok (d', u) ->
  consistent d -> consistent d'.
Proof.
  unfold Orm.add_user.
  destruct (Orm.user_by_username d n) eqn:Hfind; [discriminate|].
  intros [= <- _] [Hnames Hq]. split; [|exact Hq].
  unfold usernames in *. cbn. rewrite map_app. cbn.
  apply nodup_snoc; [exact Hnames|].
  now apply user_by_username_none.
Qed.

Lemma update_user_usernames d i f :
  (forall u, User.username (f u) = User.username u) ->
  usernames (Orm.update_user d i f) = usernames d.
Proof.
  intros Hf. unfold usernames, Orm.update_user. cbn.
  rewrite map_map. apply map_ext. intros u.
  now destruct (User.id u =? i).
Qed.

Lemma delete_user_consistent d u :
  consistent d -> consistent (Orm.delete_user d u).
Proof.
  intros [Hnames Hq]. split; [|exact Hq].
  unfold usernames, Orm.delete_user. cbn.
  now apply nodup_map_filter.
Qed.

Lemma delete_menu_item_quantities d m :
  quantities (Orm.delete_menu_item d m) = quantities d.
Proof.
  unfold quantities, Orm.delete_menu_item. cbn.
  rewrite map_map. apply map_ext. intros i.
  unfold Orm.unlink_menu_item.
  now destruct (Orm.opt_eqb _ _).
Qed.

(** A line enters the local list only after its quantity was converted. *)
Lemma scan_field_convertible d ls t field ls' t' :
  scan_field d (ls, t) field = Py.Ok (ls', t') ->
  Forall convertible (map snd ls) -> Forall convertible (map snd ls').
Proof.
  unfold scan_field. destruct field as [key value].
  destruct (Py.startswith key "quantity_"); [|now intros [= <- _]].
  destruct (int_of value) as [v|]; cbn; [|discriminate].
  destruct (v >? 0); [|now intros [= <- _]].
  destruct (item_id_of key) as [i|]; cbn; [|discriminate].
  destruct (Orm.query_menu_item d i) as [[m|]|]; cbn;
    [|now intros [= <- _]|discriminate].
  destruct (Py.mul (MenuItem.price m) v) as [f|] eqn:Hf; cbn; [|discriminate].
  intros [= <- _] Hls. rewrite map_app. apply Forall_app. split; [exact Hls|].
  constructor; [|constructor].
  now destruct (mul_ok _ _ _ Hf) as [p [_ [Hconv _]]].
Qed.

Lemma scan_form_convertible d form : forall ls t ls' t',
  scan_form d (ls, t) form = Py.Ok (ls', t') ->
  Forall convertible (map snd ls) -> Forall convertible (map snd ls').
Proof.
  induction form as [|field rest IH]; intros ls t ls' t'; cbn.
  - now intros [= <- _].
  - destruct (scan_field d (ls, t) field) as [[ls1 t1]|] eqn:E; cbn;
      [|discriminate].
    intros Hrest Hls. eapply IH; [exact Hrest|].
    eapply scan_field_convertible; eassumption.
Qed.

Lemma init_db_consistent d d' :
  init_db d = Py.Ok d' -> consistent d -> consistent d'.
Proof.
  unfold init_db. destruct (Orm.first_restaurant d); [now intros [= <-]|].
  destruct (Orm.add_user d "restaurant" "restaurant" true)
    as [[d1 u1]|] eqn:E1; cbn [Py.bind fst]; [|discriminate].
  destruct (Orm.add_user d1 "customer" "customer" false)
    as [[d2 u2]|] eqn:E2; cbn [Py.bind fst]; [|discriminate].
  intros [= <-] H.
  apply (add_user_consistent _ _ _ _ _ _ E1) in H.
  apply (add_user_consistent _ _ _ _ _ _ E2) in H.
  revert H. now apply consistent_same.
Qed.

Lemma get_menu_settings_core d :
  usernames (fst (get_menu_settings d)) = usernames d
  /\ quantities (fst (get_menu_settings d)) = quantities d.
Proof.
  unfold get_menu_settings. now destruct (menu_settings d).
Qed.

Lemma restaurant_only_consistent w s body r :
  (forall user r, body user = Py.Ok r -> consistent (db (world r))) ->
  consistent (db w) ->
  restaurant_only w s body = Py.Ok r -> consistent (db (world r)).
Proof.
  intros Hbody Hw. unfold restaurant_only, reply.
  destruct (get_current_user (db w) s) as [user|]; [|now intros [= <-]].
  destruct (User.is_restaurant user); [apply Hbody|now intros [= <-]].
Qed.

Lemma logged_in_consistent w s body r :
  (forall user r, body user = Py.Ok r -> consistent (db (world r))) ->
  consistent (db w) ->
  logged_in w s body = Py.Ok r -> consistent (db (world r)).
Proof.
  intros Hbody Hw. unfold logged_in, reply.
  destruct (get_current_user (db w) s) as [user|]; [|now intros [= <-]].
  apply Hbody.
Qed.

Lemma login_consistent w s username password is_student r :
  consistent (db w) ->
  login w s username password is_student = Py.Ok r ->
  consistent (db (world r)).
Proof.
  intros Hw. unfold login, reply.
  destruct (Orm.user_by_username (db w) username) as [user|].
  - destruct (negb (String.eqb (User.password user) password));
      [now intros [= <-]|].
    destruct (User.is_restaurant user); now intros [= <-].
  - destruct (negb (negb _)); [|now intros [= <-]].
    destruct (Orm.add_user (db w) username password false)
      as [[d u]|] eqn:E; cbn [Py.bind fst snd]; [|discriminate].
    apply (add_user_consistent _ _ _ _ _ _ E) in Hw.
    destruct (User.is_restaurant u); now intros [= <-].
Qed.

Lemma add_order_item_consistent d o m q d' :
  Orm.add_order_item d o m q = Py.Ok d' ->
  consistent d -> convertible q -> consistent d'.
Proof.
  intros Hadd [Hnames Hq] Hconv.
  apply add_order_item_ok in Hadd as [_ ->].
  split; [exact Hnames|].
  unfold quantities. cbn. rewrite map_app.
  apply Forall_app. split; [exact Hq|]. now constructor.
Qed.

Lemma add_lines_consistent order ls : forall d d',
  add_lines d order ls = Py.Ok d' ->
  consistent d -> Forall convertible (map snd ls) -> consistent d'.
Proof.
  induction ls as [|l ls IH]; intros d d'; cbn [add_lines].
  - now intros [= <-].
  - destruct (Orm.add_order_item _ _ _ _) as [d1|] eqn:E; cbn [Py.bind];
      [|discriminate].
    intros Hrest Hd Hls. inversion Hls; subst.
    apply (IH _ _ Hrest); [|assumption].
    eapply add_order_item_consistent; eassumption.
Qed.

Lemma place_order_consistent now w s form r :
  consistent (db w) ->
  place_order now w s form = Py.Ok r -> consistent (db (world r)).
Proof.
  intros Hw. unfold place_order.
  apply logged_in_consistent; [|exact Hw]. clear r. intros user r.
  destruct (scan_form (db w) ([], 0%float) form) as [[ls t]|] eqn:E;
    cbn [Py.bind]; [|discriminate].
  apply scan_form_convertible in E; [|constructor].
  destruct ls as [|l ls]; [now intros [= <-]|].
  destruct (Orm.add_order (db w) (User.id user) (Py.strftime_order now) t)
    as [d1 order] eqn:Horder.
  destruct (add_lines d1 order (l :: ls)) as [d2|] eqn:Hadd; cbn [Py.bind];
    [|discriminate].
  intros [= <-]. cbn [world db set_db].
  apply (add_lines_consistent _ _ _ _ Hadd); [|exact E].
  injection Horder as <- _.
  revert Hw. now apply consistent_same.
Qed.

(** Every route keeps the database consistent. *)
Lemma route_consistent now req w s r :
  consistent (db w) ->
  route now req w s = Py.Ok r -> consistent (db (world r)).
Proof.
  intros Hw.
  destruct req; cbn [route];
    try (now apply login_consistent);
    try (now apply place_order_consistent);
    unfold root, logout, restaurant_dashboard, restaurant_users, add_user,
      update_user, delete_user, restaurant_menu, add_menu_item,
      update_menu_item, upload_menu_item_image, upload_full_menu_image,
      delete_menu_item, customer_menu, customer_orders;
    try (apply restaurant_only_consistent; [|exact Hw]; intros user r');
    try (apply logged_in_consistent; [|exact Hw]; intros user r');
    unfold reply.
  - now intros [= <-].
  - now intros [= <-].
  - now intros [= <-].
  - now intros [= <-].
  - destruct (Orm.add_user _ _ _ _) as [[d u]|] eqn:E;
      cbn [Py.bind fst]; [|discriminate].
    intros [= <-]. now apply (add_user_consistent _ _ _ _ _ _ E).
  - destruct (negb _); [now intros [= <-]|].
    destruct (Orm.query_user (db w) user_id) as [[target|]|]; cbn [Py.bind];
      [| |discriminate]; intros [= <-]; [|exact Hw].
    revert Hw. apply consistent_same; [|reflexivity].
    now apply update_user_usernames.
  - destruct (Orm.query_user (db w) user_id) as [[target|]|]; cbn [Py.bind];
      [| |discriminate]; intros [= <-]; [|exact Hw].
    now apply delete_user_consistent.
  - destruct (get_menu_settings_core (db w)) as [Hu Hq].
    destruct (get_menu_settings (db w)) as [d ms]. intros [= <-].
    revert Hw. now apply consistent_same.
  - destruct item_image as [f|].
    + destruct (negb _); [destruct (save_image now (images w) f)|];
        intros [= <-]; exact Hw.
    + intros [= <-]; exact Hw.
  - destruct (Orm.query_menu_item (db w) item_id) as [[item|]|];
      cbn [Py.bind]; [| |discriminate]; intros [= <-]; exact Hw.
  - destruct (Orm.query_menu_item (db w) item_id) as [[item|]|];
      cbn [Py.bind]; [|now intros [= <-]|discriminate].
    destruct (negb _); [destruct (save_image now (images w) item_image)|];
      intros [= <-]; exact Hw.
  - destruct (get_menu_settings_core (db w)) as [Hu Hq].
    destruct (get_menu_settings (db w)) as [d ms].
    destruct (negb _);
      [destruct (save_image now (images w) full_menu_image)|];
      intros [= <-]; revert Hw; now apply consistent_same.
  - destruct (Orm.query_menu_item (db w) item_id) as [[item|]|];
      cbn [Py.bind]; [| |discriminate]; intros [= <-]; [|exact Hw].
    revert Hw. apply consistent_same; [reflexivity|].
    apply delete_menu_item_quantities.
  - destruct (get_menu_settings_core (db w)) as [Hu Hq].
    destruct (get_menu_settings (db w)) as [d ms]. intros [= <-].
    revert Hw. now apply consistent_same.
  - destruct (with_details _ _); cbn [Py.bind]; [|discriminate].
    now intros [= <-].
Qed.

Lemma serve_consistent now req w s :
  consistent (db w) -> consistent (db (world (serve now req w s))).
Proof.
  intros Hw. unfold serve.
  destruct (route now req w s) as [r|e] eqn:E; [|exact Hw].
  now apply (route_consistent now req w s).
Qed.

Lemma startup_consistent w :
  consistent (db w) -> consistent (db (startup w)).
Proof.
  intros Hw. unfold startup.
  destruct (init_db (db w)) as [d|] eqn:E; [|exact Hw].
  now apply (init_db_consistent _ _ E).
Qed.

Lemma reachable_consistent w : reachable w -> consistent (db w).
Proof.
  induction 1 as [|w _ IH|now req s w _ IH].
  - split; constructor.
  - now apply startup_consistent.
  - now apply serve_consistent.
Qed.

Lemma browse_reachable reqs : forall w s,
  reachable w -> reachable (fst (browse reqs w s)).
Proof.
  induction reqs as [|[now req] rest IH]; intros w s Hw; [exact Hw|].
  cbn [browse]. apply IH. now apply reach_serve.
Qed.

Lemma seeded_reachable : reachable seeded.
Proof. apply reach_startup, reach_new. Qed.

(** C10. In every reachable world the usernames of the user rows are
    pairwise distinct.  A login never adds a row under a username that a
    row already has (the signup branch is taken only after the lookup by
    username found no row), and the add-user route of a restaurant account,
    which has no check of its own, ends in an unhandled IntegrityError on
    a username in use and leaves the world, so the user table, unchanged:
    no handled error and no second row. *)
Theorem usernames_stay_unique w :
  reachable w ->
  NoDup (usernames (db w))
  /\ (forall now s username password is_student existing,
        Orm.user_by_username (db w) username = Some existing ->
        users (db (world (serve now (PostLogin username password is_student) w s)))
        = users (db w))
  /\ (forall now s admin username password is_restaurant,
        get_current_user (db w) s = Some admin ->
        User.is_restaurant admin = true ->
        In username (usernames (db w)) ->
        serve now (PostUsersAdd username password is_restaurant) w s
        = {| world := w; session := s;
             response := ServerError Py.IntegrityError |}).
Proof.
  intros Hw. split; [apply (reachable_consistent w Hw)|]. split.
  - intros now s username password is_student existing Hfound.
    enter_route login; unfold reply. rewrite Hfound.
    destruct (negb (String.eqb (User.password existing) password));
      [reflexivity|].
    now destruct (User.is_restaurant existing).
  - intros now s admin username password is_restaurant Hadmin Hrole Hin.
    enter_route add_user.
    rewrite (restaurant_only_granted _ _ _ _ Hadmin Hrole).
    unfold Orm.add_user.
    destruct (Orm.user_by_username (db w) username) eqn:Hfind; [reflexivity|].
    now apply user_by_username_none in Hfind.
Qed.

Lemma usernames_stay_unique_witness :
  NoDup (usernames (db seeded))
  /\ (forall now s username password is_student existing,
        Orm.user_by_username (db seeded) username = Some existing ->
        users (db (world (serve now (PostLogin username password is_student)
                            seeded s)))
        = users (db seeded))
  /\ (forall now s admin username password is_restaurant,
        get_current_user (db seeded) s = Some admin ->
        User.is_restaurant admin = true ->
        In username (usernames (db seeded)) ->
        serve now (PostUsersAdd username password is_restaurant) seeded s
        = {| world := seeded; session := s;
             response := ServerError Py.IntegrityError |}).
Proof.
  apply (usernames_stay_unique seeded).
  apply reach_startup, reach_new.
Defined.

(** ** Deleting a menu item *)

Lemma menu_item_by_id_id d i m :
  Orm.menu_item_by_id d i = Some m -> MenuItem.id m = i.
Proof.
  unfold Orm.menu_item_by_id. intros H.
  apply find_some in H as [_ H]. now apply Z.eqb_eq.
Qed.

Lemma find_filter_out {A} (p : A -> bool) l :
  find p (filter (fun x => negb (p x)) l) = None.
Proof.
  induction l as [|x l IH]; [reflexivity|]. cbn.
  destruct (p x) eqn:E; cbn; [exact IH|]. now rewrite E.
Qed.

Lemma opt_eqb_true a b : Orm.opt_eqb a b = true <-> a = Some b.
Proof.
  destruct a as [x|]; cbn; [|easy].
  rewrite Z.eqb_eq. split; congruence.
Qed.

Lemma opt_eqb_false a b : Orm.opt_eqb a b = false <-> a <> Some b.
Proof.
  rewrite <- opt_eqb_true. destruct (Orm.opt_eqb a b); split; congruence.
Qed.

(** C8 fails as stated: after the seed customer's order of items 1 and
    2, the restaurant deletes item 1.  Both order items are still there,
    but the one that referenced item 1 references nothing: its
    [menu_item_id] is NULL, not the id of the missing item. *)
Lemma delete_menu_item_clears_reference :
  order_items (db (fst ordered))
  = [{| OrderItem.id := 1; OrderItem.order_id := Some 1;
        OrderItem.menu_item_id := Some 1; OrderItem.quantity := 2 |};
     {| OrderItem.id := 2; OrderItem.order_id := Some 1;
        OrderItem.menu_item_id := Some 2; OrderItem.quantity := 1 |}]
  /\ response (serve later (GetMenuDelete 1) (fst ordered) (Some 1))
     = Redirect "/restaurant/menu"
  /\ order_items (db (world (serve later (GetMenuDelete 1) (fst ordered) (Some 1))))
     = [{| OrderItem.id := 1; OrderItem.order_id := Some 1;
           OrderItem.menu_item_id := None; OrderItem.quantity := 2 |};
        {| OrderItem.id := 2; OrderItem.order_id := Some 1;
           OrderItem.menu_item_id := Some 2; OrderItem.quantity := 1 |}].
Proof. repeat split; reflexivity. Qed.

(** C8 (as the code has it). When a restaurant account deletes a menu
    item that the query finds, the menu item row is removed whatever
    references it,
    and no order item row is deleted: the rows keep their ids, orders and
    quantities, in the same order.  A row that referenced the deleted item
    is kept with [menu_item_id] NULL, a row that did not is kept as it
    was, and no row references the deleted id afterwards. *)
Theorem delete_menu_item_unlinks now w s admin item_id item :
  get_current_user (db w) s = Some admin ->
  User.is_restaurant admin = true ->
  Orm.query_menu_item (db w) item_id = Py.Ok (Some item) ->
  let r := serve now (GetMenuDelete item_id) w s in
  let before := order_items (db w) in
  let after := order_items (db (world r)) in
  response r = Redirect "/restaurant/menu"
  /\ Orm.menu_item_by_id (db (world r)) item_id = None
  /\ map OrderItem.id after = map OrderItem.id before
  /\ map OrderItem.order_id after = map OrderItem.order_id before
  /\ map OrderItem.quantity after = map OrderItem.quantity before
  /\ (forall i, In i before ->
                OrderItem.menu_item_id i = Some item_id ->
                In (OrderItem.set_menu_item_id i None) after)
  /\ (forall i, In i before ->
                OrderItem.menu_item_id i <> Some item_id -> In i after)
  /\ (forall i, In i after -> OrderItem.menu_item_id i <> Some item_id).
Proof.
  intros Hadmin Hrole Hquery r before after.
  assert (Hitem : Orm.menu_item_by_id (db w) item_id = Some item)
    by (now destruct (query_menu_item_ok _ _ _ Hquery)).
  assert (Hr : r = {| world := set_db w (Orm.delete_menu_item (db w) item);
                      session := s;
                      response := Redirect "/restaurant/menu" |}).
  { subst r. enter_route delete_menu_item.
    rewrite (restaurant_only_granted _ _ _ _ Hadmin Hrole).
    now rewrite Hquery. }
  assert (Hafter : after = map (Orm.unlink_menu_item item_id) before).
  { subst after before. rewrite Hr. cbn.
    now rewrite (menu_item_by_id_id _ _ _ Hitem). }
  assert (Hcol : forall {B} (f : OrderItem.t -> B),
             (forall i, f (OrderItem.set_menu_item_id i None) = f i) ->
             map f after = map f before).
  { intros B f Hf. rewrite Hafter, map_map. apply map_ext. intros i.
    unfold Orm.unlink_menu_item. now destruct (Orm.opt_eqb _ _). }
  repeat split.
  - now rewrite Hr.
  - rewrite Hr. unfold Orm.menu_item_by_id, Orm.delete_menu_item. cbn.
    rewrite (menu_item_by_id_id _ _ _ Hitem). apply find_filter_out.
  - now apply Hcol.
  - now apply Hcol.
  - now apply Hcol.
  - intros i Hin Href. rewrite Hafter. apply in_map_iff. exists i.
    split; [|exact Hin]. unfold Orm.unlink_menu_item.
    apply opt_eqb_true in Href. now rewrite Href.
  - intros i Hin Href. rewrite Hafter. apply in_map_iff. exists i.
    split; [|exact Hin]. unfold Orm.unlink_menu_item.
    apply opt_eqb_false in Href. now rewrite Href.
  - intros i Hin. rewrite Hafter in Hin.
    apply in_map_iff in Hin as [j [<- _]]. unfold Orm.unlink_menu_item.
    destruct (Orm.opt_eqb (OrderItem.menu_item_id j) item_id) eqn:E.
    + discriminate.
    + now apply opt_eqb_false.
Qed.

Lemma delete_menu_item_unlinks_witness :
  let r := serve later (GetMenuDelete 1) (fst ordered) (Some 1) in
  let before := order_items (db (fst ordered)) in
  let after := order_items (db (world r)) in
  response r = Redirect "/restaurant/menu"
  /\ Orm.menu_item_by_id (db (world r)) 1 = None
  /\ map OrderItem.id after = map OrderItem.id before
  /\ map OrderItem.order_id after = map OrderItem.order_id before
  /\ map OrderItem.quantity after = map OrderItem.quantity before
  /\ (forall i, In i before ->
                OrderItem.menu_item_id i = Some 1 ->
                In (OrderItem.set_menu_item_id i None) after)
  /\ (forall i, In i before ->
                OrderItem.menu_item_id i <> Some 1 -> In i after)
  /\ (forall i, In i after -> OrderItem.menu_item_id i <> Some 1).
Proof.
  exact (delete_menu_item_unlinks later (fst ordered) (Some 1)
           {| User.id := 1; User.username := "restaurant";
              User.password := "restaurant"; User.is_restaurant := true |}
           1
           {| MenuItem.id := 1; MenuItem.name := "漢堡";
              MenuItem.price := Some 80%float;
              MenuItem.description := Some "牛肉漢堡";
              MenuItem.image_path := None |}
           eq_refl eq_refl eq_refl).
Defined.

(** ** Order history *)

Lemma ordered_reachable : reachable (fst ordered).
Proof. apply browse_reachable, seeded_reachable. Qed.

(** C9. A world the service reaches by honest requests: the seed
    customer orders items 1 and 2, the restaurant deletes item 1, the
    customer logs in again.  The customer then owns an order with an item
    whose menu item is gone: the lookup finds no row, the handler reads
    the name of that missing row, and the order history request ends in
    an unhandled AttributeError instead of a page. *)
Theorem order_history_faults_after_delete :
  reachable (fst orphaned)
  /\ In {| OrderItem.id := 1; OrderItem.order_id := Some 1;
           OrderItem.menu_item_id := Some 1; OrderItem.quantity := 2 |}
        (order_items (db (fst ordered)))
  /\ Orm.menu_item_by_id (db (fst orphaned)) 1 = None
  /\ (exists user order item,
        get_current_user (db (fst orphaned)) (snd orphaned) = Some user
        /\ In order (orders_of (db (fst orphaned)) user)
        /\ In item (Orm.items_of (db (fst orphaned)) order)
        /\ OrderItem.id item = 1
        /\ Orm.menu_item_by_ref (db (fst orphaned))
             (OrderItem.menu_item_id item) = None)
  /\ (forall now,
        serve now GetCustomerOrders (fst orphaned) (snd orphaned)
        = {| world := fst orphaned; session := snd orphaned;
             response := ServerError Py.AttributeError |}).
Proof.
  split; [apply browse_reachable, ordered_reachable|].
  split; [now left|]. split; [reflexivity|]. split.
  - eexists _, _, _. split; [reflexivity|].
    split; [now left|]. split; [now left|]. split; reflexivity.
  - intros now. reflexivity.
Qed.

Lemma items_of_in d o i : In i (Orm.items_of d o) -> In i (order_items d).
Proof.
  unfold Orm.items_of. intros H. now apply filter_In in H.
Qed.

(** The inner loop of the history, on items that resolve to a menu item
    with a price. *)
Lemma items_with_details_recomputed d items :
  Forall (fun i => convertible (OrderItem.quantity i)) items ->
  (forall i, In i items -> priced_item d i) ->
  exists details,
    items_with_details d items = Py.Ok details
    /\ Forall2 (recomputed d) items details.
Proof.
  induction 1 as [|i items Hi _ IH]; intros Hres.
  - exists []. split; [reflexivity|constructor].
  - destruct IH as [details [Hdetails Hrel]].
    { intros j Hj. apply Hres. now right. }
    destruct (Hres i (or_introl eq_refl)) as [m [p [Hm Hp]]].
    cbn [items_with_details]. unfold detail_of.
    rewrite Hm, Hp, (mul_priced _ _ Hi), Hdetails. cbn [Py.bind].
    eexists. split; [reflexivity|].
    constructor; [|exact Hrel]. exists m, p. cbn. now repeat split.
Qed.

Lemma consistent_items_of d o :
  consistent d ->
  Forall (fun i => convertible (OrderItem.quantity i)) (Orm.items_of d o).
Proof.
  intros [_ Hq]. unfold quantities in Hq. rewrite Forall_map in Hq.
  rewrite Forall_forall in *. intros i Hi.
  apply Hq. now apply items_of_in in Hi.
Qed.

(** The outer loop: a page, when every item of every order resolves to a
    menu item with a price. *)
Lemma with_details_resolvable d os :
  consistent d ->
  (forall o, In o os -> priced d o) ->
  exists history,
    with_details d os = Py.Ok history /\ map fst history = os.
Proof.
  intros Hd. induction os as [|o os IH]; intros Hres.
  - now exists [].
  - destruct IH as [history [Hh Hfst]].
    { intros o' Ho'. apply Hres. now right. }
    destruct (items_with_details_recomputed d (Orm.items_of d o))
      as [details [Hdetails _]].
    + now apply consistent_items_of.
    + apply Hres. now left.
    + cbn [with_details]. rewrite Hdetails, Hh. cbn [Py.bind].
      eexists. split; [reflexivity|]. cbn. now rewrite Hfst.
Qed.







(** ** The writes behind every route *)

Lemma writes_one d d' : write d d' -> writes d d'.
Proof.
  intros H. eapply writes_step; [exact H|apply writes_done].
Qed.

Lemma writes_trans d1 d2 d3 : writes d1 d2 -> writes d2 d3 -> writes d1 d3.
Proof.
  induction 1 as [|a b c Hab _ IH]; [trivial|].
  intros Hc. eapply writes_step; [exact Hab|now apply IH].
Qed.

Lemma writes_snoc d1 d2 d3 : writes d1 d2 -> write d2 d3 -> writes d1 d3.
Proof.
  intros H12 H23. eapply writes_trans; [exact H12|now apply writes_one].
Qed.

Lemma user_by_id_in d i u : Orm.user_by_id d i = Some u -> In u (users d).
Proof.
  unfold Orm.user_by_id. intros H. now apply find_some in H.
Qed.

Lemma user_by_id_id d i u : Orm.user_by_id d i = Some u -> User.id u = i.
Proof.
  unfold Orm.user_by_id. intros H.
  apply find_some in H as [_ H]. now apply Z.eqb_eq.
Qed.

Lemma get_current_user_in d s u :
  get_current_user d s = Some u -> In u (users d).
Proof.
  destruct s as [i|]; cbn; [apply user_by_id_in|discriminate].
Qed.

Lemma menu_item_by_id_in d i m :
  Orm.menu_item_by_id d i = Some m -> In m (menu_items d).
Proof.
  unfold Orm.menu_item_by_id. intros H. now apply find_some in H.
Qed.

Lemma scan_field_checked d ls t field ls' t' :
  scan_field d (ls, t) field = Py.Ok (ls', t') ->
  Forall (checked_line d) ls -> Forall (checked_line d) ls'.
Proof.
  unfold scan_field. destruct field as [key value].
  destruct (Py.startswith key "quantity_"); [|now intros [= <- _]].
  destruct (int_of value) as [v|]; cbn; [|discriminate].
  destruct (v >? 0) eqn:Hpos; [|now intros [= <- _]].
  destruct (item_id_of key) as [i|]; cbn; [|discriminate].
  destruct (Orm.query_menu_item d i) as [[m|]|] eqn:Hquery; cbn;
    [|now intros [= <- _]|discriminate].
  destruct (Py.mul (MenuItem.price m) v) as [f|] eqn:Hf; cbn; [|discriminate].
  intros [= <- _] Hls. apply Forall_app. split; [exact Hls|].
  constructor; [|constructor]. unfold checked_line. cbn [fst snd].
  destruct (query_menu_item_ok _ _ _ Hquery) as [_ Hm]. symmetry in Hm.
  rewrite (menu_item_by_id_id _ _ _ Hm). split; [exact Hm|]. split; [lia|].
  now destruct (mul_ok _ _ _ Hf) as [p [_ [Hconv _]]].
Qed.

Lemma scan_form_checked d form : forall ls t ls' t',
  scan_form d (ls, t) form = Py.Ok (ls', t') ->
  Forall (checked_line d) ls -> Forall (checked_line d) ls'.
Proof.
  induction form as [|field rest IH]; intros ls t ls' t'; cbn.
  - now intros [= <- _].
  - destruct (scan_field d (ls, t) field) as [[ls1 t1]|] eqn:E; cbn;
      [|discriminate].
    intros Hrest Hls. eapply IH; [exact Hrest|].
    eapply scan_field_checked; eassumption.
Qed.

Lemma add_lines_writes order ls : forall d d',
  add_lines d order ls = Py.Ok d' ->
  In order (orders d) ->
  Forall (fun l : Line => In (fst l) (menu_items d)
                          /\ 0 < snd l /\ convertible (snd l)) ls ->
  writes d d'.
Proof.
  induction ls as [|l ls IH]; intros d d'; cbn [add_lines].
  - intros [= <-] _ _. apply writes_done.
  - destruct (Orm.add_order_item _ _ _ _) as [d1|] eqn:E; cbn [Py.bind];
      [|discriminate].
    intros Hrest Ho Hls.
    inversion Hls as [|? ? [Hm [Hq Hc]] Hls']; subst.
    eapply writes_step.
    + now apply (write_add_order_item d order (fst l) (snd l) d1).
    + apply add_order_item_ok in E as [_ ->].
      apply (IH _ _ Hrest); assumption.
Qed.

Lemma get_menu_settings_writes d : writes d (fst (get_menu_settings d)).
Proof.
  unfold get_menu_settings. destruct (menu_settings d).
  - apply writes_one, write_add_menu_setting.
  - apply writes_done.
Qed.

Lemma init_db_writes d d' : init_db d = Py.Ok d' -> writes d d'.
Proof.
  unfold init_db. destruct (Orm.first_restaurant d).
  { intros [= <-]. apply writes_done. }
  destruct (Orm.add_user d "restaurant" "restaurant" true)
    as [[d1 u1]|] eqn:E1; cbn [Py.bind fst]; [|discriminate].
  destruct (Orm.add_user d1 "customer" "customer" false)
    as [[d2 u2]|] eqn:E2; cbn [Py.bind fst]; [|discriminate].
  cbv zeta. intros [= <-].
  match goal with
  | |- writes _ (set_menu_settings ?x _) =>
      change (writes d (fst (Orm.add_menu_setting x)))
  end.
  eapply writes_snoc; [|apply write_add_menu_setting].
  do 4 (eapply writes_snoc; [|apply write_add_menu_item]).
  eapply writes_step; [exact (write_add_user _ _ _ _ _ _ E1)|].
  apply writes_one, (write_add_user _ _ _ _ _ _ E2).
Qed.

Lemma restaurant_only_writes w s body r :
  (forall user r, body user = Py.Ok r -> writes (db w) (db (world r))) ->
  restaurant_only w s body = Py.Ok r -> writes (db w) (db (world r)).
Proof.
  intros Hbody. unfold restaurant_only, reply.
  destruct (get_current_user (db w) s) as [user|];
    [|intros [= <-]; apply writes_done].
  destruct (User.is_restaurant user);
    [apply Hbody|intros [= <-]; apply writes_done].
Qed.

Lemma logged_in_writes w s body r :
  (forall user r, In user (users (db w)) ->
                  body user = Py.Ok r -> writes (db w) (db (world r))) ->
  logged_in w s body = Py.Ok r -> writes (db w) (db (world r)).
Proof.
  intros Hbody. unfold logged_in, reply.
  destruct (get_current_user (db w) s) as [user|] eqn:E;
    [|intros [= <-]; apply writes_done].
  apply Hbody. now apply get_current_user_in in E.
Qed.

Lemma login_writes w s username password is_student r :
  login w s username password is_student = Py.Ok r ->
  writes (db w) (db (world r)).
Proof.
  unfold login, reply.
  destruct (Orm.user_by_username (db w) username) as [user|].
  - destruct (negb (String.eqb (User.password user) password));
      [intros [= <-]; apply writes_done|].
    destruct (User.is_restaurant user); intros [= <-]; apply writes_done.
  - destruct (negb (negb _)); [|intros [= <-]; apply writes_done].
    destruct (Orm.add_user (db w) username password false)
      as [[d u]|] eqn:E; cbn [Py.bind fst snd]; [|discriminate].
    destruct (User.is_restaurant u); intros [= <-];
      apply writes_one, (write_add_user _ _ _ _ _ _ E).
Qed.

Lemma place_order_writes now w s form r :
  place_order now w s form = Py.Ok r -> writes (db w) (db (world r)).
Proof.
  unfold place_order. apply logged_in_writes. clear r. intros user r Huser.
  destruct (scan_form (db w) ([], 0%float) form) as [[ls t]|] eqn:E;
    cbn [Py.bind]; [|discriminate].
  apply scan_form_checked in E; [|constructor].
  destruct ls as [|l ls]; [intros [= <-]; apply writes_done|].
  destruct (Orm.add_order (db w) (User.id user) (Py.strftime_order now) t)
    as [d1 order] eqn:Horder.
  destruct (add_lines d1 order (l :: ls)) as [d2|] eqn:Hadd; cbn [Py.bind];
    [|discriminate].
  intros [= <-]. cbn [world db set_db].
  pose proof (write_add_order _ user (Py.strftime_order now) t Huser) as H.
  rewrite Horder in H. cbn [fst] in H.
  eapply writes_step; [exact H|].
  apply (add_lines_writes _ _ _ _ Hadd).
  - injection Horder as <- <-. cbn. apply in_or_app. right. now left.
  - injection Horder as <- _.
    eapply Forall_impl; [|exact E]. intros x [Hm Hrest]. split;
      [|exact Hrest]. now apply menu_item_by_id_in in Hm.
Qed.

(** Every route changes the database by such writes only. *)
Lemma route_writes now req w s r :
  route now req w s = Py.Ok r -> writes (db w) (db (world r)).
Proof.
  destruct req; cbn [route];
    try (now apply login_writes);
    try (now apply place_order_writes);
    unfold root, logout, restaurant_dashboard, restaurant_users, add_user,
      update_user, delete_user, restaurant_menu, add_menu_item,
      update_menu_item, upload_menu_item_image, upload_full_menu_image,
      delete_menu_item, customer_menu, customer_orders;
    try (apply restaurant_only_writes; intros user r');
    try (apply logged_in_writes; intros user r' _);
    unfold reply.
  - intros [= <-]; apply writes_done.
  - intros [= <-]; apply writes_done.
  - intros [= <-]; apply writes_done.
  - intros [= <-]; apply writes_done.
  - destruct (Orm.add_user _ _ _ _) as [[d u]|] eqn:E;
      cbn [Py.bind fst]; [|discriminate].
    intros [= <-]. apply writes_one, (write_add_user _ _ _ _ _ _ E).
  - destruct (negb _); [intros [= <-]; apply writes_done|].
    destruct (Orm.query_user (db w) user_id) as [[target|]|]; cbn [Py.bind];
      [| |discriminate]; intros [= <-];
      [apply writes_one, write_password|apply writes_done].
  - destruct (Orm.query_user (db w) user_id) as [[target|]|]; cbn [Py.bind];
      [| |discriminate]; intros [= <-];
      [apply writes_one, write_delete_user|apply writes_done].
  - pose proof (get_menu_settings_writes (db w)) as H.
    destruct (get_menu_settings (db w)) as [d ms]. now intros [= <-].
  - destruct item_image as [f|].
    + destruct (negb _); [destruct (save_image now (images w) f)|];
        intros [= <-]; apply writes_one, write_add_menu_item.
    + intros [= <-]; apply writes_one, write_add_menu_item.
  - destruct (Orm.query_menu_item (db w) item_id) as [[item|]|];
      cbn [Py.bind]; [| |discriminate]; intros [= <-];
      [apply writes_one, write_menu_details|apply writes_done].
  - destruct (Orm.query_menu_item (db w) item_id) as [[item|]|];
      cbn [Py.bind]; [|intros [= <-]; apply writes_done|discriminate].
    destruct (negb _); [destruct (save_image now (images w) item_image)|];
      intros [= <-];
      [apply writes_one, write_menu_image|apply writes_done].
  - pose proof (get_menu_settings_writes (db w)) as H.
    destruct (get_menu_settings (db w)) as [d ms].
    destruct (negb _);
      [destruct (save_image now (images w) full_menu_image)|];
      intros [= <-]; [|exact H].
    eapply writes_trans; [exact H|].
    apply writes_one, write_full_menu_image.
  - destruct (Orm.query_menu_item (db w) item_id) as [[item|]|];
      cbn [Py.bind]; [| |discriminate]; intros [= <-];
      [apply writes_one, write_delete_menu_item|apply writes_done].
  - pose proof (get_menu_settings_writes (db w)) as H.
    destruct (get_menu_settings (db w)) as [d ms]. now intros [= <-].
  - destruct (with_details _ _); cbn [Py.bind]; [|discriminate].
    intros [= <-]; apply writes_done.
Qed.

Lemma serve_writes now req w s :
  writes (db w) (db (world (serve now req w s))).
Proof.
  unfold serve. destruct (route now req w s) as [r|e] eqn:E.
  - now apply (route_writes now req w s).
  - apply writes_done.
Qed.

Lemma startup_writes w : writes (db w) (db (startup w)).
Proof.
  unfold startup. destruct (init_db (db w)) as [d|] eqn:E.
  - now apply init_db_writes.
  - apply writes_done.
Qed.

(** ** Keys and references *)

Lemma next_id_above ids x : In x ids -> x < Orm.next_id ids.
Proof.
  unfold Orm.next_id. induction ids as [|y ids IH]; [contradiction|].
  cbn [fold_right]. intros [->|H]; [lia|]. apply IH in H. lia.
Qed.

Lemma next_id_fresh ids : ~ In (Orm.next_id ids) ids.
Proof.
  intros H. apply next_id_above in H. lia.
Qed.

Lemma nodup_add {A} (l : list A) x : NoDup l -> ~ In x l -> NoDup (l ++ [x]).
Proof.
  induction 1 as [|y l Hy Hl IH]; intros Hx; cbn.
  - constructor; [easy|constructor].
  - constructor.
    + rewrite in_app_iff. intros [H|[->|[]]]; [easy|].
      apply Hx. now left.
    + apply IH. intros H. apply Hx. now right.
Qed.

Lemma nodup_keys_filter {A} (key : A -> Z) (p : A -> bool) l :
  NoDup (map key l) -> NoDup (map key (filter p l)).
Proof.
  induction l as [|x l IH]; cbn; [trivial|].
  intros H. inversion H as [|? ? Hx Hl]; subst.
  destruct (p x); cbn; [|now apply IH].
  constructor; [|now apply IH].
  intros Hin. apply Hx.
  apply in_map_iff in Hin as [y [Hy Hin]].
  apply filter_In in Hin as [Hin _].
  rewrite <- Hy. now apply in_map.
Qed.

(** An UPDATE by key keeps every column it does not assign. *)
Lemma map_update {A B} (col : A -> B) (key : A -> Z) (f : A -> A) i l :
  (forall x, col (f x) = col x) ->
  map col (map (fun x => if key x =? i then f x else x) l) = map col l.
Proof.
  intros Hf. rewrite map_map. apply map_ext. intros x.
  now destruct (key x =? i).
Qed.

Lemma in_keys_filter {A} (key : A -> Z) k l x :
  In x (map key l) -> x <> k ->
  In x (map key (filter (fun y => negb (key y =? k)) l)).
Proof.
  intros Hin Hx. apply in_map_iff in Hin as [y [<- Hy]].
  apply in_map. apply filter_In. split; [exact Hy|].
  apply negb_true_iff. now apply Z.eqb_neq.
Qed.

Lemma write_keys_unique d d' : write d d' -> keys_unique d -> keys_unique d'.
Proof.
  intros H (Hu & Hm & Ho & Hi & Hs).
  destruct H; unfold keys_unique.
  - unfold Orm.add_user in *.
    destruct (Orm.user_by_username d n); [discriminate|].
    injection H as <- _. cbn. repeat split; trivial.
    rewrite map_app. apply nodup_add; [exact Hu|apply next_id_fresh].
  - unfold Orm.update_user. cbn. repeat split; trivial.
    now rewrite map_update.
  - unfold Orm.delete_user. cbn. repeat split; trivial.
    + now apply nodup_keys_filter.
    + rewrite map_map. erewrite map_ext; [exact Ho|].
      intros o. unfold Orm.unlink_user. now destruct (Orm.opt_eqb _ _).
  - unfold Orm.add_menu_item. cbn. repeat split; trivial.
    rewrite map_app. apply nodup_add; [exact Hm|apply next_id_fresh].
  - unfold Orm.update_menu_item. cbn. repeat split; trivial.
    now rewrite map_update.
  - unfold Orm.update_menu_item. cbn. repeat split; trivial.
    now rewrite map_update.
  - unfold Orm.delete_menu_item. cbn. repeat split; trivial.
    + now apply nodup_keys_filter.
    + rewrite map_map. erewrite map_ext; [exact Hi|].
      intros o. unfold Orm.unlink_menu_item. now destruct (Orm.opt_eqb _ _).
  - unfold Orm.add_menu_setting. cbn. repeat split; trivial.
    rewrite map_app. apply nodup_add; [exact Hs|apply next_id_fresh].
  - unfold Orm.update_menu_setting. cbn. repeat split; trivial.
    now rewrite map_update.
  - unfold Orm.add_order. cbn. repeat split; trivial.
    rewrite map_app. apply nodup_add; [exact Ho|apply next_id_fresh].
  - match goal with
    | E : Orm.add_order_item _ _ _ _ = _ |- _ =>
        apply add_order_item_ok in E as [_ ->]
    end.
    cbn. repeat split; trivial.
    rewrite map_app. apply nodup_add; [exact Hi|apply next_id_fresh].
Qed.

Lemma null_or_in_incl r ids ids' :
  (forall x, In x ids -> In x ids') -> null_or_in r ids -> null_or_in r ids'.
Proof.
  destruct r as [x|]; cbn; [|trivial]. intros H. apply H.
Qed.

(** When the tables referred to keep their keys, the references hold on. *)
Lemma references_same_keys d d' :
  order_items d' = order_items d ->
  map (fun o => (Order.id o, Order.user_id o)) (orders d')
  = map (fun o => (Order.id o, Order.user_id o)) (orders d) ->
  (forall x, In x (map MenuItem.id (menu_items d)) ->
             In x (map MenuItem.id (menu_items d'))) ->
  (forall x, In x (map User.id (users d)) -> In x (map User.id (users d'))) ->
  references_hold d -> references_hold d'.
Proof.
  intros Hi Ho Hm Hu [Hitems Horders].
  assert (Hids : map Order.id (orders d') = map Order.id (orders d)).
  { apply (f_equal (map fst)) in Ho. now rewrite !map_map in Ho. }
  split.
  - rewrite Hi, Hids. eapply Forall_impl; [|exact Hitems].
    intros i (Hord & Hmenu & Hq). repeat split; trivial.
    eapply null_or_in_incl; eassumption.
  - assert (H : Forall (fun p : Z * option Z =>
                          null_or_in (snd p) (map User.id (users d')))
                       (map (fun o => (Order.id o, Order.user_id o))
                            (orders d'))).
    { rewrite Ho, Forall_map. eapply Forall_impl; [|exact Horders].
      intros o. cbn. now apply null_or_in_incl. }
    now rewrite Forall_map in H.
Qed.

Lemma in_snoc {A} (l : list A) x y : In x l -> In x (l ++ [y]).
Proof.
  intros H. apply in_or_app. now left.
Qed.

Lemma write_references d d' :
  write d d' -> references_hold d -> references_hold d'.
Proof.
  intros H Href. destruct H.
  - unfold Orm.add_user in *.
    destruct (Orm.user_by_username d n); [discriminate|].
    injection H as <- _. revert Href.
    apply references_same_keys; trivial.
    cbn. intros x. rewrite map_app. apply in_snoc.
  - revert Href. apply references_same_keys; trivial.
    unfold Orm.update_user. cbn. now rewrite map_update.
  - destruct Href as [Hitems Horders]. unfold Orm.delete_user. split; cbn.
    + rewrite map_map. erewrite (map_ext _ Order.id); [exact Hitems|].
      intros o. unfold Orm.unlink_user. now destruct (Orm.opt_eqb _ _).
    + rewrite Forall_map. eapply Forall_impl; [|exact Horders].
      intros o Ho. unfold Orm.unlink_user.
      destruct (Orm.opt_eqb (Order.user_id o) (User.id u)) eqn:E; [exact I|].
      apply opt_eqb_false in E. unfold null_or_in in *.
      destruct (Order.user_id o) as [x|] eqn:Eo; [|exact I].
      apply in_keys_filter; [exact Ho|congruence].
  - revert Href. apply references_same_keys; trivial.
    cbn. intros x. rewrite map_app. apply in_snoc.
  - revert Href. apply references_same_keys; trivial.
    unfold Orm.update_menu_item. cbn. now rewrite map_update.
  - revert Href. apply references_same_keys; trivial.
    unfold Orm.update_menu_item. cbn. now rewrite map_update.
  - destruct Href as [Hitems Horders]. unfold Orm.delete_menu_item.
    split; cbn; [|exact Horders].
    rewrite Forall_map. eapply Forall_impl; [|exact Hitems].
    intros i (Hord & Hmenu & Hq). unfold Orm.unlink_menu_item.
    destruct (Orm.opt_eqb (OrderItem.menu_item_id i) (MenuItem.id m)) eqn:E;
      cbn; [now repeat split|].
    repeat split; trivial. apply opt_eqb_false in E. unfold null_or_in in *.
    destruct (OrderItem.menu_item_id i) as [x|] eqn:Ei; [|exact I].
    apply in_keys_filter; [exact Hmenu|congruence].
  - revert Href. now apply references_same_keys.
  - revert Href. now apply references_same_keys.
  - destruct Href as [Hitems Horders]. unfold Orm.add_order. split; cbn.
    + eapply Forall_impl; [|exact Hitems].
      intros i ([o [Ho Hin]] & Hmenu & Hq). repeat split; trivial.
      exists o. split; [exact Ho|]. rewrite map_app. now apply in_snoc.
    + apply Forall_app. split; [exact Horders|].
      constructor; [|constructor]. cbn. now apply in_map.
  - destruct Href as [Hitems Horders].
    match goal with
    | E : Orm.add_order_item _ _ _ _ = _ |- _ =>
        apply add_order_item_ok in E as [_ ->]
    end.
    split; cbn; [|exact Horders].
    apply Forall_app. split; [exact Hitems|].
    constructor; [|constructor]. cbn. repeat split; trivial.
    + exists (Order.id order). split; [reflexivity|]. now apply in_map.
    + now apply in_map.
Qed.

Lemma writes_sound d d' :
  writes d d' ->
  keys_unique d /\ references_hold d ->
  keys_unique d' /\ references_hold d'.
Proof.
  induction 1 as [|a b c Hab _ IH]; [trivial|].
  intros [Hk Hr]. apply IH. split.
  - now apply (write_keys_unique a b).
  - now apply (write_references a b).
Qed.

Lemma reachable_sound w :
  reachable w -> keys_unique (db w) /\ references_hold (db w).
Proof.
  induction 1 as [|w _ IH|now req s w _ IH].
  - repeat split; constructor.
  - exact (writes_sound _ _ (startup_writes w) IH).
  - exact (writes_sound _ _ (serve_writes now req w s) IH).
Qed.

(** X1. In every reachable world no two rows of a table share an id,
    in any of the five tables: a new row gets one more than the largest
    id in use, an update keeps the id and a delete only removes rows. *)
Theorem reachable_keys_unique w : reachable w -> keys_unique (db w).
Proof.
  intros H. apply (reachable_sound w H).
Qed.

Lemma reachable_keys_unique_witness : keys_unique (db (fst orphaned)).
Proof.
  apply (reachable_keys_unique (fst orphaned)).
  apply browse_reachable, browse_reachable, reach_startup, reach_new.
Defined.

(** X2. In every reachable world the references hold: every order item
    belongs to an order that exists, has a positive quantity, and is for
    a menu item that exists or for none (a deleted item leaves NULL behind,
    never the id of a missing row); every order belongs to a user that
    exists or to none. *)
Theorem reachable_references_hold w : reachable w -> references_hold (db w).
Proof.
  intros H. apply (reachable_sound w H).
Qed.

Lemma reachable_references_hold_witness : references_hold (db (fst orphaned)).
Proof.
  apply (reachable_references_hold (fst orphaned)).
  apply browse_reachable, browse_reachable, reach_startup, reach_new.
Defined.

(** ** Sessions *)

(** X3. A login is refused with the one error page, whatever the reason:
    an unknown username without the customer hint, or a known username
    with another password (with or without the hint).  The database, the
    files and the session of the caller stay as they were. *)
Theorem login_rejects now w s username password is_student :
  (Orm.user_by_username (db w) username = None /\ is_student <> Some "true")
  \/ (exists user, Orm.user_by_username (db w) username = Some user
                   /\ User.password user <> password) ->
  serve now (PostLogin username password is_student) w s
  = {| world := w; session := s;
       response := TemplateResponse "login.html"
                     (LoginPage (Some "帳號或密碼不正確")) |}.
Proof.
  intros [[Hnone Hhint]|[user [Hsome Hpw]]]; enter_route login.
  - rewrite Hnone. destruct is_student as [v|]; [|reflexivity].
    destruct (String.eqb_spec v "true") as [->|]; [congruence|reflexivity].
  - rewrite Hsome. apply String.eqb_neq in Hpw. now rewrite Hpw.
Qed.

Lemma login_rejects_witness :
  serve noon (PostLogin "nobody" "pw" None) seeded None
  = {| world := seeded; session := None;
       response := TemplateResponse "login.html"
                     (LoginPage (Some "帳號或密碼不正確")) |}.
Proof.
  apply (login_rejects noon seeded None "nobody" "pw" None).
  left. split; [reflexivity|discriminate].
Defined.

(** X4. A login with the username and the password of a stored user
    succeeds whatever the role hint says: nothing is written, the session
    is set to that user's id, and the redirect follows the stored role,
    so a restaurant account that logs in through the customer form still
    lands on the dashboard. *)
Theorem login_accepts now w s user username is_student :
  Orm.user_by_username (db w) username = Some user ->
  serve now (PostLogin username (User.password user) is_student) w s
  = {| world := w; session := Some (User.id user);
       response := Redirect (if User.is_restaurant user
                             then "/restaurant/dashboard"
                             else "/customer/menu") |}.
Proof.
  intros Hsome. enter_route login. rewrite Hsome, String.eqb_refl. cbn.
  now destruct (User.is_restaurant user).
Qed.

Lemma login_accepts_witness :
  serve noon (PostLogin "restaurant" "restaurant" (Some "true")) seeded None
  = {| world := seeded; session := Some 1;
       response := Redirect "/restaurant/dashboard" |}.
Proof.
  apply (login_accepts noon seeded None
           {| User.id := 1; User.username := "restaurant";
              User.password := "restaurant"; User.is_restaurant := true |}
           "restaurant" (Some "true")).
  reflexivity.
Defined.

Lemma logged_in_anonymous w s body :
  anonymous w s -> logged_in w s body = reply w s (Redirect "/").
Proof.
  unfold anonymous, logged_in. now intros ->.
Qed.

(** X5. On the three customer routes (menu, place order, order history)
    a request whose session resolves to no user is answered by a redirect
    to the login page, and nothing changes: no settings row is created, no
    order is placed. *)
Theorem customer_routes_guarded now req w s :
  customer_route req = true ->
  anonymous w s ->
  serve now req w s
  = {| world := w; session := s; response := Redirect "/" |}.
Proof.
  intros Hroute Hanon.
  destruct req; try discriminate Hroute; unfold serve; cbn [route].
  - unfold customer_menu. now rewrite logged_in_anonymous.
  - unfold place_order. now rewrite logged_in_anonymous.
  - unfold customer_orders. now rewrite logged_in_anonymous.
Qed.

Lemma customer_routes_guarded_witness :
  serve noon (PostCustomerOrder [("quantity_1", Text "2")]) seeded (Some 7)
  = {| world := seeded; session := Some 7; response := Redirect "/" |}.
Proof.
  apply (customer_routes_guarded noon (PostCustomerOrder [("quantity_1", Text "2")])
           seeded (Some 7)); reflexivity.
Defined.

(** X6. After a logout the client is locked out: the logout writes
    nothing and clears the session, and the next request of that client on
    any restaurant or customer route is redirected to the login page
    without any change. *)
Theorem logout_locks_out now now' req w s :
  restaurant_route req || customer_route req = true ->
  serve now GetLogout w s
  = {| world := w; session := None; response := Redirect "/" |}
  /\ serve now' req (world (serve now GetLogout w s))
                    (session (serve now GetLogout w s))
     = {| world := w; session := None; response := Redirect "/" |}.
Proof.
  intros Hroute. split; [reflexivity|].
  cbn [serve route logout reply world session].
  destruct req; try discriminate Hroute; unfold serve; cbn [route];
    match goal with
    | |- context [match ?h with _ => _ end] =>
        first
          [ assert (Hh : h = reply w None (Redirect "/"))
              by (apply restaurant_only_denied; exact I)
          | assert (Hh : h = reply w None (Redirect "/"))
              by (apply logged_in_anonymous; reflexivity) ];
        rewrite Hh; reflexivity
    end.
Qed.

Lemma logout_locks_out_witness :
  serve noon GetLogout (fst ordered) (snd ordered)
  = {| world := fst ordered; session := None; response := Redirect "/" |}
  /\ serve later GetCustomerOrders
       (world (serve noon GetLogout (fst ordered) (snd ordered)))
       (session (serve noon GetLogout (fst ordered) (snd ordered)))
     = {| world := fst ordered; session := None; response := Redirect "/" |}.
Proof.
  apply (logout_locks_out noon later GetCustomerOrders (fst ordered) (snd ordered)).
  reflexivity.
Defined.

(** ** User administration *)

Lemma find_app {A} (p : A -> bool) l l' :
  find p (l ++ l') = match find p l with
                     | Some x => Some x
                     | None => find p l'
                     end.
Proof.
  induction l as [|x l IH]; [reflexivity|]. cbn.
  now destruct (p x).
Qed.

(** X7. A user added by a restaurant account under a username that is
    free can log in at once: the add appends exactly one row, with the
    role read from the form field (["true"] in any letter case makes a
    restaurant account, anything else a customer), and a login with that
    username and password then sets the session to the new id and
    redirects by that role. *)
Theorem add_user_then_login now now' w s s' admin username password
    is_restaurant is_student :
  get_current_user (db w) s = Some admin ->
  User.is_restaurant admin = true ->
  Orm.user_by_username (db w) username = None ->
  let user := {| User.id := Orm.next_id (map User.id (users (db w)));
                 User.username := username;
                 User.password := password;
                 User.is_restaurant :=
                   String.eqb (Py.lower is_restaurant) "true" |} in
  let w' := set_db w (set_users (db w) (users (db w) ++ [user])%list) in
  serve now (PostUsersAdd username password is_restaurant) w s
  = {| world := w'; session := s; response := Redirect "/restaurant/users" |}
  /\ serve now' (PostLogin username password is_student) w' s'
     = {| world := w'; session := Some (User.id user);
          response := Redirect (if User.is_restaurant user
                                then "/restaurant/dashboard"
                                else "/customer/menu") |}.
Proof.
  intros Hadmin Hrole Hfree user w'. split.
  - enter_route add_user.
    rewrite (restaurant_only_granted _ _ _ _ Hadmin Hrole).
    unfold Orm.add_user. now rewrite Hfree.
  - enter_route login.
    assert (Hfound : Orm.user_by_username (db w') username = Some user).
    { unfold Orm.user_by_username in *. cbn. rewrite find_app, Hfree. cbn.
      now rewrite String.eqb_refl. }
    rewrite Hfound. cbn [User.password user]. rewrite String.eqb_refl. cbn.
    now destruct (String.eqb (Py.lower is_restaurant) "true").
Qed.

Lemma add_user_then_login_witness :
  let user := {| User.id := 3; User.username := "chef";
                 User.password := "pw"; User.is_restaurant := true |} in
  let w' := set_db seeded
              (set_users (db seeded) (users (db seeded) ++ [user])%list) in
  serve noon (PostUsersAdd "chef" "pw" "True") seeded (Some 1)
  = {| world := w'; session := Some 1;
       response := Redirect "/restaurant/users" |}
  /\ serve later (PostLogin "chef" "pw" None) w' None
     = {| world := w'; session := Some 3;
          response := Redirect "/restaurant/dashboard" |}.
Proof.
  apply (add_user_then_login noon later seeded (Some 1) None
           {| User.id := 1; User.username := "restaurant";
              User.password := "restaurant"; User.is_restaurant := true |}
           "chef" "pw" "True" None); reflexivity.
Defined.

(** With unique usernames, the row found under a username after a
    password update is the updated row. *)
Lemma find_updated_user users target p :
  NoDup (map User.username users) ->
  In target users ->
  find (fun u => String.eqb (User.username u) (User.username target))
       (map (fun x => if User.id x =? User.id target
                      then User.set_password x p else x) users)
  = Some (User.set_password target p).
Proof.
  induction users as [|x users IH]; intros Hnd Hin; [contradiction|].
  inversion Hnd as [|? ? Hx Hrest]; subst. cbn [map find].
  destruct Hin as [->|Hin].
  - rewrite Z.eqb_refl. cbn. now rewrite String.eqb_refl.
  - assert (Hneq : User.username x <> User.username target).
    { intros Heq. apply Hx. rewrite Heq. now apply in_map. }
    replace (String.eqb
               (User.username (if User.id x =? User.id target
                               then User.set_password x p else x))
               (User.username target)) with false.
    + now apply IH.
    + symmetry. apply String.eqb_neq.
      now destruct (User.id x =? User.id target).
Qed.

(** X8. A password update with a matching confirmation takes effect for
    the target and for nobody else: afterwards the target logs in with the
    new password (the session is set to its id) and no longer with the old
    one, if that differs, and every row of another id is as it was. *)
Theorem update_user_then_login now now' w s s' admin user_id target password
    is_student :
  reachable w ->
  get_current_user (db w) s = Some admin ->
  User.is_restaurant admin = true ->
  Orm.query_user (db w) user_id = Py.Ok (Some target) ->
  let r := serve now (PostUsersUpdate user_id password password) w s in
  response r = Redirect "/restaurant/users"
  /\ serve now' (PostLogin (User.username target) password is_student)
       (world r) s'
     = {| world := world r; session := Some user_id;
          response := Redirect (if User.is_restaurant target
                                then "/restaurant/dashboard"
                                else "/customer/menu") |}
  /\ (User.password target <> password ->
      serve now' (PostLogin (User.username target) (User.password target)
                    is_student) (world r) s'
      = {| world := world r; session := s';
           response := TemplateResponse "login.html"
                         (LoginPage (Some "帳號或密碼不正確")) |})
  /\ (forall u, In u (users (db w)) -> User.id u <> user_id ->
                In u (users (db (world r)))).
Proof.
  intros Hw Hadmin Hrole Hquery r.
  assert (Htarget : Orm.user_by_id (db w) user_id = Some target)
    by (now destruct (query_user_ok _ _ _ Hquery)).
  pose proof (user_by_id_id _ _ _ Htarget) as Hid.
  pose proof (user_by_id_in _ _ _ Htarget) as Hin.
  destruct (reachable_consistent w Hw) as [Hnames _].
  assert (Hr : r = {| world :=
                        set_db w (Orm.update_user (db w) (User.id target)
                                    (fun u => User.set_password u password));
                      session := s;
                      response := Redirect "/restaurant/users" |}).
  { subst r. enter_route update_user.
    rewrite (restaurant_only_granted _ _ _ _ Hadmin Hrole).
    now rewrite String.eqb_refl, Hquery. }
  assert (Hfound : Orm.user_by_username (db (world r)) (User.username target)
                   = Some (User.set_password target password)).
  { rewrite Hr. unfold Orm.user_by_username, Orm.update_user. cbn.
    now apply find_updated_user. }
  split; [now rewrite Hr|]. split; [|split].
  - enter_route login. rewrite Hfound. cbn. rewrite String.eqb_refl. cbn.
    rewrite Hid. now destruct (User.is_restaurant target).
  - intros Hold. enter_route login. rewrite Hfound. cbn.
    replace (String.eqb password (User.password target)) with false;
      [reflexivity|].
    symmetry. apply String.eqb_neq. congruence.
  - intros u Hu Hneq. rewrite Hr. unfold Orm.update_user. cbn.
    apply in_map_iff. exists u. split; [|exact Hu].
    rewrite Hid. replace (User.id u =? user_id) with false; [reflexivity|].
    symmetry. now apply Z.eqb_neq.
Qed.

Lemma update_user_then_login_witness :
  let r := serve noon (PostUsersUpdate 2 "s3cret" "s3cret") seeded (Some 1) in
  response r = Redirect "/restaurant/users"
  /\ serve later (PostLogin "customer" "s3cret" None) (world r) None
     = {| world := world r; session := Some 2;
          response := Redirect "/customer/menu" |}
  /\ ("customer" <> "s3cret" ->
      serve later (PostLogin "customer" "customer" None) (world r) None
      = {| world := world r; session := None;
           response := TemplateResponse "login.html"
                         (LoginPage (Some "帳號或密碼不正確")) |})
  /\ (forall u, In u (users (db seeded)) -> User.id u <> 2 ->
                In u (users (db (world r)))).
Proof.
  apply (update_user_then_login noon later seeded (Some 1) None
           {| User.id := 1; User.username := "restaurant";
              User.password := "restaurant"; User.is_restaurant := true |}
           2
           {| User.id := 2; User.username := "customer";
              User.password := "customer"; User.is_restaurant := false |}
           "s3cret" None).
  - apply reach_startup, reach_new.
  - reflexivity.
  - reflexivity.
  - reflexivity.
Defined.

(** X9. When a restaurant account deletes a user that the query finds,
    the row is gone and, in the world the delete leaves, a session of that
    user, the deleting account's own included, resolves to nobody (the id
    is free again, and the next user that is given it inherits such a
    session).  No order is deleted: the orders keep their ids, dates and
    totals in the same sequence; those of the deleted user are kept with
    [user_id] NULL, so that no order refers to the deleted id, and the
    others are kept as they were. *)
Theorem delete_user_unlinks now w s admin user_id target :
  get_current_user (db w) s = Some admin ->
  User.is_restaurant admin = true ->
  Orm.query_user (db w) user_id = Py.Ok (Some target) ->
  let r := serve now (GetUsersDelete user_id) w s in
  let before := orders (db w) in
  let after := orders (db (world r)) in
  response r = Redirect "/restaurant/users"
  /\ anonymous (world r) (Some user_id)
  /\ map Order.id after = map Order.id before
  /\ map Order.order_date after = map Order.order_date before
  /\ map Order.total_price after = map Order.total_price before
  /\ (forall o, In o before -> Order.user_id o = Some user_id ->
                In (Order.set_user_id o None) after)
  /\ (forall o, In o before -> Order.user_id o <> Some user_id -> In o after)
  /\ (forall o, In o after -> Order.user_id o <> Some user_id).
Proof.
  intros Hadmin Hrole Hquery r before after.
  assert (Htarget : Orm.user_by_id (db w) user_id = Some target)
    by (now destruct (query_user_ok _ _ _ Hquery)).
  pose proof (user_by_id_id _ _ _ Htarget) as Hid.
  assert (Hr : r = {| world := set_db w (Orm.delete_user (db w) target);
                      session := s;
                      response := Redirect "/restaurant/users" |}).
  { subst r. enter_route delete_user.
    rewrite (restaurant_only_granted _ _ _ _ Hadmin Hrole).
    now rewrite Hquery. }
  assert (Hafter : after = map (Orm.unlink_user user_id) before).
  { subst after before. rewrite Hr. cbn. now rewrite Hid. }
  assert (Hcol : forall {B} (f : Order.t -> B),
             (forall o, f (Order.set_user_id o None) = f o) ->
             map f after = map f before).
  { intros B f Hf. rewrite Hafter, map_map. apply map_ext. intros o.
    unfold Orm.unlink_user. now destruct (Orm.opt_eqb _ _). }
  repeat split.
  - now rewrite Hr.
  - rewrite Hr. unfold anonymous, Orm.user_by_id, Orm.delete_user. cbn.
    rewrite Hid. apply find_filter_out.
  - now apply Hcol.
  - now apply Hcol.
  - now apply Hcol.
  - intros o Hin Href. rewrite Hafter. apply in_map_iff. exists o.
    split; [|exact Hin]. unfold Orm.unlink_user.
    apply opt_eqb_true in Href. now rewrite Href.
  - intros o Hin Href. rewrite Hafter. apply in_map_iff. exists o.
    split; [|exact Hin]. unfold Orm.unlink_user.
    apply opt_eqb_false in Href. now rewrite Href.
  - intros o Hin. rewrite Hafter in Hin.
    apply in_map_iff in Hin as [j [<- _]]. unfold Orm.unlink_user.
    destruct (Orm.opt_eqb (Order.user_id j) user_id) eqn:E.
    + discriminate.
    + now apply opt_eqb_false.
Qed.

Lemma delete_user_unlinks_witness :
  let r := serve later (GetUsersDelete 2) (fst ordered) (Some 1) in
  let before := orders (db (fst ordered)) in
  let after := orders (db (world r)) in
  response r = Redirect "/restaurant/users"
  /\ anonymous (world r) (Some 2)
  /\ map Order.id after = map Order.id before
  /\ map Order.order_date after = map Order.order_date before
  /\ map Order.total_price after = map Order.total_price before
  /\ (forall o, In o before -> Order.user_id o = Some 2 ->
                In (Order.set_user_id o None) after)
  /\ (forall o, In o before -> Order.user_id o <> Some 2 -> In o after)
  /\ (forall o, In o after -> Order.user_id o <> Some 2).
Proof.
  exact (delete_user_unlinks later (fst ordered) (Some 1)
           {| User.id := 1; User.username := "restaurant";
              User.password := "restaurant"; User.is_restaurant := true |}
           2
           {| User.id := 2; User.username := "customer";
              User.password := "customer"; User.is_restaurant := false |}
           eq_refl eq_refl eq_refl).
Defined.

(** ** Startup *)

Lemma user_by_username_found d n :
  In n (usernames d) -> exists u, Orm.user_by_username d n = Some u.
Proof.
  unfold usernames, Orm.user_by_username. intros Hin.
  destruct (find _ (users d)) as [u|] eqn:E; [now exists u|].
  apply in_map_iff in Hin as [u [<- Hu]].
  apply (find_none _ _ E) in Hu. now rewrite String.eqb_refl in Hu.
Qed.

Lemma init_db_restaurant d d' :
  init_db d = Py.Ok d' -> exists u, Orm.first_restaurant d' = Some u.
Proof.
  unfold init_db. destruct (Orm.first_restaurant d) as [u|] eqn:Hfirst.
  { intros [= <-]. now exists u. }
  unfold Orm.add_user at 1.
  destruct (Orm.user_by_username d "restaurant"); [discriminate|].
  cbn [Py.bind fst]. unfold Orm.add_user.
  destruct (Orm.user_by_username _ "customer"); [discriminate|].
  cbn [Py.bind fst]. intros [= <-].
  unfold Orm.first_restaurant in *. cbn.
  rewrite <- app_assoc, find_app, Hfirst. cbn. eauto.
Qed.

(** X10. Startup is idempotent: a second startup right after the first
    changes nothing.  Either the first found a restaurant account and did
    nothing, or it seeded one, which the second finds, or it failed on a
    username in use and left the database as it was, where the second
    fails the same way. *)
Theorem startup_idempotent w : startup (startup w) = startup w.
Proof.
  destruct (init_db (db w)) as [d|e] eqn:E.
  - assert (Hs : startup w = set_db w d) by (unfold startup; now rewrite E).
    rewrite Hs. destruct (init_db_restaurant _ _ E) as [u Hu].
    unfold startup, init_db. cbn [db set_db]. now rewrite Hu.
  - assert (Hs : startup w = w) by (unfold startup; now rewrite E).
    now rewrite !Hs.
Qed.

(** X11. A deployment that has lost its last restaurant account cannot
    be repaired by a restart while the username of a seed account is in
    use: the seeding fails on the unique constraint, startup leaves the
    world as it is, and every session keeps being turned away from the
    restaurant routes. *)
Theorem startup_cannot_reseed w :
  Orm.first_restaurant (db w) = None ->
  In "restaurant" (usernames (db w)) \/ In "customer" (usernames (db w)) ->
  startup w = w /\ forall s, denied (startup w) s.
Proof.
  intros Hfirst Htaken.
  assert (Hsame : startup w = w).
  { unfold startup, init_db. rewrite Hfirst. unfold Orm.add_user at 1.
    destruct (Orm.user_by_username (db w) "restaurant") eqn:Hr;
      [reflexivity|].
    cbn [Py.bind fst]. unfold Orm.add_user.
    destruct Htaken as [H|H].
    - now apply user_by_username_none in Hr.
    - destruct (user_by_username_found _ _ H) as [u Hu].
      unfold Orm.user_by_username in *. cbn. rewrite find_app, Hu.
      reflexivity. }
  split; [exact Hsame|]. intros s. rewrite Hsame. unfold denied.
  destruct (get_current_user (db w) s) as [u|] eqn:Hu; [|exact I].
  apply get_current_user_in in Hu.
  apply (find_none _ _ Hfirst) in Hu. exact Hu.
Qed.

Lemma startup_cannot_reseed_witness :
  let w := world (serve noon (GetUsersDelete 1) seeded (Some 1)) in
  startup w = w /\ forall s, denied (startup w) s.
Proof.
  apply (startup_cannot_reseed
           (world (serve noon (GetUsersDelete 1) seeded (Some 1)))).
  - reflexivity.
  - right. left. reflexivity.
Defined.

(** ** More on the order history *)

Lemma detail_of_raises d i e :
  convertible (OrderItem.quantity i) ->
  detail_of d i = Py.Raise e -> history_fault d i e.
Proof.
  unfold detail_of, history_fault. intros Hq.
  destruct (Orm.menu_item_by_ref d _) as [m|]; [|intros [= <-]; now left].
  destruct (MenuItem.price m) as [p|] eqn:Hp.
  - rewrite (mul_priced _ _ Hq). discriminate.
  - cbn. intros [= <-]. right. now exists m.
Qed.

Lemma detail_of_ok d i x : detail_of d i = Py.Ok x -> priced_item d i.
Proof.
  unfold detail_of, priced_item.
  destruct (Orm.menu_item_by_ref d _) as [m|]; [|discriminate].
  destruct (MenuItem.price m) as [p|] eqn:Hp; [|discriminate].
  intros _. now exists m, p.
Qed.

Lemma priced_item_no_fault d i e : priced_item d i -> ~ history_fault d i e.
Proof.
  intros [m [p [Hm Hp]]] [[Hnone _]|[m' [Hm' [Hp' _]]]]; congruence.
Qed.

Lemma items_with_details_raises d items e :
  Forall (fun i => convertible (OrderItem.quantity i)) items ->
  items_with_details d items = Py.Raise e ->
  exists i, In i items /\ history_fault d i e.
Proof.
  induction 1 as [|i items Hi _ IH]; cbn; [discriminate|].
  destruct (detail_of d i) as [x|e1] eqn:E; cbn.
  - destruct (items_with_details d items); cbn; [discriminate|].
    intros [= <-]. destruct (IH eq_refl) as [j [Hj Hfault]].
    exists j. split; [now right|exact Hfault].
  - intros [= <-]. exists i. split; [now left|].
    now apply detail_of_raises.
Qed.

Lemma with_details_raises d os e :
  consistent d ->
  with_details d os = Py.Raise e ->
  exists o i, In o os /\ In i (Orm.items_of d o) /\ history_fault d i e.
Proof.
  intros Hd. induction os as [|o os IH]; cbn; [discriminate|].
  destruct (items_with_details d (Orm.items_of d o)) as [x|e1] eqn:E; cbn.
  - destruct (with_details d os); cbn; [discriminate|].
    intros [= <-]. destruct (IH eq_refl) as [o' [i [Ho' H]]].
    exists o', i. split; [now right|exact H].
  - intros [= <-].
    destruct (items_with_details_raises _ _ _ (consistent_items_of d o Hd) E)
      as [i [Hi Hfault]].
    exists o, i. split; [now left|]. now split.
Qed.

Lemma history_fault_kind d i e :
  history_fault d i e -> e = Py.AttributeError \/ e = Py.TypeError.
Proof.
  intros [[_ ->]|[m [_ [_ ->]]]]; auto.
Qed.

Lemma items_with_details_ok d items ds i :
  items_with_details d items = Py.Ok ds ->
  In i items -> priced_item d i.
Proof.
  revert ds. induction items as [|j items IH]; intros ds; cbn;
    [contradiction|].
  destruct (detail_of d j) as [x|] eqn:E; cbn; [|discriminate].
  destruct (items_with_details d items) as [xs|]; cbn; [|discriminate].
  intros _ [->|Hin].
  - now apply detail_of_ok in E.
  - now apply (IH xs).
Qed.

Lemma with_details_ok d os history o i :
  with_details d os = Py.Ok history ->
  In o os -> In i (Orm.items_of d o) -> priced_item d i.
Proof.
  revert history. induction os as [|o' os IH]; intros history; cbn;
    [contradiction|].
  destruct (items_with_details d (Orm.items_of d o')) as [ds|] eqn:E; cbn;
    [|discriminate].
  destruct (with_details d os) as [rest|]; cbn; [|discriminate].
  intros _ [->|Ho] Hi.
  - now apply (items_with_details_ok _ _ _ _ E).
  - now apply (IH rest).
Qed.

(** X12. In a reachable world the handler of the order history returns
    the page of a logged-in user exactly when every item of the user's
    orders references a menu item that exists and has a price: then the
    page comes with the user's orders, latest first.  If one of the items
    has lost its menu item (its [menu_item_id] is NULL) or references a
    menu item whose price is NULL, the request ends in a server error, an
    AttributeError or a TypeError, and the error is the one of such an
    item: AttributeError for a missing menu item, TypeError for a missing
    price.  The handler has no other outcome. *)
Theorem order_history_renders_iff now w s user :
  reachable w ->
  get_current_user (db w) s = Some user ->
  ((forall o i, In o (orders_of (db w) user) ->
                In i (Orm.items_of (db w) o) ->
                priced_item (db w) i) ->
   exists history,
     serve now GetCustomerOrders w s
     = {| world := w; session := s;
          response := TemplateResponse "customer_orders.html"
                        (OrdersPage user history) |}
     /\ map fst history = orders_of (db w) user)
  /\ (forall o i e0,
        In o (orders_of (db w) user) ->
        In i (Orm.items_of (db w) o) ->
        history_fault (db w) i e0 ->
        exists e,
          (e = Py.AttributeError \/ e = Py.TypeError)
          /\ serve now GetCustomerOrders w s
             = {| world := w; session := s; response := ServerError e |})
  /\ (forall e,
        response (serve now GetCustomerOrders w s) = ServerError e ->
        exists o i, In o (orders_of (db w) user)
                    /\ In i (Orm.items_of (db w) o)
                    /\ history_fault (db w) i e).
Proof.
  intros Hw Huser.
  pose proof (reachable_consistent w Hw) as Hd.
  split; [|split].
  - intros Hall.
    destruct (with_details_resolvable (db w) (orders_of (db w) user) Hd)
      as [history [Hh Hfst]].
    { intros o Ho i Hi. now apply (Hall o i). }
    exists history. split; [|exact Hfst].
    enter_route customer_orders.
    rewrite (logged_in_user _ _ _ _ Huser). now rewrite Hh.
  - intros o i e0 Ho Hi Hfault. enter_route customer_orders.
    rewrite (logged_in_user _ _ _ _ Huser).
    destruct (with_details (db w) (orders_of (db w) user)) as [h|e] eqn:E;
      cbn [Py.bind].
    + exfalso. apply (priced_item_no_fault (db w) i e0); [|exact Hfault].
      apply (with_details_ok _ _ _ _ _ E Ho Hi).
    + exists e. split; [|reflexivity].
      destruct (with_details_raises _ _ _ Hd E) as [o' [i' [_ [_ H]]]].
      now apply history_fault_kind in H.
  - intros e. enter_route customer_orders.
    rewrite (logged_in_user _ _ _ _ Huser).
    destruct (with_details (db w) (orders_of (db w) user)) as [h|e1] eqn:E;
      cbn [Py.bind]; [discriminate|].
    intros [= <-]. now apply with_details_raises.
Qed.

Lemma order_history_renders_iff_witness :
  exists e,
    (e = Py.AttributeError \/ e = Py.TypeError)
    /\ serve later GetCustomerOrders (fst unpriced) (snd unpriced)
       = {| world := fst unpriced; session := snd unpriced;
            response := ServerError e |}.
Proof.
  refine (proj1 (proj2
            (order_history_renders_iff later (fst unpriced) (snd unpriced)
               {| User.id := 2; User.username := "customer";
                  User.password := "customer";
                  User.is_restaurant := false |} _ _))
            {| Order.id := 1; Order.user_id := Some 2;
               Order.order_date := "2024-05-17 12:00:00";
               Order.total_price := Some 200%float |}
            {| OrderItem.id := 1; OrderItem.order_id := Some 1;
               OrderItem.menu_item_id := Some 1; OrderItem.quantity := 2 |}
            Py.TypeError _ _ _).
  - apply browse_reachable, browse_reachable, reach_startup, reach_new.
  - reflexivity.
  - left. reflexivity.
  - left. reflexivity.
  - right. eexists. repeat split; reflexivity.
Defined.

(** ** Listings *)







(** ** What no request does *)

Lemma extends_refl {A} (l : list A) : extends l l.
Proof.
  exists []. now rewrite app_nil_r.
Qed.

Lemma extends_trans {A} (l1 l2 l3 : list A) :
  extends l1 l2 -> extends l2 l3 -> extends l1 l3.
Proof.
  intros [n ->] [m ->]. exists (n ++ m)%list. now rewrite app_assoc.
Qed.

Lemma extends_same {A} (l l' : list A) : l' = l -> extends l l'.
Proof.
  intros ->. apply extends_refl.
Qed.

Lemma write_fixed d d' :
  write d d' ->
  extends (map order_fixed (orders d)) (map order_fixed (orders d'))
  /\ extends (map item_fixed (order_items d)) (map item_fixed (order_items d')).
Proof.
  intros H. destruct H;
    try (split; apply extends_refl).
  - unfold Orm.add_user in *.
    destruct (Orm.user_by_username d n); [discriminate|].
    injection H as <- _. split; apply extends_refl.
  - split; [|apply extends_refl]. apply extends_same.
    unfold Orm.delete_user. cbn. rewrite map_map. apply map_ext.
    intros o. unfold Orm.unlink_user. now destruct (Orm.opt_eqb _ _).
  - split; [apply extends_refl|]. apply extends_same.
    unfold Orm.delete_menu_item. cbn. rewrite map_map. apply map_ext.
    intros i. unfold Orm.unlink_menu_item. now destruct (Orm.opt_eqb _ _).
  - split; [|apply extends_refl].
    unfold Orm.add_order. cbn. rewrite map_app. now eexists.
  - match goal with
    | E : Orm.add_order_item _ _ _ _ = _ |- _ =>
        apply add_order_item_ok in E as [_ ->]
    end.
    split; [apply extends_refl|].
    cbn. rewrite map_app. now eexists.
Qed.

Lemma writes_fixed d d' :
  writes d d' ->
  extends (map order_fixed (orders d)) (map order_fixed (orders d'))
  /\ extends (map item_fixed (order_items d)) (map item_fixed (order_items d')).
Proof.
  induction 1 as [|a b c Hab _ [IHo IHi]]; [split; apply extends_refl|].
  destruct (write_fixed _ _ Hab) as [Ho Hi].
  split; eapply extends_trans; eassumption.
Qed.

(** X14. No request edits or cancels an order: whatever the request and
    the session, the orders that were there are still there afterwards, in
    the same sequence and with the same id, date and total, and so are the
    order items with their id, order and quantity; rows are only ever
    appended.  The only columns that change are the two references that a
    delete sets to NULL. *)
Theorem orders_are_never_edited now req w s :
  extends (map order_fixed (orders (db w)))
          (map order_fixed (orders (db (world (serve now req w s)))))
  /\ extends (map item_fixed (order_items (db w)))
             (map item_fixed (order_items (db (world (serve now req w s))))).
Proof.
  apply writes_fixed, serve_writes.
Qed.

Lemma restaurant_only_cases w s body :
  restaurant_only w s body = reply w s (Redirect "/")
  \/ exists user, get_current_user (db w) s = Some user
                  /\ User.is_restaurant user = true
                  /\ restaurant_only w s body = body user.
Proof.
  unfold restaurant_only.
  destruct (get_current_user (db w) s) as [user|]; [|now left].
  destruct (User.is_restaurant user) eqn:E; [|now left].
  right. now exists user.
Qed.

Lemma logged_in_cases w s body :
  logged_in w s body = reply w s (Redirect "/")
  \/ exists user, get_current_user (db w) s = Some user
                  /\ logged_in w s body = body user.
Proof.
  unfold logged_in.
  destruct (get_current_user (db w) s) as [user|]; [|now left].
  right. now exists user.
Qed.

Lemma write_file_keeps fs path data p :
  In p (map fst fs) -> In p (map fst (write_file fs path data)).
Proof.
  unfold write_file. intros Hin. cbn.
  destruct (String.eqb_spec p path) as [->|Hneq]; [now left|right].
  apply in_map_iff in Hin as [f [<- Hf]]. apply in_map.
  apply filter_In. split; [exact Hf|].
  apply negb_true_iff. now apply String.eqb_neq.
Qed.

Lemma save_image_keeps now fs f p :
  In p (map fst fs) -> In p (map fst (fst (save_image now fs f))).
Proof.
  unfold save_image. cbn [fst]. apply write_file_keeps.
Qed.

Lemma route_keeps_images now req w s r p :
  route now req w s = Py.Ok r ->
  In p (map fst (images w)) -> In p (map fst (images (world r))).
Proof.
  intros Hroute Hp.
  destruct req; cbn [route] in Hroute;
    unfold root, login, logout, restaurant_dashboard, restaurant_users,
      add_user, update_user, delete_user, restaurant_menu, add_menu_item,
      update_menu_item, upload_menu_item_image, upload_full_menu_image,
      delete_menu_item, customer_menu, place_order, customer_orders
      in Hroute;
    try (match type of Hroute with
         | restaurant_only ?w ?s ?b = _ =>
             destruct (restaurant_only_cases w s b) as [H|[user [_ [_ H]]]];
             rewrite H in Hroute; clear H
         | logged_in ?w ?s ?b = _ =>
             destruct (logged_in_cases w s b) as [H|[user [_ H]]];
             rewrite H in Hroute; clear H
         end);
    unfold reply in Hroute;
    try (injection Hroute as <-; exact Hp).
  - destruct (Orm.user_by_username (db w) username) as [user|].
    + destruct (negb _); [injection Hroute as <-; exact Hp|].
      destruct (User.is_restaurant user); injection Hroute as <-; exact Hp.
    + destruct (negb (negb _)); [|injection Hroute as <-; exact Hp].
      destruct (Orm.add_user _ _ _ _) as [[d u]|]; cbn in Hroute;
        [|discriminate].
      destruct (User.is_restaurant u); injection Hroute as <-; exact Hp.
  - destruct (Orm.add_user _ _ _ _) as [[d u]|]; cbn in Hroute;
      [|discriminate].
    injection Hroute as <-; exact Hp.
  - destruct (negb _); [injection Hroute as <-; exact Hp|].
    destruct (Orm.query_user _ _) as [[target|]|]; cbn [Py.bind] in Hroute;
      [| |discriminate]; injection Hroute as <-; exact Hp.
  - destruct (Orm.query_user _ _) as [[target|]|]; cbn [Py.bind] in Hroute;
      [| |discriminate]; injection Hroute as <-; exact Hp.
  - destruct (get_menu_settings (db w)). injection Hroute as <-; exact Hp.
  - destruct item_image as [f|].
    + destruct (negb _).
      * pose proof (save_image_keeps now (images w) f p Hp) as H.
        destruct (save_image now (images w) f).
        injection Hroute as <-; exact H.
      * injection Hroute as <-; exact Hp.
    + injection Hroute as <-; exact Hp.
  - destruct (Orm.query_menu_item _ _) as [[item|]|];
      cbn [Py.bind] in Hroute; [| |discriminate];
      injection Hroute as <-; exact Hp.
  - destruct (Orm.query_menu_item _ _) as [[item|]|];
      cbn [Py.bind] in Hroute;
      [|injection Hroute as <-; exact Hp|discriminate].
    destruct (negb _).
    + pose proof (save_image_keeps now (images w) item_image p Hp) as H.
      destruct (save_image now (images w) item_image).
      injection Hroute as <-; exact H.
    + injection Hroute as <-; exact Hp.
  - destruct (get_menu_settings (db w)). destruct (negb _).
    + pose proof (save_image_keeps now (images w) full_menu_image p Hp) as H.
      destruct (save_image now (images w) full_menu_image).
      injection Hroute as <-; exact H.
    + injection Hroute as <-; exact Hp.
  - destruct (Orm.query_menu_item _ _) as [[item|]|];
      cbn [Py.bind] in Hroute; [| |discriminate];
      injection Hroute as <-; exact Hp.
  - destruct (get_menu_settings (db w)). injection Hroute as <-; exact Hp.
  - destruct (scan_form _ _ _) as [[ls t]|]; cbn [Py.bind] in Hroute;
      [|discriminate].
    destruct ls as [|l ls]; [injection Hroute as <-; exact Hp|].
    destruct (Orm.add_order _ _ _ _) as [d1 order].
    destruct (add_lines _ _ _) as [d2|]; cbn [Py.bind] in Hroute;
      [|discriminate].
    injection Hroute as <-; exact Hp.
  - destruct (with_details _ _); cbn in Hroute; [|discriminate].
    injection Hroute as <-; exact Hp.
Qed.

(** X15. No request removes an image file: every path under
    [static/images] that holds a file before a request holds one after
    it, whatever the request.  Replacing the image of a menu item or the
    full menu image, and deleting the menu item, leave the old file on
    disk. *)
Theorem images_are_never_removed now req w s path :
  In path (map fst (images w)) ->
  In path (map fst (images (world (serve now req w s)))).
Proof.
  intros Hp. unfold serve.
  destruct (route now req w s) as [r|e] eqn:E; [|exact Hp].
  now apply (route_keeps_images now req w s r).
Qed.

Lemma images_are_never_removed_witness :
  let menu := {| filename := "menu.png"; content := "first" |} in
  let w := world (serve noon (PostMenuUploadFullMenu menu) seeded (Some 1)) in
  In "static/images/20240517-120000000000.jpg"
     (map fst (images (world (serve later (GetMenuDelete 1) w (Some 1))))).
Proof.
  apply (images_are_never_removed later (GetMenuDelete 1)
           (world (serve noon
                     (PostMenuUploadFullMenu
                        {| filename := "menu.png"; content := "first" |})
                     seeded (Some 1)))
           (Some 1) "static/images/20240517-120000000000.jpg").
  left. reflexivity.
Defined.

(** Open the route of hypothesis [H] up to the body behind its guard. *)
Ltac open_route H :=
  cbn [route] in H;
  unfold root, login, logout, restaurant_dashboard, restaurant_users,
    add_user, update_user, delete_user, restaurant_menu, add_menu_item,
    update_menu_item, upload_menu_item_image, upload_full_menu_image,
    delete_menu_item, customer_menu, place_order, customer_orders in H;
  try (match type of H with
       | restaurant_only ?w ?s ?b = _ =>
           let E := fresh in
           destruct (restaurant_only_cases w s b) as [E|[? [? [? E]]]];
           rewrite E in H; clear E
       | logged_in ?w ?s ?b = _ =>
           let E := fresh in
           destruct (logged_in_cases w s b) as [E|[? [? E]]];
           rewrite E in H; clear E
       end);
  unfold reply in H.

Lemma user_by_username_in d n u :
  Orm.user_by_username d n = Some u -> In n (usernames d).
Proof.
  unfold Orm.user_by_username, usernames. intros Hfind.
  apply find_some in Hfind as [Hin Heq].
  apply String.eqb_eq in Heq as <-. now apply in_map.
Qed.

(** The exceptions a route can raise. *)
Lemma route_raises now req w s e :
  consistent (db w) ->
  route now req w s = Py.Raise e ->
  (exists username password is_restaurant,
      req = PostUsersAdd username password is_restaurant
      /\ e = Py.IntegrityError
      /\ In username (usernames (db w)))
  \/ (exists i, path_id req = Some i
                /\ Sqlite.fits i = false
                /\ e = Py.OverflowError)
  \/ (exists form, req = PostCustomerOrder form /\ order_fault e)
  \/ (req = GetCustomerOrders
      /\ (e = Py.AttributeError \/ e = Py.TypeError)).
Proof.
  intros Hd Hroute.
  destruct req; open_route Hroute; try discriminate Hroute.
  - exfalso. unfold Orm.add_user in Hroute.
    destruct (Orm.user_by_username (db w) username) as [user|].
    + destruct (negb _); [discriminate|].
      destruct (User.is_restaurant user); discriminate.
    + destruct (negb (negb _)); [|discriminate]. cbn [Py.bind fst snd] in Hroute.
      cbn [User.is_restaurant] in Hroute. discriminate.
  - left. exists username, password, is_restaurant.
    unfold Orm.add_user in Hroute.
    destruct (Orm.user_by_username (db w) username) as [u|] eqn:Hu;
      [|discriminate].
    injection Hroute as <-. repeat split.
    now apply user_by_username_in in Hu.
  - right. left. exists user_id. cbn [path_id].
    destruct (negb _); [discriminate|].
    destruct (Orm.query_user _ _) as [[target|]|e1] eqn:Hq;
      cbn [Py.bind] in Hroute; try discriminate Hroute.
    injection Hroute as <-.
    destruct (query_user_raises _ _ _ Hq) as [-> Hfits]. now repeat split.
  - right. left. exists user_id. cbn [path_id].
    destruct (Orm.query_user _ _) as [[target|]|e1] eqn:Hq;
      cbn [Py.bind] in Hroute; try discriminate Hroute.
    injection Hroute as <-.
    destruct (query_user_raises _ _ _ Hq) as [-> Hfits]. now repeat split.
  - exfalso. destruct (get_menu_settings (db w)). discriminate.
  - exfalso. destruct item_image as [f|]; [|discriminate].
    destruct (negb _); [destruct (save_image now (images w) f)|];
      discriminate.
  - right. left. exists item_id. cbn [path_id].
    destruct (Orm.query_menu_item _ _) as [[item|]|e1] eqn:Hq;
      cbn [Py.bind] in Hroute; try discriminate Hroute.
    injection Hroute as <-.
    destruct (query_menu_item_raises _ _ _ Hq) as [-> Hfits].
    now repeat split.
  - right. left. exists item_id. cbn [path_id].
    destruct (Orm.query_menu_item _ _) as [[item|]|e1] eqn:Hq;
      cbn [Py.bind] in Hroute; try discriminate Hroute.
    + exfalso. destruct (negb _);
        [destruct (save_image now (images w) item_image)|]; discriminate.
    + injection Hroute as <-.
      destruct (query_menu_item_raises _ _ _ Hq) as [-> Hfits].
      now repeat split.
  - exfalso. destruct (get_menu_settings (db w)).
    destruct (negb _);
      [destruct (save_image now (images w) full_menu_image)|]; discriminate.
  - right. left. exists item_id. cbn [path_id].
    destruct (Orm.query_menu_item _ _) as [[item|]|e1] eqn:Hq;
      cbn [Py.bind] in Hroute; try discriminate Hroute.
    injection Hroute as <-.
    destruct (query_menu_item_raises _ _ _ Hq) as [-> Hfits].
    now repeat split.
  - exfalso. destruct (get_menu_settings (db w)). discriminate.
  - right. right. left. exists form. split; [reflexivity|].
    destruct (scan_form (db w) ([], 0%float) form) as [[ls t]|e1] eqn:E;
      cbn [Py.bind] in Hroute.
    + destruct ls as [|l ls]; [discriminate|].
      destruct (Orm.add_order _ _ _ _) as [d1 order].
      destruct (add_lines _ _ _) as [d2|e2] eqn:Hadd;
        cbn [Py.bind] in Hroute; [discriminate|].
      injection Hroute as <-. right. left.
      eapply add_lines_raises; eassumption.
    + injection Hroute as <-. eapply scan_form_raises; eassumption.
  - right. right. right. split; [reflexivity|].
    destruct (with_details (db w) _) as [h|e1] eqn:E; cbn in Hroute;
      [discriminate|].
    injection Hroute as <-.
    destruct (with_details_raises _ _ _ Hd E) as [o [i [_ [_ H]]]].
    now apply history_fault_kind in H.
Qed.

(** A handler that returns answers with a redirect or a page. *)
Lemma route_returns now req w s r e :
  route now req w s = Py.Ok r -> response r <> ServerError e.
Proof.
  intros Hroute.
  destruct req; open_route Hroute;
    try (injection Hroute as <-; discriminate).
  - destruct (Orm.user_by_username (db w) username) as [user|].
    + destruct (negb _); [injection Hroute as <-; discriminate|].
      destruct (User.is_restaurant user); injection Hroute as <-; discriminate.
    + destruct (negb (negb _)); [|injection Hroute as <-; discriminate].
      destruct (Orm.add_user _ _ _ _) as [[d u]|]; cbn in Hroute;
        [|discriminate].
      destruct (User.is_restaurant u); injection Hroute as <-; discriminate.
  - destruct (Orm.add_user _ _ _ _) as [[d u]|]; cbn in Hroute;
      [|discriminate].
    injection Hroute as <-; discriminate.
  - destruct (negb _); [injection Hroute as <-; discriminate|].
    destruct (Orm.query_user _ _) as [[target|]|]; cbn [Py.bind] in Hroute;
      [| |discriminate]; injection Hroute as <-; discriminate.
  - destruct (Orm.query_user _ _) as [[target|]|]; cbn [Py.bind] in Hroute;
      [| |discriminate]; injection Hroute as <-; discriminate.
  - destruct (get_menu_settings (db w)). injection Hroute as <-; discriminate.
  - destruct item_image as [f|]; [|injection Hroute as <-; discriminate].
    destruct (negb _); [destruct (save_image now (images w) f)|];
      injection Hroute as <-; discriminate.
  - destruct (Orm.query_menu_item _ _) as [[item|]|];
      cbn [Py.bind] in Hroute; [| |discriminate];
      injection Hroute as <-; discriminate.
  - destruct (Orm.query_menu_item _ _) as [[item|]|];
      cbn [Py.bind] in Hroute;
      [|injection Hroute as <-; discriminate|discriminate].
    destruct (negb _); [destruct (save_image now (images w) item_image)|];
      injection Hroute as <-; discriminate.
  - destruct (get_menu_settings (db w)).
    destruct (negb _);
      [destruct (save_image now (images w) full_menu_image)|];
      injection Hroute as <-; discriminate.
  - destruct (Orm.query_menu_item _ _) as [[item|]|];
      cbn [Py.bind] in Hroute; [| |discriminate];
      injection Hroute as <-; discriminate.
  - destruct (get_menu_settings (db w)). injection Hroute as <-; discriminate.
  - destruct (scan_form _ _ _) as [[ls t]|]; cbn [Py.bind] in Hroute;
      [|discriminate].
    destruct ls as [|l ls]; [injection Hroute as <-; discriminate|].
    destruct (Orm.add_order _ _ _ _) as [d1 order].
    destruct (add_lines _ _ _) as [d2|]; cbn [Py.bind] in Hroute;
      [|discriminate].
    injection Hroute as <-; discriminate.
  - destruct (with_details _ _); cbn in Hroute; [|discriminate].
    injection Hroute as <-; discriminate.
Qed.

(** X16. In a reachable world the code of a handler lets an exception
    escape, and the request ends in a server error, in four cases and no
    other, always with the world and the session as they were: the
    add-user route on a username in use (IntegrityError); the five routes
    with an id in their path (update and delete of a user; update, image
    upload and delete of a menu item) on an id that does not fit 64 bits
    (OverflowError); the order route on a field it cannot read, look up,
    price or store (ValueError, OverflowError, TypeError); and the order
    history on an item without menu item or without price
    (AttributeError, TypeError).  Login, logout, the listings, the menu
    pages, the add of a menu item and the upload of the full menu image
    never fail.  What a template raises on its context is not counted. *)
Theorem server_errors_classified now req w s e :
  reachable w ->
  response (serve now req w s) = ServerError e ->
  serve now req w s = {| world := w; session := s; response := ServerError e |}
  /\ ((exists username password is_restaurant,
          req = PostUsersAdd username password is_restaurant
          /\ e = Py.IntegrityError
          /\ In username (usernames (db w)))
      \/ (exists i, path_id req = Some i
                    /\ Sqlite.fits i = false
                    /\ e = Py.OverflowError)
      \/ (exists form, req = PostCustomerOrder form /\ order_fault e)
      \/ (req = GetCustomerOrders
          /\ (e = Py.AttributeError \/ e = Py.TypeError))).
Proof.
  intros Hw. pose proof (reachable_consistent w Hw) as Hd.
  unfold serve. destruct (route now req w s) as [r|e1] eqn:E.
  - intros H. now apply (route_returns _ _ _ _ _ e) in E.
  - cbn. intros [= <-]. split; [reflexivity|].
    now apply (route_raises now req w s e1).
Qed.

Lemma server_errors_classified_witness :
  serve noon (GetMenuDelete (2 ^ 63)) seeded (Some 1)
  = {| world := seeded; session := Some 1;
       response := ServerError Py.OverflowError |}.
Proof.
  apply (server_errors_classified noon (GetMenuDelete (2 ^ 63))
           seeded (Some 1) Py.OverflowError).
  - apply reach_startup, reach_new.
  - reflexivity.
Defined.

(** X17. A session that is no restaurant account cannot administer:
    whatever it requests, the menu items and the image files stay exactly
    as they were, no settings row is changed (a missing one may be
    created, empty), and the user table is either untouched or longer by
    one customer row, the one a signup through the login form adds.  In
    particular such a session can neither create a restaurant account nor
    change or delete an account. *)
Theorem denied_session_cannot_administer now req w s :
  denied w s ->
  let r := serve now req w s in
  menu_items (db (world r)) = menu_items (db w)
  /\ images (world r) = images w
  /\ extends (menu_settings (db w)) (menu_settings (db (world r)))
  /\ (users (db (world r)) = users (db w)
      \/ exists u, users (db (world r)) = (users (db w) ++ [u])%list
                   /\ User.is_restaurant u = false).
Proof.
  intros Hdenied r. subst r. unfold serve.
  assert (Hsame : menu_items (db w) = menu_items (db w)
                  /\ images w = images w
                  /\ extends (menu_settings (db w)) (menu_settings (db w))
                  /\ (users (db w) = users (db w)
                      \/ exists u, users (db w) = (users (db w) ++ [u])%list
                                   /\ User.is_restaurant u = false)).
  { repeat split; [apply extends_refl|now left]. }
  destruct (route now req w s) as [r|e] eqn:Hroute; [|exact Hsame].
  destruct req; open_route Hroute;
    try (exfalso; unfold denied in Hdenied;
         match goal with
         | H1 : get_current_user _ _ = Some ?u,
           H2 : User.is_restaurant ?u = true |- _ =>
             rewrite H1 in Hdenied; congruence
         end);
    try (injection Hroute as <-; exact Hsame).
  - unfold Orm.add_user in Hroute.
    destruct (Orm.user_by_username (db w) username) as [user|].
    + destruct (negb _); [injection Hroute as <-; exact Hsame|].
      destruct (User.is_restaurant user); injection Hroute as <-; exact Hsame.
    + destruct (negb (negb _)); [|injection Hroute as <-; exact Hsame].
      cbn [Py.bind fst snd User.is_restaurant] in Hroute.
      injection Hroute as <-. cbn. repeat split; [apply extends_refl|].
      right. eexists. split; reflexivity.
  - unfold get_menu_settings in Hroute.
    destruct (menu_settings (db w)) as [|ms rest] eqn:E;
      injection Hroute as <-; cbn; repeat split; try (now left).
    + rewrite E. now eexists.
    + rewrite E. apply extends_refl.
  - destruct (scan_form _ _ _) as [[ls t]|]; cbn [Py.bind] in Hroute;
      [|discriminate].
    destruct ls as [|l ls]; [injection Hroute as <-; exact Hsame|].
    destruct (Orm.add_order _ _ _ _) as [d1 order] eqn:Horder.
    destruct (add_lines _ _ _) as [d2|] eqn:Hadd; cbn [Py.bind] in Hroute;
      [|discriminate].
    injection Hroute as <-.
    destruct (add_lines_rows _ _ _ _ Hadd) as [rows [-> _]].
    injection Horder as <- _. cbn.
    repeat split; [apply extends_refl|now left].
  - destruct (with_details _ _); cbn in Hroute; [|discriminate].
    injection Hroute as <-; exact Hsame.
Qed.

Lemma denied_session_cannot_administer_witness :
  let r := serve noon (PostLogin "mallory" "pw" (Some "true")) seeded (Some 2) in
  menu_items (db (world r)) = menu_items (db seeded)
  /\ images (world r) = images seeded
  /\ extends (menu_settings (db seeded)) (menu_settings (db (world r)))
  /\ (users (db (world r)) = users (db seeded)
      \/ exists u, users (db (world r)) = (users (db seeded) ++ [u])%list
                   /\ User.is_restaurant u = false).
Proof.
  apply (denied_session_cannot_administer noon
           (PostLogin "mallory" "pw" (Some "true")) seeded (Some 2)).
  reflexivity.
Defined.

(** ** Menu administration *)

Lemma find_by_key_map {A} (key : A -> Z) (g : A -> A) j l :
  (forall x, key (g x) = key x) ->
  find (fun x => key x =? j) (map g l)
  = option_map g (find (fun x => key x =? j) l).
Proof.
  intros Hg. induction l as [|x l IH]; [reflexivity|]. cbn.
  rewrite Hg. now destruct (key x =? j).
Qed.

(** The row under a key after an update by key. *)
Lemma menu_item_after_update d i f j :
  (forall m, MenuItem.id (f m) = MenuItem.id m) ->
  Orm.menu_item_by_id (Orm.update_menu_item d i f) j
  = if j =? i then option_map f (Orm.menu_item_by_id d j)
    else Orm.menu_item_by_id d j.
Proof.
  intros Hf. unfold Orm.menu_item_by_id, Orm.update_menu_item. cbn.
  rewrite find_by_key_map.
  - destruct (find (fun m => MenuItem.id m =? j) (menu_items d)) as [m|] eqn:E;
      [|now destruct (j =? i)].
    cbn. apply find_some in E as [_ E]. apply Z.eqb_eq in E. rewrite E.
    now destruct (j =? i).
  - intros m. now destruct (MenuItem.id m =? i).
Qed.

(** X18. A menu update by a restaurant account on an item that the query
    finds assigns its name, price and description and nothing else: the
    item keeps its id and its image, every other item is found as before,
    and the users, the orders with their stored totals, the order items
    and the image files are untouched.  The price is kept as the column
    keeps a float: a NaN as NULL, a negative zero as zero. *)
Theorem update_menu_item_effect now w s admin item_id item name price
    description :
  get_current_user (db w) s = Some admin ->
  User.is_restaurant admin = true ->
  Orm.query_menu_item (db w) item_id = Py.Ok (Some item) ->
  let r := serve now (PostMenuUpdate item_id name price description) w s in
  response r = Redirect "/restaurant/menu"
  /\ Orm.menu_item_by_id (db (world r)) item_id
     = Some {| MenuItem.id := item_id; MenuItem.name := name;
               MenuItem.price := Sqlite.real price;
               MenuItem.description := Some description;
               MenuItem.image_path := MenuItem.image_path item |}
  /\ (forall j, j <> item_id ->
                Orm.menu_item_by_id (db (world r)) j
                = Orm.menu_item_by_id (db w) j)
  /\ users (db (world r)) = users (db w)
  /\ orders (db (world r)) = orders (db w)
  /\ order_items (db (world r)) = order_items (db w)
  /\ images (world r) = images w.
Proof.
  intros Hadmin Hrole Hquery r.
  assert (Hitem : Orm.menu_item_by_id (db w) item_id = Some item)
    by (now destruct (query_menu_item_ok _ _ _ Hquery)).
  pose proof (menu_item_by_id_id _ _ _ Hitem) as Hid.
  assert (Hr : r = {| world :=
                        set_db w
                          (Orm.update_menu_item (db w) item_id
                             (fun m => MenuItem.set_details m name price
                                         description));
                      session := s;
                      response := Redirect "/restaurant/menu" |}).
  { subst r. enter_route update_menu_item.
    rewrite (restaurant_only_granted _ _ _ _ Hadmin Hrole).
    rewrite Hquery. cbn [Py.bind]. now rewrite Hid. }
  rewrite Hr. cbn [world response db set_db images].
  repeat split.
  - rewrite menu_item_after_update by reflexivity.
    rewrite Z.eqb_refl, Hitem. cbn. unfold MenuItem.set_details.
    now rewrite Hid.
  - intros j Hj. rewrite menu_item_after_update by reflexivity.
    replace (j =? item_id) with false; [reflexivity|].
    symmetry. now apply Z.eqb_neq.
Qed.

Lemma update_menu_item_effect_witness :
  let r := serve later (PostMenuUpdate 1 "burger" nan "beef") (fst ordered)
             (Some 1) in
  response r = Redirect "/restaurant/menu"
  /\ Orm.menu_item_by_id (db (world r)) 1
     = Some {| MenuItem.id := 1; MenuItem.name := "burger";
               MenuItem.price := None; MenuItem.description := Some "beef";
               MenuItem.image_path := None |}
  /\ (forall j, j <> 1 ->
                Orm.menu_item_by_id (db (world r)) j
                = Orm.menu_item_by_id (db (fst ordered)) j)
  /\ users (db (world r)) = users (db (fst ordered))
  /\ orders (db (world r)) = orders (db (fst ordered))
  /\ order_items (db (world r)) = order_items (db (fst ordered))
  /\ images (world r) = images (fst ordered).
Proof.
  exact (update_menu_item_effect later (fst ordered) (Some 1)
           {| User.id := 1; User.username := "restaurant";
              User.password := "restaurant"; User.is_restaurant := true |}
           1
           {| MenuItem.id := 1; MenuItem.name := "漢堡";
              MenuItem.price := Some 80%float;
              MenuItem.description := Some "牛肉漢堡";
              MenuItem.image_path := None |}
           "burger" nan "beef" eq_refl eq_refl eq_refl).
Defined.

Lemma filter_out_then_in fs path :
  filter (fun f : string * string => String.eqb (fst f) path)
         (filter (fun f => negb (String.eqb (fst f) path)) fs) = [].
Proof.
  induction fs as [|f fs IH]; [reflexivity|]. cbn.
  destruct (String.eqb (fst f) path) eqn:E; cbn; [exact IH|].
  now rewrite E.
Qed.

(** What is on disk at a path right after a write to it. *)
Lemma write_file_read fs path data :
  read_file (write_file fs path data) path = Some data
  /\ filter (fun f => String.eqb (fst f) path) (write_file fs path data)
     = [(path, data)].
Proof.
  unfold read_file, write_file. cbn. rewrite String.eqb_refl. cbn.
  now rewrite filter_out_then_in.
Qed.

(** X19. The name of an uploaded image is the time of the upload and
    nothing else, so two uploads served at the same instant collide: after
    a restaurant account has uploaded an image for one menu item and then
    one for another at the same [now], both items point to the same path,
    and the one file at that path holds the bytes of the second upload;
    the first image is lost. *)
Theorem uploads_at_one_instant_collide now w s admin i1 i2 m1 m2 f1 f2 :
  get_current_user (db w) s = Some admin ->
  User.is_restaurant admin = true ->
  Orm.query_menu_item (db w) i1 = Py.Ok (Some m1) ->
  Orm.query_menu_item (db w) i2 = Py.Ok (Some m2) ->
  i1 <> i2 ->
  filename f1 <> "" ->
  filename f2 <> "" ->
  let r1 := serve now (PostMenuUploadImage i1 f1) w s in
  let r2 := serve now (PostMenuUploadImage i2 f2) (world r1) (session r1) in
  option_map MenuItem.image_path (Orm.menu_item_by_id (db (world r2)) i1)
  = Some (Some ("/" ++ image_file now))
  /\ option_map MenuItem.image_path (Orm.menu_item_by_id (db (world r2)) i2)
     = Some (Some ("/" ++ image_file now))
  /\ read_file (images (world r2)) (image_file now) = Some (content f2)
  /\ filter (fun f => String.eqb (fst f) (image_file now)) (images (world r2))
     = [(image_file now, content f2)].
Proof.
  intros Hadmin Hrole Hq1 Hq2 Hneq Hf1 Hf2 r1 r2.
  destruct (query_menu_item_ok _ _ _ Hq1) as [_ H1]. symmetry in H1.
  destruct (query_menu_item_ok _ _ _ Hq2) as [Hfits2 H2]. symmetry in H2.
  pose proof (menu_item_by_id_id _ _ _ H1) as Hid1.
  pose proof (menu_item_by_id_id _ _ _ H2) as Hid2.
  apply String.eqb_neq in Hf1, Hf2.
  set (path := "/" ++ image_file now).
  set (d1 := Orm.update_menu_item (db w) i1
               (fun m => MenuItem.set_image_path m path)).
  set (fs1 := write_file (images w) (image_file now) (content f1)).
  assert (Hr1 : r1 = {| world := {| db := d1; images := fs1 |};
                        session := s;
                        response := Redirect "/restaurant/menu" |}).
  { subst r1. enter_route upload_menu_item_image.
    rewrite (restaurant_only_granted _ _ _ _ Hadmin Hrole).
    rewrite Hq1. cbn [Py.bind]. rewrite Hf1, Hid1. reflexivity. }
  assert (H2' : Orm.menu_item_by_id d1 i2 = Some m2).
  { subst d1. rewrite menu_item_after_update by reflexivity.
    replace (i2 =? i1) with false; [exact H2|].
    symmetry. apply Z.eqb_neq. congruence. }
  set (d2 := Orm.update_menu_item d1 i2
               (fun m => MenuItem.set_image_path m path)).
  set (fs2 := write_file fs1 (image_file now) (content f2)).
  assert (Hr2 : r2 = {| world := {| db := d2; images := fs2 |};
                        session := s;
                        response := Redirect "/restaurant/menu" |}).
  { subst r2. rewrite Hr1. cbn [world session].
    enter_route upload_menu_item_image.
    assert (Hadmin' : get_current_user
                        (db {| db := d1; images := fs1 |}) s = Some admin)
      by exact Hadmin.
    rewrite (restaurant_only_granted _ _ _ _ Hadmin' Hrole).
    cbn [db images]. rewrite (query_menu_item_fits _ _ Hfits2), H2'.
    cbn [Py.bind]. rewrite Hf2, Hid2. reflexivity. }
  rewrite Hr2. cbn [world db images]. subst d2 d1.
  rewrite !menu_item_after_update by reflexivity.
  rewrite !Z.eqb_refl, H1, H2.
  replace (i1 =? i2) with false by (symmetry; now apply Z.eqb_neq).
  replace (i2 =? i1) with false
    by (symmetry; apply Z.eqb_neq; congruence).
  repeat split; try reflexivity; subst fs2; apply write_file_read.
Qed.

Lemma uploads_at_one_instant_collide_witness :
  let f1 := {| filename := "burger.png"; content := "burger" |} in
  let f2 := {| filename := "fries.png"; content := "fries" |} in
  let r1 := serve noon (PostMenuUploadImage 1 f1) seeded (Some 1) in
  let r2 := serve noon (PostMenuUploadImage 2 f2) (world r1) (session r1) in
  option_map MenuItem.image_path (Orm.menu_item_by_id (db (world r2)) 1)
  = Some (Some ("/" ++ image_file noon))
  /\ option_map MenuItem.image_path (Orm.menu_item_by_id (db (world r2)) 2)
     = Some (Some ("/" ++ image_file noon))
  /\ read_file (images (world r2)) (image_file noon) = Some "fries"
  /\ filter (fun f => String.eqb (fst f) (image_file noon)) (images (world r2))
     = [(image_file noon, "fries")].
Proof.
  apply (uploads_at_one_instant_collide noon seeded (Some 1)
           {| User.id := 1; User.username := "restaurant";
              User.password := "restaurant"; User.is_restaurant := true |}
           1 2
           {| MenuItem.id := 1; MenuItem.name := "漢堡";
              MenuItem.price := Some 80%float;
              MenuItem.description := Some "牛肉漢堡";
              MenuItem.image_path := None |}
           {| MenuItem.id := 2; MenuItem.name := "薯條";
              MenuItem.price := Some 40%float;
              MenuItem.description := Some "酥脆薯條";
              MenuItem.image_path := None |}
           {| filename := "burger.png"; content := "burger" |}
           {| filename := "fries.png"; content := "fries" |});
    try reflexivity; discriminate.
Defined.

(** ** From the order to its history *)









(** ** The menu pages *)

(** X21. The full menu image set by a restaurant account is the one the
    menu page shows next: after an upload with a file name, the file is on
    disk under the name of the instant, the menu items are as before, and
    the menu page of any logged-in user lists those items with the new
    image path, without writing anything.  This holds whether or not a
    settings row existed before the upload. *)
Theorem full_menu_upload_then_menu now now' w s s' admin user f :
  get_current_user (db w) s = Some admin ->
  User.is_restaurant admin = true ->
  get_current_user (db w) s' = Some user ->
  filename f <> "" ->
  let r := serve now (PostMenuUploadFullMenu f) w s in
  response r = Redirect "/restaurant/menu"
  /\ menu_items (db (world r)) = menu_items (db w)
  /\ read_file (images (world r)) (image_file now) = Some (content f)
  /\ serve now' GetCustomerMenu (world r) s'
     = {| world := world r; session := s';
          response := TemplateResponse "customer_menu.html"
                        (MenuPage user (menu_items (db w))
                                  (Some ("/" ++ image_file now))) |}.
Proof.
  intros Hadmin Hrole Huser Hname r.
  apply String.eqb_neq in Hname.
  set (path := "/" ++ image_file now).
  set (fs := write_file (images w) (image_file now) (content f)).
  assert (Hr : exists ms rest d1,
             menu_settings d1 = ms :: rest
             /\ users d1 = users (db w)
             /\ menu_items d1 = menu_items (db w)
             /\ r = {| world :=
                         {| db := Orm.update_menu_setting d1 (MenuSetting.id ms)
                                    (fun m => MenuSetting.set_full_menu_image
                                                m path);
                            images := fs |};
                       session := s;
                       response := Redirect "/restaurant/menu" |}).
  { subst r. enter_route upload_full_menu_image.
    rewrite (restaurant_only_granted _ _ _ _ Hadmin Hrole).
    unfold get_menu_settings.
    destruct (menu_settings (db w)) as [|ms rest] eqn:E.
    - unfold Orm.add_menu_setting. rewrite E, Hname. cbn [negb].
      eexists _, [], _. split; [|split; [|split; [|reflexivity]]];
        reflexivity.
    - rewrite Hname. cbn [negb].
      exists ms, rest, (db w). now repeat split. }
  destruct Hr as (ms & rest & d1 & Hms & Hu & Hm & Hr).
  rewrite Hr. cbn [world response db images].
  split; [reflexivity|]. split; [exact Hm|].
  split; [subst fs; apply write_file_read|].
  enter_route customer_menu.
  assert (Huser' : get_current_user
                     (db {| db := Orm.update_menu_setting d1 (MenuSetting.id ms)
                                    (fun m => MenuSetting.set_full_menu_image
                                                m path);
                            images := fs |}) s' = Some user).
  { destruct s' as [i|]; [|discriminate]. cbn in *.
    unfold Orm.user_by_id in *. cbn. now rewrite Hu. }
  rewrite (logged_in_user _ _ _ _ Huser'). cbn [db].
  assert (Hfirst : menu_settings
                     (Orm.update_menu_setting d1 (MenuSetting.id ms)
                        (fun m => MenuSetting.set_full_menu_image m path))
                   = MenuSetting.set_full_menu_image ms path
                     :: map (fun x => if MenuSetting.id x =? MenuSetting.id ms
                                      then MenuSetting.set_full_menu_image x path
                                      else x) rest).
  { unfold Orm.update_menu_setting.
    change (menu_settings (set_menu_settings d1 ?l)) with l.
    rewrite Hms. cbn [map]. now rewrite Z.eqb_refl. }
  unfold get_menu_settings. rewrite Hfirst.
  change (menu_items (Orm.update_menu_setting d1 ?i ?g)) with (menu_items d1).
  rewrite Hm. reflexivity.
Qed.

Lemma full_menu_upload_then_menu_witness :
  let f := {| filename := "menu.png"; content := "menu" |} in
  let r := serve noon (PostMenuUploadFullMenu f) seeded (Some 1) in
  response r = Redirect "/restaurant/menu"
  /\ menu_items (db (world r)) = menu_items (db seeded)
  /\ read_file (images (world r)) (image_file noon) = Some "menu"
  /\ serve later GetCustomerMenu (world r) (Some 2)
     = {| world := world r; session := Some 2;
          response := TemplateResponse "customer_menu.html"
                        (MenuPage
                           {| User.id := 2; User.username := "customer";
                              User.password := "customer";
                              User.is_restaurant := false |}
                           (menu_items (db seeded))
                           (Some ("/" ++ image_file noon))) |}.
Proof.
  apply (full_menu_upload_then_menu noon later seeded (Some 1) (Some 2)
           {| User.id := 1; User.username := "restaurant";
              User.password := "restaurant"; User.is_restaurant := true |}
           {| User.id := 2; User.username := "customer";
              User.password := "customer"; User.is_restaurant := false |}
           {| filename := "menu.png"; content := "menu" |});
    try reflexivity.
  discriminate.
Defined.

(** X22. A menu item added by a restaurant account is appended under a
    fresh id, with the given name and description and with the given price
    as the column keeps a float (a NaN as NULL, a negative zero as zero),
    and is found under that id at once.  The image is optional: without a file, or with
    a file that has no name, no file is written and the item has no image
    path; with a named file, the file is written under the name of the
    instant and the item points to it. *)
Theorem add_menu_item_effect now w s admin name price description item_image :
  get_current_user (db w) s = Some admin ->
  User.is_restaurant admin = true ->
  let r := serve now (PostMenuAdd name price description item_image) w s in
  let stored := match item_image with
                | Some f => negb (String.eqb (filename f) "")
                | None => false
                end in
  let item := {| MenuItem.id := Orm.next_id (map MenuItem.id (menu_items (db w)));
                 MenuItem.name := name; MenuItem.price := Sqlite.real price;
                 MenuItem.description := Some description;
                 MenuItem.image_path :=
                   if stored then Some ("/" ++ image_file now) else None |} in
  response r = Redirect "/restaurant/menu"
  /\ menu_items (db (world r)) = (menu_items (db w) ++ [item])%list
  /\ Orm.menu_item_by_id (db (world r)) (MenuItem.id item) = Some item
  /\ (stored = false -> images (world r) = images w)
  /\ (forall f, item_image = Some f -> stored = true ->
                read_file (images (world r)) (image_file now) = Some (content f)).
Proof.
  intros Hadmin Hrole r stored item.
  assert (Hr : r = {| world :=
                        {| db := set_menu_items (db w)
                                   (menu_items (db w) ++ [item])%list;
                           images :=
                             match item_image with
                             | Some f =>
                                 if stored
                                 then write_file (images w) (image_file now)
                                        (content f)
                                 else images w
                             | None => images w
                             end |};
                      session := s;
                      response := Redirect "/restaurant/menu" |}).
  { subst r item stored. enter_route add_menu_item.
    rewrite (restaurant_only_granted _ _ _ _ Hadmin Hrole).
    destruct item_image as [f|]; [|reflexivity].
    now destruct (negb (String.eqb (filename f) "")). }
  rewrite Hr. cbn [world response db images menu_items set_menu_items].
  split; [reflexivity|]. split; [reflexivity|]. split; [|split].
  - unfold Orm.menu_item_by_id. cbn [menu_items set_menu_items].
    rewrite find_app.
    destruct (find _ (menu_items (db w))) as [m|] eqn:E.
    + exfalso. apply find_some in E as [Hin E]. apply Z.eqb_eq in E.
      apply (next_id_fresh (map MenuItem.id (menu_items (db w)))).
      change (Orm.next_id (map MenuItem.id (menu_items (db w))))
        with (MenuItem.id item).
      rewrite <- E. now apply in_map.
    + cbn. now rewrite Z.eqb_refl.
  - intros Hstored. destruct item_image as [f|]; [|reflexivity].
    now rewrite Hstored.
  - intros f -> Hstored. rewrite Hstored. apply write_file_read.
Qed.

Lemma add_menu_item_effect_witness :
  let r := serve noon (PostMenuAdd "tea" (-0) "hot" None) seeded (Some 1) in
  let item := {| MenuItem.id := 5; MenuItem.name := "tea";
                 MenuItem.price := Some 0%float;
                 MenuItem.description := Some "hot";
                 MenuItem.image_path := None |} in
  response r = Redirect "/restaurant/menu"
  /\ menu_items (db (world r)) = (menu_items (db seeded) ++ [item])%list
  /\ Orm.menu_item_by_id (db (world r)) 5 = Some item
  /\ (false = false -> images (world r) = images seeded)
  /\ (forall f, @None UploadFile = Some f -> false = true ->
                read_file (images (world r)) (image_file noon)
                = Some (content f)).
Proof.
  exact (add_menu_item_effect noon seeded (Some 1)
           {| User.id := 1; User.username := "restaurant";
              User.password := "restaurant"; User.is_restaurant := true |}
           "tea" (-0)%float "hot" None eq_refl eq_refl).
Defined.
